(** * Course Planner: a shallow embedding of CSS499Category3.py

    The program is a menu-driven shell over two SQLite databases
    (course_database.db, user_database.db) that are filled from two CSV files.
    The embedding below follows the source function by function.

    Conventions of the model.
    - A Python [str] is a [string]; the text methods ([strip], [lower],
      [upper], [title], [split], [len], [int]) are Python's on text of the
      ASCII range ([ascii_text]). Outside of it Python has more blanks and
      more letters than the model: a statement that runs one of these
      methods on a line typed or on a stored text assumes [ascii_text] of
      it, unless the statement itself allows ASCII spellings only.
    - A table is the list of its rows in rowid order; PRIMARY KEY uniqueness
      is enforced by the INSERT.
    - The [sqlite3] module runs DDL in autocommit mode and opens a
      transaction before the first INSERT/UPDATE/DELETE of a connection; the
      transaction lasts until [commit], [rollback] or [close] (which discards
      it).
    - [input] reads the next line of a finite standard input and raises
      EOFError when there is none left. *)

From Stdlib Require Import String Ascii List ZArith Lia Bool Arith.
From Stdlib Require Import Sorted Permutation Mergesort Orders.
From Stdlib Require DecimalString DecimalNat.
Import ListNotations.
Open Scope string_scope.

(** ** Python text methods *)

Module PyStr.

(** Text of the ASCII range: every character has a code below 128. *)
Fixpoint ascii_text (s : string) : bool :=
  match s with
  | EmptyString => true
  | String c s' => (nat_of_ascii c <? 128)%nat && ascii_text s'
  end.

(** Characters for which [str.isspace] holds, in the ASCII range:
    TAB, LF, VT, FF, CR, FS, GS, RS, US and the space. Python has more of
    them outside of this range (NEL, the no-break space, ...). *)
Definition is_space (c : ascii) : bool :=
  let n := nat_of_ascii c in
  (((9 <=? n) && (n <=? 13)) || ((28 <=? n) && (n <=? 32)))%nat.

Definition is_upper (c : ascii) : bool :=
  let n := nat_of_ascii c in ((65 <=? n) && (n <=? 90))%nat.

Definition is_lower (c : ascii) : bool :=
  let n := nat_of_ascii c in ((97 <=? n) && (n <=? 122))%nat.

Definition lower_char (c : ascii) : ascii :=
  if is_upper c then ascii_of_nat (nat_of_ascii c + 32) else c.

Definition upper_char (c : ascii) : ascii :=
  if is_lower c then ascii_of_nat (nat_of_ascii c - 32) else c.

Fixpoint map_chars (f : ascii -> ascii) (s : string) : string :=
  match s with
  | EmptyString => EmptyString
  | String c s' => String (f c) (map_chars f s')
  end.

(** [s.lower()] and [s.upper()], for [s] in the ASCII range, where the
    cased characters are the 52 letters *)
Definition lower (s : string) : string := map_chars lower_char s.
Definition upper (s : string) : string := map_chars upper_char s.

Fixpoint lstrip (s : string) : string :=
  match s with
  | EmptyString => EmptyString
  | String c s' => if is_space c then lstrip s' else s
  end.

Fixpoint rstrip (s : string) : string :=
  match s with
  | EmptyString => EmptyString
  | String c s' =>
      match rstrip s' with
      | EmptyString => if is_space c then EmptyString else String c EmptyString
      | r => String c r
      end
  end.

(** [s.strip()] *)
Definition strip (s : string) : string := rstrip (lstrip s).

Definition is_empty (s : string) : bool :=
  match s with EmptyString => true | _ => false end.

(** [s.split()]: the maximal runs of non-blank characters, in order.
    [cur] is the word being read. *)
Fixpoint split_go (cur : string) (s : string) : list string :=
  match s with
  | EmptyString => if is_empty cur then [] else [cur]
  | String c s' =>
      if is_space c
      then (if is_empty cur then split_go EmptyString s'
            else cur :: split_go EmptyString s')
      else split_go (cur ++ String c EmptyString) s'
  end.

Definition split (s : string) : list string := split_go EmptyString s.

(** [s.split(sep)] for a one-character separator: every occurrence cuts,
    so empty pieces are kept. *)
Fixpoint split_on_go (sep : ascii) (cur : string) (s : string) : list string :=
  match s with
  | EmptyString => [cur]
  | String c s' =>
      if Ascii.eqb c sep then cur :: split_on_go sep EmptyString s'
      else split_on_go sep (cur ++ String c EmptyString) s'
  end.

Definition split_on (sep : ascii) (s : string) : list string :=
  split_on_go sep EmptyString s.

(** [s.title()]: a cased character is upper-cased when the character before
    it is not cased and lower-cased when it is. *)
Fixpoint title_go (prev_cased : bool) (s : string) : string :=
  match s with
  | EmptyString => EmptyString
  | String c s' =>
      if is_lower c
      then String (if prev_cased then c else upper_char c) (title_go true s')
      else if is_upper c
      then String (if prev_cased then lower_char c else c) (title_go true s')
      else String c (title_go false s')
  end.

Definition title (s : string) : string := title_go false s.

(** The values [join] can iterate over: a list of strings, or a string,
    whose elements are its characters. *)
Inductive iterable : Type :=
| IList (l : list string)
| IStr (s : string).

Fixpoint chars (s : string) : list string :=
  match s with
  | EmptyString => []
  | String c s' => String c EmptyString :: chars s'
  end.

Definition iter (v : iterable) : list string :=
  match v with
  | IList l => l
  | IStr s => chars s
  end.

(** [sep.join(v)] *)
Definition join (sep : string) (v : iterable) : string :=
  String.concat sep (iter v).

(** ['*' * n] and the like *)
Fixpoint repeat_str (s : string) (n : nat) : string :=
  match n with
  | O => EmptyString
  | S n' => s ++ repeat_str s n'
  end.

(** ["{:<n}".format(s)] *)
Definition ljust (n : nat) (s : string) : string :=
  s ++ repeat_str " " (n - String.length s).

Definition digit_val (c : ascii) : option Z :=
  let n := nat_of_ascii c in
  if ((48 <=? n) && (n <=? 57))%nat then Some (Z.of_nat (n - 48)) else None.

(** Digits of a decimal literal; one underscore may stand between two
    digits. [prev_digit] tells whether the character before was a digit. *)
Fixpoint parse_digits (acc : Z) (prev_digit : bool) (s : string) : option Z :=
  match s with
  | EmptyString => if prev_digit then Some acc else None
  | String c s' =>
      match digit_val c with
      | Some d => parse_digits (10 * acc + d) true s'
      | None =>
          if Ascii.eqb c "_" && prev_digit
          then (if is_empty s' then None else parse_digits acc false s')
          else None
      end
  end.

(** The blanks that [int] skips at both ends of an ASCII string: TAB, LF,
    VT, FF, CR and the space. FS, GS, RS and US, which [strip] removes,
    are not among them. *)
Definition is_int_space (c : ascii) : bool :=
  let n := nat_of_ascii c in
  (((9 <=? n) && (n <=? 13)) || (n =? 32))%nat.

Fixpoint int_lstrip (s : string) : string :=
  match s with
  | EmptyString => EmptyString
  | String c s' => if is_int_space c then int_lstrip s' else s
  end.

Fixpoint int_rstrip (s : string) : string :=
  match s with
  | EmptyString => EmptyString
  | String c s' =>
      match int_rstrip s' with
      | EmptyString => if is_int_space c then EmptyString else String c EmptyString
      | r => String c r
      end
  end.

Fixpoint count_digits (s : string) : nat :=
  match s with
  | EmptyString => O
  | String c s' =>
      match digit_val c with
      | Some _ => S (count_digits s')
      | None => count_digits s'
      end
  end.

(** [sys.get_int_max_str_digits()], as it is set when Python starts *)
Definition int_max_str_digits : nat := 4300.

(** The digits of [int]: more than [int_max_str_digits] of them are
    refused. *)
Definition int_digits (s : string) : option Z :=
  if (count_digits s <=? int_max_str_digits)%nat then parse_digits 0 false s
  else None.

(** [int(s)]: [None] stands for ValueError. *)
Definition int (s : string) : option Z :=
  match int_rstrip (int_lstrip s) with
  | String "+" ds => int_digits ds
  | String "-" ds => option_map Z.opp (int_digits ds)
  | ds => int_digits ds
  end.

End PyStr.

(** ** Tables and SQL statements *)

(** A row of the table [courses (id TEXT PRIMARY KEY, title, credits,
    description, prerequisites)]. *)
Record CourseRow : Type := mkCourse {
  course_id : string;
  course_title : string;
  course_credits : string;
  course_description : string;
  course_prerequisites : string
}.

(** A row of the table [users (username TEXT PRIMARY KEY, password)]. *)
Definition UserRow : Type := (string * string)%type.

Definition courses_table : Type := list CourseRow.
Definition users_table : Type := list UserRow.

(** ORDER BY on a TEXT column compares the byte strings. *)
Module KeyOrder <: TotalLeBool.

Definition t : Type := (string * string)%type.

Definition leb (x y : t) : bool := String.leb (fst x) (fst y).

Lemma leb_total : forall x y, leb x y = true \/ leb y x = true.
Proof. intros x y. apply String.leb_total. Qed.

End KeyOrder.

Module KeySort := Sort KeyOrder.

Module Sql.

Definition has_course (t : courses_table) (k : string) : bool :=
  existsb (fun r => course_id r =? k) t.

(** [SELECT * FROM courses WHERE id = ?] followed by [fetchone()] *)
Definition select_course (t : courses_table) (k : string) : option CourseRow :=
  find (fun r => course_id r =? k) t.

(** [INSERT INTO courses ... VALUES (...)]: [None] is the IntegrityError of
    the primary key. *)
Definition insert_course (t : courses_table) (r : CourseRow) : option courses_table :=
  if has_course t (course_id r) then None else Some (t ++ [r])%list.

(** [UPDATE courses SET title=?, credits=?, description=?, prerequisites=?
    WHERE id=?] *)
Definition update_course (t : courses_table) (r : CourseRow) : courses_table :=
  map (fun x => if course_id x =? course_id r then r else x) t.

(** [DELETE FROM courses WHERE id = ?] *)
Definition delete_course (t : courses_table) (k : string) : courses_table :=
  filter (fun x => negb (course_id x =? k)) t.

(** [SELECT id, title FROM courses ORDER BY id] followed by [fetchall()] *)
Definition select_id_title (t : courses_table) : list (string * string) :=
  KeySort.sort (map (fun r => (course_id r, course_title r)) t).

Definition has_user (t : users_table) (u : string) : bool :=
  existsb (fun r => fst r =? u) t.

(** [SELECT username FROM users WHERE username = ?], [fetchone()] *)
Definition select_user (t : users_table) (u : string) : option UserRow :=
  find (fun r => fst r =? u) t.

(** [SELECT * FROM users WHERE username = ? AND password = ?], [fetchone()] *)
Definition select_login (t : users_table) (u p : string) : option UserRow :=
  find (fun r => (fst r =? u) && (snd r =? p)) t.

(** [INSERT INTO users (username, password) VALUES (?, ?)] *)
Definition insert_user (t : users_table) (r : UserRow) : option users_table :=
  if has_user t (fst r) then None else Some (t ++ [r])%list.

(** [DELETE FROM users WHERE username = ?] *)
Definition delete_user (t : users_table) (u : string) : users_table :=
  filter (fun r => negb (fst r =? u)) t.

(** [SELECT username, password FROM users ORDER BY username], [fetchall()] *)
Definition select_users (t : users_table) : list UserRow :=
  KeySort.sort t.

End Sql.

(** ** The state of the process and of its files *)

(** What the process writes to the terminal: [print] lines and the prompts
    of [input]. *)
Inductive event : Type :=
| Print (s : string)
| Prompt (s : string).

Record World : Type := mkWorld {
  (** course_database.db as committed; [None]: it has no table [courses] *)
  course_db : option courses_table;
  (** the open transaction of [conn_courses], if any: its working copy *)
  course_txn : option courses_table;
  (** user_database.db as committed; [None]: the file does not exist *)
  user_db : option users_table;
  (** the open transaction of [conn_users], if any *)
  user_txn : option users_table;
  (** the rows of courselist.csv and userlist.csv as [csv.reader] yields
      them; [None]: the file does not exist *)
  courselist_csv : option (list (list string));
  userlist_csv : option (list (list string));
  stdin : list string;
  stdout : list event;
  data_loaded : bool;
  user_authenticated : bool;
  user_choice : option string
}.

Definition set_course_db (v : option courses_table) (w : World) : World :=
  mkWorld v (course_txn w) (user_db w) (user_txn w) (courselist_csv w)
          (userlist_csv w) (stdin w) (stdout w) (data_loaded w)
          (user_authenticated w) (user_choice w).

Definition set_course_txn (v : option courses_table) (w : World) : World :=
  mkWorld (course_db w) v (user_db w) (user_txn w) (courselist_csv w)
          (userlist_csv w) (stdin w) (stdout w) (data_loaded w)
          (user_authenticated w) (user_choice w).

Definition set_user_db (v : option users_table) (w : World) : World :=
  mkWorld (course_db w) (course_txn w) v (user_txn w) (courselist_csv w)
          (userlist_csv w) (stdin w) (stdout w) (data_loaded w)
          (user_authenticated w) (user_choice w).

Definition set_user_txn (v : option users_table) (w : World) : World :=
  mkWorld (course_db w) (course_txn w) (user_db w) v (courselist_csv w)
          (userlist_csv w) (stdin w) (stdout w) (data_loaded w)
          (user_authenticated w) (user_choice w).

Definition set_stdin (v : list string) (w : World) : World :=
  mkWorld (course_db w) (course_txn w) (user_db w) (user_txn w)
          (courselist_csv w) (userlist_csv w) v (stdout w) (data_loaded w)
          (user_authenticated w) (user_choice w).

Definition set_stdout (v : list event) (w : World) : World :=
  mkWorld (course_db w) (course_txn w) (user_db w) (user_txn w)
          (courselist_csv w) (userlist_csv w) (stdin w) v (data_loaded w)
          (user_authenticated w) (user_choice w).

Definition set_data_loaded (v : bool) (w : World) : World :=
  mkWorld (course_db w) (course_txn w) (user_db w) (user_txn w)
          (courselist_csv w) (userlist_csv w) (stdin w) (stdout w) v
          (user_authenticated w) (user_choice w).

Definition set_user_authenticated (v : bool) (w : World) : World :=
  mkWorld (course_db w) (course_txn w) (user_db w) (user_txn w)
          (courselist_csv w) (userlist_csv w) (stdin w) (stdout w)
          (data_loaded w) v (user_choice w).

Definition set_user_choice (v : option string) (w : World) : World :=
  mkWorld (course_db w) (course_txn w) (user_db w) (user_txn w)
          (courselist_csv w) (userlist_csv w) (stdin w) (stdout w)
          (data_loaded w) (user_authenticated w) v.

(** ** Computations: state passing with exceptions *)

Inductive exn : Type :=
| EOFError
| IntegrityError
| OperationalError
| IndexError
| ValueError.

Definition exn_eqb (a b : exn) : bool :=
  match a, b with
  | EOFError, EOFError | IntegrityError, IntegrityError
  | OperationalError, OperationalError | IndexError, IndexError
  | ValueError, ValueError => true
  | _, _ => false
  end.

(** The outcome of running a piece of the program: a value, an exception on
    its way up, or a loop of the model that was not given enough steps. *)
Inductive res (A : Type) : Type :=
| Ok (a : A) (w : World)
| Raise (e : exn) (w : World)
| OutOfFuel.

Arguments Ok {A} a w.
Arguments Raise {A} e w.
Arguments OutOfFuel {A}.

Definition M (A : Type) : Type := World -> res A.

Definition ret {A : Type} (a : A) : M A := fun w => Ok a w.

Definition bind {A B : Type} (m : M A) (k : A -> M B) : M B :=
  fun w =>
    match m w with
    | Ok a w' => k a w'
    | Raise e w' => Raise e w'
    | OutOfFuel => OutOfFuel
    end.

Definition raise {A : Type} (e : exn) : M A := fun w => Raise e w.

Definition get {A : Type} (f : World -> A) : M A := fun w => Ok (f w) w.

Definition modify (f : World -> World) : M unit := fun w => Ok tt (f w).

(** [try: m  except e: h] *)
Definition try_except {A : Type} (m : M A) (e : exn) (h : M A) : M A :=
  fun w =>
    match m w with
    | Raise e' w' => if exn_eqb e' e then h w' else Raise e' w'
    | r => r
    end.

Declare Scope py_scope.
Delimit Scope py_scope with py.
Notation "x <- m ;; k" := (bind m (fun x => k))
  (at level 61, m at next level, right associativity) : py_scope.
Notation "m ;; k" := (bind m (fun _ => k))
  (at level 61, right associativity) : py_scope.
Open Scope py_scope.

(** [print(s)] *)
Definition print (s : string) : M unit :=
  modify (fun w => set_stdout (stdout w ++ [Print s])%list w).

(** [input(prompt)] *)
Definition input (prompt : string) : M string :=
  fun w =>
    let w' := set_stdout (stdout w ++ [Prompt prompt])%list w in
    match stdin w with
    | [] => Raise EOFError w'
    | line :: rest => Ok line (set_stdin rest w')
    end.

(** *** Connections *)

(** What a statement on [conn_courses] reads: its own transaction when one
    is open, the committed table otherwise; without a table the statement
    raises "no such table". *)
Definition courses_read : M courses_table :=
  fun w =>
    match course_txn w with
    | Some t => Ok t w
    | None =>
        match course_db w with
        | Some t => Ok t w
        | None => Raise OperationalError w
        end
    end.

(** The effect of an INSERT, UPDATE or DELETE on [conn_courses]: the result
    stays in the connection's transaction. *)
Definition courses_write (t : courses_table) : M unit :=
  modify (set_course_txn (Some t)).

(** [conn_courses.commit()] *)
Definition courses_commit : M unit :=
  modify (fun w =>
            match course_txn w with
            | Some t => set_course_txn None (set_course_db (Some t) w)
            | None => w
            end).

(** [conn_courses.close()]: an open transaction is rolled back. *)
Definition courses_close : M unit := modify (set_course_txn None).

Definition users_read : M users_table :=
  fun w =>
    match user_txn w with
    | Some t => Ok t w
    | None =>
        match user_db w with
        | Some t => Ok t w
        | None => Raise OperationalError w
        end
    end.

Definition users_write (t : users_table) : M unit :=
  modify (set_user_txn (Some t)).

(** [conn_users.commit()] *)
Definition users_commit : M unit :=
  modify (fun w =>
            match user_txn w with
            | Some t => set_user_txn None (set_user_db (Some t) w)
            | None => w
            end).

Definition users_close : M unit := modify (set_user_txn None).

(** ** The program *)

Import PyStr.

Definition nl : string := String (ascii_of_nat 10) EmptyString.
Definition esc : string := String (ascii_of_nat 27) EmptyString.

(** [str(n)] for a natural number *)
Definition str_of_nat (n : nat) : string :=
  DecimalString.NilZero.string_of_uint (Nat.to_uint n).

Fixpoint print_lines (l : list string) : M unit :=
  match l with
  | [] => ret tt
  | s :: l' => print s ;; print_lines l'
  end.

Definition out_of_fuel {A : Type} : M A := fun _ => OutOfFuel.

(** *** load_course_data *)

(** The tuple bound to the INSERT of one CSV row. *)
Definition course_of_row (row : list string) : CourseRow :=
  let id := nth 0 row "" in
  let title := nth 1 row "" in
  let credits := nth 2 row "" in
  let description := nth 3 row "" in
  let prerequisites :=
    if (4 <? List.length row)%nat then IList (split (nth 4 row ""))
    else IStr "None" in
  mkCourse id title credits description (join ", " prerequisites).

(** The loop over the rows of the reader. [t] is the working copy of the
    transaction that the function's own connection opened with
    [DELETE FROM courses]. *)
Fixpoint load_course_rows (rows : list (list string)) (t : courses_table) : M bool :=
  match rows with
  | [] =>
      (* conn.commit(); conn.close(); return True *)
      modify (set_course_db (Some t)) ;;
      ret true
  | row :: rest =>
      if (4 <=? List.length row)%nat then
        match Sql.insert_course t (course_of_row row) with
        | Some t' => load_course_rows rest t'
        | None => raise IntegrityError
        end
      else
        print "Error: Invalid data format in the CSV file." ;;
        (* conn.rollback(): the working copy is dropped *)
        ret false
  end.

Definition load_course_data : M bool :=
  (* conn = sqlite3.connect(...); CREATE TABLE IF NOT EXISTS courses *)
  modify (fun w => match course_db w with
                   | None => set_course_db (Some []) w
                   | Some _ => w
                   end) ;;
  csv <- get courselist_csv ;;
  match csv with
  | Some rows =>
      (* DELETE FROM courses needs the write lock of the file, which an
         open transaction of conn_courses holds: "database is locked" *)
      held <- get course_txn ;;
      match held with
      | Some _ => raise OperationalError
      | None => load_course_rows rows []
      end
  | None =>
      print "Error: The course data file 'courselist.csv' is unavailable." ;;
      ret false
  end.

(** *** load_user_data *)

Fixpoint load_user_rows (rows : list (list string)) (t : users_table) : M bool :=
  match rows with
  | [] =>
      modify (set_user_db (Some t)) ;;
      ret true
  | row :: rest =>
      if (2 <=? List.length row)%nat then
        let username := lower (strip (nth 0 row "")) in
        let password := nth 1 row "" in
        held <- get user_txn ;;
        match held with
        | Some _ => raise OperationalError
        | None =>
            match Sql.insert_user t (username, password) with
            | Some t' => load_user_rows rest t'
            | None => raise IntegrityError
            end
        end
      else
        print "Error: Invalid data format in the CSV file." ;;
        ret false
  end.

Definition load_user_data : M bool :=
  (* if not os.path.exists("user_database.db"): create it with its table *)
  modify (fun w => match user_db w with
                   | None => set_user_db (Some []) w
                   | Some _ => w
                   end) ;;
  csv <- get userlist_csv ;;
  match csv with
  | Some rows =>
      t <- get user_db ;;
      load_user_rows rows (match t with Some t => t | None => [] end)
  | None =>
      print "Error: The user data file 'userlist.csv' is unavailable." ;;
      ret false
  end.

(** *** login *)

Fixpoint login_loop (fuel : nat) : M bool :=
  match fuel with
  | O => out_of_fuel
  | S fuel' =>
      raw <- input "Enter username: " ;;
      let username := lower (strip raw) in
      password <- input "Enter password: " ;;
      if (username =? "admin") && (password =? "admin") then
        print "Login successful." ;;
        ret true
      else
        users <- users_read ;;
        match Sql.select_login users username password with
        | Some _ =>
            print "Login successful." ;;
            ret true
        | None =>
            print "Login failed. Please try again." ;;
            login_loop fuel'
        end
  end.

(** Every turn of the loop reads two lines, so one more turn than there are
    lines left is never reached. *)
Definition login : M bool :=
  fun w => login_loop (S (List.length (stdin w))) w.

(** *** add_course *)

Definition add_course (data_loaded : bool) : M unit :=
  if data_loaded then
    raw_id <- input "Enter the course ID: " ;;
    let id := upper (strip raw_id) in
    raw_title <- input "Enter the course title: " ;;
    let title := PyStr.title raw_title in
    credits <- input "Enter the course credits: " ;;
    description <- input "Enter the course description: " ;;
    prerequisites <- input "Enter course prerequisites (space-separated, leave empty for none): " ;;
    let prerequisites := if prerequisites =? "" then "None" else prerequisites in
    let prerequisites :=
      filter (fun p => negb (is_empty p)) (map strip (split_on " " prerequisites)) in
    let course := mkCourse id title credits description (join ", " (IList prerequisites)) in
    t <- courses_read ;;
    match Sql.select_course t id with
    | Some _ =>
        print ("Course with the same ID '" ++ id ++ "' already exists.") ;;
        raw <- input "Do you want to replace it? (Y/N): " ;;
        let replace_confirmation := lower (strip raw) in
        if replace_confirmation =? "y" then
          courses_write (Sql.update_course t course) ;;
          print ("Course '" ++ id ++ "' replaced successfully.")
        else
          print "Course not replaced."
    | None =>
        match Sql.insert_course t course with
        | Some t' =>
            courses_write t' ;;
            print "Course added successfully."
        | None => raise IntegrityError
        end
    end
  else
    print "Course data is not loaded. Please choose option 1 to load data.".

(** *** delete_course *)

Fixpoint enumerate_from {A : Type} (i : nat) (l : list A) : list (nat * A) :=
  match l with
  | [] => []
  | x :: l' => (i, x) :: enumerate_from (S i) l'
  end.

Definition delete_course (data_loaded : bool) : M unit :=
  if data_loaded then
    t <- courses_read ;;
    let courses := Sql.select_id_title t in
    if (List.length courses =? 0)%nat then
      print "No courses found."
    else
      print "List of Courses:" ;;
      print_lines
        (map (fun ic => str_of_nat (fst ic) ++ ". ID: " ++ fst (snd ic)
                        ++ ", Title: " ++ snd (snd ic))
             (enumerate_from 1 courses)) ;;
      raw <- input "Enter the number of the course to delete: " ;;
      match int raw with
      | Some choice =>
          if ((1 <=? choice) && (choice <=? Z.of_nat (List.length courses)))%Z then
            let course_id := fst (nth (Z.to_nat (choice - 1)) courses ("", "")) in
            confirmation <-
              input ("Enter 'Y' to confirm delete course " ++ course_id
                     ++ " or 'N' to cancel: ") ;;
            if lower confirmation =? "y" then
              t' <- courses_read ;;
              courses_write (Sql.delete_course t' course_id) ;;
              print ("Course " ++ course_id ++ " deleted successfully.")
            else
              print "Deletion canceled."
          else
            print "Invalid choice. Please enter a valid course number."
      | None =>
          (* except ValueError *)
          print "Invalid input. Please enter a valid course number."
      end
  else
    print "Course data is not loaded. Please choose option 1 to load data.".

(** *** word_wrap *)

(** [None] is the IndexError of [words[0]]. [len] is [String.length]: the
    characters of a text of the ASCII range. *)
Definition word_wrap (text : string) (width : nat) : option string :=
  match split text with
  | [] => None
  | first :: words =>
      let step (st : list string * string) (word : string) :=
        let (lines, current_line) := st in
        if (String.length current_line + String.length word + 1 <=? width)%nat
        then (lines, current_line ++ " " ++ word)
        else ((lines ++ [current_line])%list, word) in
      let (lines, current_line) := fold_left step words ([], first) in
      Some (String.concat nl (lines ++ [current_line])%list)
  end.

(** *** The user management functions *)

Definition rule2 : string :=
  "+---------------------+---------------------+".

(** [len(user[1])] and the padding of ["{:<21}"] count the characters of
    texts of the ASCII range. *)
Definition list_users : M unit :=
  t <- users_read ;;
  let users := Sql.select_users t in
  print rule2 ;;
  print ("|" ++ ljust 21 "Username" ++ "|" ++ ljust 21 "Password" ++ "|") ;;
  print rule2 ;;
  print_lines
    (map (fun user => "|" ++ ljust 21 (fst user) ++ "|"
                      ++ ljust 21 (repeat_str "*" (String.length (snd user))) ++ "|")
         users) ;;
  print rule2.

Definition add_user : M unit :=
  raw <- input "Enter the username: " ;;
  let username := lower (strip raw) in
  password <- input "Enter the password: " ;;
  t <- users_read ;;
  match Sql.select_user t username with
  | Some _ => print "Error: Username already exists."
  | None =>
      match Sql.insert_user t (username, password) with
      | Some t' =>
          users_write t' ;;
          print ("User " ++ username ++ " added successfully.")
      | None => raise IntegrityError
      end
  end ;;
  users_commit.

Definition delete_user : M unit :=
  raw <- input "Enter the username to delete: " ;;
  let username := lower (strip raw) in
  if username =? "admin" then
    print "Error: Cannot delete admin."
  else
    t <- users_read ;;
    match Sql.select_user t username with
    | Some _ =>
        users_write (Sql.delete_user t username) ;;
        print ("User " ++ username ++ " deleted successfully.")
    | None => print "Error: User not found in the database."
    end ;;
    users_commit.

(** *** Course listing and details *)

Definition print_course_list : M unit :=
  loaded <- get data_loaded ;;
  if loaded then
    print "List of Courses:" ;;
    t <- courses_read ;;
    let courses := Sql.select_id_title t in
    match courses with
    | [] => print "No courses found."
    | _ => print_lines (map (fun course => fst course ++ ", " ++ snd course) courses)
    end
  else
    print "Course data is not loaded. Please choose option 1 to load data.".

Definition print_course_details (course : CourseRow) : M unit :=
  print "Course Details:" ;;
  print ("ID: " ++ course_id course) ;;
  print ("Title: " ++ course_title course) ;;
  print ("Credits: " ++ course_credits course) ;;
  print "Description: " ;;
  match word_wrap (course_description course) 80 with
  | None => raise IndexError
  | Some wrapped_description =>
      print wrapped_description ;;
      let prerequisites := course_prerequisites course in
      if lower prerequisites =? "none" then
        print "Prerequisites: None"
      else
        print ("Prerequisites: " ++ prerequisites)
  end.

(** *** The menus *)

Definition border : string := "+" ++ repeat_str "-" 30 ++ "+".
Definition cell (s : string) : string := "|" ++ ljust 30 s ++ "|".
Definition dashes : string := repeat_str "-" 30.

Definition display_main_menu : M unit :=
  authenticated <- get user_authenticated ;;
  let authenticated_text :=
    esc ++ "[1;32;40mUser Authenticated" ++ esc ++ "[m" in
  print border ;;
  print (cell "Welcome to the Course Planner") ;;
  print (cell dashes) ;;
  print (cell "1. Load Data Structure") ;;
  print (cell "2. Print Course List") ;;
  print (cell "3. Print Course Details") ;;
  print (cell "0. Exit Program") ;;
  print (cell dashes) ;;
  print (cell "Options below require login") ;;
  print (cell dashes) ;;
  print (cell "4. Add Course") ;;
  print (cell "5. Delete Course") ;;
  print (cell "6. Reset Default Course List") ;;
  print (cell dashes) ;;
  print (cell "* User Management Database") ;;
  print border ;;
  (if authenticated then
     print ("|" ++ authenticated_text ++ repeat_str " " 12 ++ "|") ;;
     print (cell dashes)
   else ret tt) ;;
  print border.

Definition display_user_management_menu : M unit :=
  print border ;;
  print (cell "User Management Database") ;;
  print (cell dashes) ;;
  print (cell "A. List Users") ;;
  print (cell "B. Add User") ;;
  print (cell "C. Delete User") ;;
  print (cell "R. Return to Main Menu") ;;
  print border.

(** *** The main program *)

Definition option_eqb (a : option string) (b : string) : bool :=
  match a with
  | Some s => s =? b
  | None => false
  end.

Definition mem (x : string) (l : list string) : bool :=
  existsb (fun y => x =? y) l.

(** The loop of the user management menu (option "*"). *)
Fixpoint admin_loop (fuel : nat) : M unit :=
  match fuel with
  | O => out_of_fuel
  | S fuel' =>
      display_user_management_menu ;;
      raw <- input "Select a user management option: " ;;
      let user_option := upper (strip raw) in
      if user_option =? "A" then list_users ;; admin_loop fuel'
      else if user_option =? "B" then add_user ;; admin_loop fuel'
      else if user_option =? "C" then delete_user ;; admin_loop fuel'
      else if user_option =? "R" then
        modify (set_user_authenticated false)
        (* break *)
      else
        print "Invalid option. Please select a valid user management option." ;;
        admin_loop fuel'
  end.

Definition admin_menu : M unit :=
  fun w => admin_loop (S (List.length (stdin w))) w.

(** Options "4", "5" and "6", once the login gate is passed. *)
Definition course_operation (option : string) : M unit :=
  if option =? "4" then
    loaded <- get data_loaded ;;
    add_course loaded
  else if option =? "5" then
    loaded <- get data_loaded ;;
    delete_course loaded
  else if option =? "6" then
    raw <- input "Are you sure you want to reset the default course list? (Y/N): " ;;
    let reset_confirmation := lower (strip raw) in
    if reset_confirmation =? "y" then
      courses_close ;;
      (* os.remove("course_database.db"); sqlite3.connect(...) *)
      modify (set_course_db None) ;;
      loaded <- load_course_data ;;
      modify (set_data_loaded loaded) ;;
      if loaded then print "Database reset. Default data structure loaded."
      else ret tt
    else if negb (reset_confirmation =? "n") then
      print "Invalid choice. Please enter 'Y' to confirm reset or 'N' to cancel."
    else ret tt
  else
    print "Login required.".

(** Options "4", "5" and "6" when [user_authenticated] is false: the login,
    then the operation. *)
Definition login_gate (option : string) : M bool :=
  print "Login required." ;;
  ok <- login ;;
  modify (set_user_authenticated ok) ;;
  if ok then
    print "User authenticated." ;;
    course_operation option ;;
    ret true
  else
    print "Login failed. Please try again." ;;
    (* continue *)
    ret true.

(** Option "1". *)
Definition load_option (option : string) : M unit :=
  loaded <- get data_loaded ;;
  choice <- get user_choice ;;
  if negb loaded || option_eqb choice option then
    loaded' <- load_course_data ;;
    modify (set_data_loaded loaded') ;;
    if loaded' then print "Course data loaded successfully." else ret tt
  else
    print "Course data is already loaded.".

(** Option "2". *)
Definition list_option : M unit :=
  loaded <- get data_loaded ;;
  if loaded then print_course_list
  else print "Course data is not loaded. Please choose option 1 to load data.".

(** Option "3". *)
Definition details_option : M unit :=
  loaded <- get data_loaded ;;
  if loaded then
    raw <- input "Enter the course ID: " ;;
    let course_id := upper (strip raw) in
    t <- courses_read ;;
    match Sql.select_course t course_id with
    | Some course => print_course_details course
    | None => print ("Course " ++ course_id ++ " not found.")
    end
  else
    print "Course data is not loaded. Please choose option 1 to load data.".

(** Option "0", up to the [break]. *)
Definition exit_option : M unit :=
  raw <- input "Do you want to save changes? (Y/N): " ;;
  let save_changes := lower (strip raw) in
  (if save_changes =? "y" then
     courses_commit ;;
     print "Changes saved successfully."
   else ret tt) ;;
  print "Thank You For Using The Course Planner.".

(** Options "4", "5" and "6". *)
Definition course_option (option : string) : M bool :=
  authenticated <- get user_authenticated ;;
  choice <- get user_choice ;;
  (if authenticated || option_eqb choice option
   then modify (set_user_choice (Some option)) else ret tt) ;;
  authenticated <- get user_authenticated ;;
  if negb authenticated then login_gate option
  else
    course_operation option ;;
    ret true.

(** Option "*". *)
Definition admin_option : M unit :=
  let admin_username := "admin" in
  let admin_password := "admin" in
  print "Only an administrator can login for user management." ;;
  raw <- input "Enter admin username: " ;;
  let admin_login_username := lower (strip raw) in
  admin_login_password <- input "Enter admin password: " ;;
  if (admin_login_username =? admin_username)
     && (admin_login_password =? admin_password) then
    modify (set_user_choice (Some "*")) ;;
    modify (set_user_authenticated true) ;;
    admin_menu
  else
    print "Invalid admin credentials. Access denied.".

(** The body of the [try] of one turn of the main loop, after the option
    was read: the chain of [if]/[elif] on the option. The result tells
    whether the loop goes on ([false]: break). *)
Definition dispatch (option : string) : M bool :=
  if negb (mem option ["0"; "1"; "2"; "3"; "4"; "5"; "6"; "*"]) then
    print "Invalid option. Please enter a valid menu option." ;;
    ret true
  else if option =? "1" then load_option option ;; ret true
  else if option =? "2" then list_option ;; ret true
  else if option =? "3" then details_option ;; ret true
  else if option =? "0" then exit_option ;; ret false
  else if mem option ["4"; "5"; "6"] then course_option option
  else if option =? "*" then admin_option ;; ret true
  else ret true.

(** One turn of [while True]: the menu, then the [try] block with its
    [except ValueError]. *)
Definition main_turn : M bool :=
  display_main_menu ;;
  try_except
    (option <- input "Select an option: " ;; dispatch option)
    ValueError
    (print "Invalid choice. Please enter a valid menu option." ;; ret true).

Fixpoint main_loop (fuel : nat) : M unit :=
  match fuel with
  | O => out_of_fuel
  | S fuel' =>
      continue <- main_turn ;;
      if continue then main_loop fuel' else ret tt
  end.

(** The statements before the loop: both connections are opened, the table
    [users] is created if it is missing, the flags are initialised. *)
Definition main_init : M unit :=
  modify (fun w => match user_db w with
                   | None => set_user_db (Some []) w
                   | Some _ => w
                   end) ;;
  modify (set_data_loaded false) ;;
  modify (set_user_authenticated false) ;;
  modify (set_user_choice None) ;;
  db <- get user_db ;;
  (* if not os.path.exists("user_database.db") *)
  match db with
  | None =>
      loaded <- load_user_data ;;
      modify (set_data_loaded loaded)
  | Some _ =>
      modify (set_data_loaded true)
  end.

(** The whole program: every turn of the main loop reads a line, so one more
    turn than there are lines is never reached. *)
Definition main : M unit :=
  fun w =>
    (main_init ;;
     main_loop (S (List.length (stdin w))) ;;
     courses_close ;;
     users_close) w.

(** What is left in the two database files when the process is over, be it
    by the exit option or by an uncaught exception: the transactions still
    open are lost. *)
Definition files_after {A : Type} (r : res A) : option (option courses_table * option users_table) :=
  match r with
  | Ok _ w => Some (course_db w, user_db w)
  | Raise _ w => Some (course_db w, user_db w)
  | OutOfFuel => None
  end.

(** A world with the given files and standard input, nothing printed yet;
    the flags are set by [main_init]. *)
Definition boot (courses : option courses_table) (users : option users_table)
    (courselist userlist : option (list (list string))) (lines : list string) : World :=
  mkWorld courses None users None courselist userlist lines [] false false None.

(** * Properties *)

Arguments lower : simpl never.
Arguments upper : simpl never.
Arguments strip : simpl never.
Arguments split : simpl never.
Arguments title : simpl never.

(** ** Sanity checks of the text methods *)

Example strip_ex : strip "  Admin " = "Admin".
Proof. reflexivity. Qed.

Example split_ex : split " CS100   CS102 " = ["CS100"; "CS102"].
Proof. reflexivity. Qed.

Example split_on_ex : split_on " " "a  b" = ["a"; ""; "b"].
Proof. reflexivity. Qed.

Example title_ex : title "intro to cS" = "Intro To Cs".
Proof. reflexivity. Qed.

Example join_str_ex : join ", " (IStr "None") = "N, o, n, e".
Proof. reflexivity. Qed.

Example int_ex :
  int " 1_2 " = Some 12%Z /\ int "1__2" = None /\ int "" = None /\
  int "-7" = Some (-7)%Z /\
  int (String (ascii_of_nat 28) "1") = None /\
  int (repeat_str "1" 4301) = None.
Proof. repeat split; vm_compute; reflexivity. Qed.

Example word_wrap_ex : word_wrap "  a  bc " 3 = Some ("a" ++ nl ++ "bc").
Proof. reflexivity. Qed.

(** ** A relation kept by every step of a computation *)

Section Post.

Variable Q : World -> World -> Prop.
Hypothesis Q_refl : forall w, Q w w.
Hypothesis Q_trans : forall a b c, Q a b -> Q b c -> Q a c.

(** [post m]: whatever [m] does, normally or by an exception, the world it
    leaves is related by [Q] to the one it started in. *)
Definition post {A : Type} (m : M A) : Prop :=
  forall w,
    match m w with
    | Ok _ w' => Q w w'
    | Raise _ w' => Q w w'
    | OutOfFuel => True
    end.

Lemma post_ret {A : Type} (a : A) : post (ret a).
Proof. intros w. apply Q_refl. Qed.

Lemma post_raise {A : Type} (e : exn) : post (@raise A e).
Proof. intros w. apply Q_refl. Qed.

Lemma post_get {A : Type} (f : World -> A) : post (get f).
Proof. intros w. apply Q_refl. Qed.

Lemma post_out_of_fuel {A : Type} : post (@out_of_fuel A).
Proof. intros w. exact I. Qed.

Lemma post_modify (f : World -> World) :
  (forall w, Q w (f w)) -> post (modify f).
Proof. intros H w. apply H. Qed.

Lemma post_bind {A B : Type} (m : M A) (k : A -> M B) :
  post m -> (forall a, post (k a)) -> post (bind m k).
Proof.
  intros Hm Hk w. unfold bind. specialize (Hm w).
  destruct (m w) as [a w1|e w1|]; auto.
  specialize (Hk a w1). destruct (k a w1); eauto.
Qed.

Lemma post_try_except {A : Type} (m : M A) (e : exn) (h : M A) :
  post m -> post h -> post (try_except m e h).
Proof.
  intros Hm Hh w. unfold try_except. specialize (Hm w).
  destruct (m w) as [a w1|e' w1|]; auto.
  destruct (exn_eqb e' e); auto.
  specialize (Hh w1). destruct (h w1); eauto.
Qed.

Hypothesis Q_stdout : forall w v, Q w (set_stdout v w).
Hypothesis Q_stdin_tail : forall w x l, stdin w = x :: l -> Q w (set_stdin l w).

Lemma post_print (s : string) : post (print s).
Proof. apply post_modify. intros w. apply Q_stdout. Qed.

Lemma post_input (p : string) : post (input p).
Proof.
  intros w. unfold input. destruct (stdin w) as [|x l] eqn:E.
  - apply Q_stdout.
  - eapply Q_trans; [apply Q_stdout|]. apply Q_stdin_tail with (x := x). exact E.
Qed.

Lemma post_print_lines (l : list string) : post (print_lines l).
Proof.
  induction l as [|s l IH]; simpl.
  - apply post_ret.
  - apply post_bind; [apply post_print | intros _; exact IH].
Qed.

Lemma post_courses_read : post courses_read.
Proof.
  intros w. unfold courses_read.
  destruct (course_txn w); [apply Q_refl|]. destruct (course_db w); apply Q_refl.
Qed.

Lemma post_users_read : post users_read.
Proof.
  intros w. unfold users_read.
  destruct (user_txn w); [apply Q_refl|]. destruct (user_db w); apply Q_refl.
Qed.

End Post.

(** One step of a proof of [post Q m], by the shape of [m]. *)
Ltac post_step :=
  match goal with
  | |- post _ (bind _ _) =>
      apply post_bind; try assumption;
      try lazymatch goal with |- forall _, _ => intro end
  | |- post _ (ret _) => apply post_ret; assumption
  | |- post _ (raise _) => apply post_raise; assumption
  | |- post _ (get _) => apply post_get; assumption
  | |- post _ out_of_fuel => apply post_out_of_fuel
  | |- post _ (print _) => apply post_print; assumption
  | |- post _ (input _) => apply post_input; assumption
  | |- post _ (print_lines _) => apply post_print_lines; assumption
  | |- post _ courses_read => apply post_courses_read; assumption
  | |- post _ users_read => apply post_users_read; assumption
  | |- post _ (if ?b then _ else _) => destruct b
  | |- post _ (match ?x with _ => _ end) => destruct x
  end.

(** *** The course file is written by commits only *)

Definition same_course_db (w w' : World) : Prop := course_db w' = course_db w.

Ltac same_course_db_facts :=
  assert (forall w, same_course_db w w) by (intros; reflexivity);
  assert (forall a b c, same_course_db a b -> same_course_db b c -> same_course_db a c)
    by (unfold same_course_db; intros; congruence);
  assert (forall w v, same_course_db w (set_stdout v w)) by (intros; reflexivity);
  assert (forall w x l, stdin w = x :: l -> same_course_db w (set_stdin l w))
    by (intros; reflexivity).

Lemma add_course_keeps_course_db (b : bool) : post same_course_db (add_course b).
Proof.
  same_course_db_facts. unfold add_course.
  repeat post_step; apply post_modify; intros w; reflexivity.
Qed.

Lemma delete_course_keeps_course_db (b : bool) : post same_course_db (delete_course b).
Proof.
  same_course_db_facts. unfold delete_course.
  repeat post_step; apply post_modify; intros w; reflexivity.
Qed.

(** *** No function reads input that is not there *)

Definition stdin_le (w w' : World) : Prop :=
  List.length (stdin w') <= List.length (stdin w).

Ltac stdin_le_facts :=
  assert (forall w, stdin_le w w) by (intros; unfold stdin_le; lia);
  assert (forall a b c, stdin_le a b -> stdin_le b c -> stdin_le a c)
    by (unfold stdin_le; intros; lia);
  assert (forall w v, stdin_le w (set_stdout v w)) by (intros; unfold stdin_le; simpl; lia);
  assert (forall w x l, stdin w = x :: l -> stdin_le w (set_stdin l w))
    by (let E := fresh "E" in
        intros ? ? ? E; unfold stdin_le; rewrite E; simpl; lia).

Ltac stdin_le_modify :=
  apply post_modify; intros w; unfold stdin_le;
  repeat match goal with |- context [match ?x with _ => _ end] => destruct x end;
  simpl; lia.

Ltac stdin_le_auto := repeat post_step; try stdin_le_modify.

(** *** The loops of the model are given enough steps *)

Definition total {A : Type} (m : M A) : Prop := forall w, m w <> OutOfFuel.

Lemma total_ret {A : Type} (a : A) : total (ret a).
Proof. intros w. discriminate. Qed.

Lemma total_raise {A : Type} (e : exn) : total (@raise A e).
Proof. intros w. discriminate. Qed.

Lemma total_get {A : Type} (f : World -> A) : total (get f).
Proof. intros w. discriminate. Qed.

Lemma total_modify (f : World -> World) : total (modify f).
Proof. intros w. discriminate. Qed.

Lemma total_print (s : string) : total (print s).
Proof. intros w. discriminate. Qed.

Lemma total_input (p : string) : total (input p).
Proof. intros w. unfold input. destruct (stdin w); discriminate. Qed.

Lemma total_bind {A B : Type} (m : M A) (k : A -> M B) :
  total m -> (forall a, total (k a)) -> total (bind m k).
Proof.
  intros Hm Hk w. unfold bind. specialize (Hm w).
  destruct (m w) as [a w1|e w1|]; [apply Hk | discriminate | congruence].
Qed.

Lemma total_try_except {A : Type} (m : M A) (e : exn) (h : M A) :
  total m -> total h -> total (try_except m e h).
Proof.
  intros Hm Hh w. unfold try_except. specialize (Hm w).
  destruct (m w) as [a w1|e' w1|]; [discriminate | | congruence].
  destruct (exn_eqb e' e); [apply Hh | discriminate].
Qed.

Lemma total_print_lines (l : list string) : total (print_lines l).
Proof.
  induction l as [|s l IH]; simpl.
  - apply total_ret.
  - apply total_bind; [apply total_print | intros _; exact IH].
Qed.

Lemma total_courses_read : total courses_read.
Proof.
  intros w. unfold courses_read.
  destruct (course_txn w); [discriminate|]. destruct (course_db w); discriminate.
Qed.

Lemma total_users_read : total users_read.
Proof.
  intros w. unfold users_read.
  destruct (user_txn w); [discriminate|]. destruct (user_db w); discriminate.
Qed.

Ltac total_step :=
  match goal with
  | |- total (bind _ _) =>
      apply total_bind; try lazymatch goal with |- forall _, _ => intro end
  | |- total (ret _) => apply total_ret
  | |- total (raise _) => apply total_raise
  | |- total (get _) => apply total_get
  | |- total (modify _) => apply total_modify
  | |- total (print _) => apply total_print
  | |- total (input _) => apply total_input
  | |- total (print_lines _) => apply total_print_lines
  | |- total courses_read => apply total_courses_read
  | |- total users_read => apply total_users_read
  | |- total (courses_write _) => apply total_modify
  | |- total (users_write _) => apply total_modify
  | |- total courses_commit => apply total_modify
  | |- total users_commit => apply total_modify
  | |- total courses_close => apply total_modify
  | |- total (if ?b then _ else _) => destruct b
  | |- total (match ?x with _ => _ end) => destruct x
  end.

(** A computation that has a result when its input is long enough for the
    steps it was given. *)
Lemma bind_ok {A B : Type} (m : M A) (k : A -> M B) (w w1 : World) (a : A) :
  m w = Ok a w1 -> bind m k w = k a w1.
Proof. intros E. unfold bind. now rewrite E. Qed.

Lemma bind_raise {A B : Type} (m : M A) (k : A -> M B) (w w1 : World) (e : exn) :
  m w = Raise e w1 -> bind m k w = Raise e w1.
Proof. intros E. unfold bind. now rewrite E. Qed.

Lemma input_cons (p : string) (w : World) (x : string) (l : list string) :
  stdin w = x :: l ->
  input p w = Ok x (set_stdin l (set_stdout (stdout w ++ [Prompt p])%list w)).
Proof. intros E. unfold input. now rewrite E. Qed.

Lemma input_nil (p : string) (w : World) :
  stdin w = [] ->
  input p w = Raise EOFError (set_stdout (stdout w ++ [Prompt p])%list w).
Proof. intros E. unfold input. now rewrite E. Qed.

Lemma login_loop_total (fuel : nat) :
  forall w, List.length (stdin w) < fuel -> login_loop fuel w <> OutOfFuel.
Proof.
  induction fuel as [|fuel IH]; intros w Hlen; [lia|].
  destruct w as [cdb ctx udb utx ccsv ucsv inp out dl ua uc].
  simpl in Hlen. simpl. unfold bind, input. simpl.
  destruct inp as [|u [|p l]]; simpl; try discriminate.
  destruct ((lower (strip u) =? "admin") && (p =? "admin")); simpl; [discriminate|].
  unfold users_read. simpl.
  destruct utx as [t|]; [|destruct udb as [t|]; [|discriminate]];
    (destruct (Sql.select_login t (lower (strip u)) p); simpl;
     [discriminate | apply IH; simpl in *; lia]).
Qed.

Lemma total_login : total login.
Proof. intros w. unfold login. apply login_loop_total. lia. Qed.

Lemma load_course_rows_stdin (rows : list (list string)) :
  forall t, post stdin_le (load_course_rows rows t).
Proof.
  stdin_le_facts.
  induction rows as [|row rows IH]; intros t; simpl; stdin_le_auto. apply IH.
Qed.

Lemma load_course_data_stdin : post stdin_le load_course_data.
Proof.
  stdin_le_facts. unfold load_course_data. stdin_le_auto.
  apply load_course_rows_stdin.
Qed.

Lemma login_loop_stdin (fuel : nat) : post stdin_le (login_loop fuel).
Proof.
  stdin_le_facts.
  induction fuel as [|fuel IH]; simpl; stdin_le_auto. exact IH.
Qed.

Lemma login_stdin : post stdin_le login.
Proof. intros w. unfold login. apply login_loop_stdin. Qed.

Lemma add_course_stdin (b : bool) : post stdin_le (add_course b).
Proof. stdin_le_facts. unfold add_course. stdin_le_auto. Qed.

Lemma delete_course_stdin (b : bool) : post stdin_le (delete_course b).
Proof. stdin_le_facts. unfold delete_course. stdin_le_auto. Qed.

Lemma list_users_stdin : post stdin_le list_users.
Proof. stdin_le_facts. unfold list_users. stdin_le_auto. Qed.

Lemma add_user_stdin : post stdin_le add_user.
Proof. stdin_le_facts. unfold add_user. stdin_le_auto. Qed.

Lemma delete_user_stdin : post stdin_le delete_user.
Proof. stdin_le_facts. unfold delete_user. stdin_le_auto. Qed.

Lemma display_main_menu_stdin : post stdin_le display_main_menu.
Proof. stdin_le_facts. unfold display_main_menu. stdin_le_auto. Qed.

Lemma display_user_management_menu_stdin : post stdin_le display_user_management_menu.
Proof. stdin_le_facts. unfold display_user_management_menu. stdin_le_auto. Qed.

Lemma print_course_list_stdin : post stdin_le print_course_list.
Proof. stdin_le_facts. unfold print_course_list. stdin_le_auto. Qed.

Lemma print_course_details_stdin (c : CourseRow) : post stdin_le (print_course_details c).
Proof. stdin_le_facts. unfold print_course_details. stdin_le_auto. Qed.

Lemma admin_loop_stdin (fuel : nat) : post stdin_le (admin_loop fuel).
Proof.
  stdin_le_facts.
  induction fuel as [|fuel IH]; simpl; [apply post_out_of_fuel|].
  pose proof display_user_management_menu_stdin.
  pose proof list_users_stdin. pose proof add_user_stdin. pose proof delete_user_stdin.
  stdin_le_auto; assumption.
Qed.

Lemma admin_menu_stdin : post stdin_le admin_menu.
Proof. intros w. unfold admin_menu. apply admin_loop_stdin. Qed.

Lemma course_operation_stdin (o : string) : post stdin_le (course_operation o).
Proof.
  stdin_le_facts. unfold course_operation.
  pose proof add_course_stdin. pose proof delete_course_stdin.
  pose proof load_course_data_stdin.
  stdin_le_auto; auto.
Qed.

Lemma login_gate_stdin (o : string) : post stdin_le (login_gate o).
Proof.
  stdin_le_facts. unfold login_gate.
  pose proof login_stdin. pose proof (course_operation_stdin o).
  stdin_le_auto; auto.
Qed.

Lemma dispatch_stdin (o : string) : post stdin_le (dispatch o).
Proof.
  stdin_le_facts.
  unfold dispatch, load_option, list_option, details_option, exit_option,
    course_option, admin_option.
  pose proof (login_gate_stdin o). pose proof (course_operation_stdin o).
  pose proof load_course_data_stdin. pose proof print_course_list_stdin.
  pose proof print_course_details_stdin. pose proof admin_menu_stdin.
  stdin_le_auto; auto.
Qed.

Ltac total_auto := repeat total_step.

Lemma total_load_course_rows (rows : list (list string)) :
  forall t, total (load_course_rows rows t).
Proof.
  induction rows as [|row rows IH]; intros t; simpl; total_auto. apply IH.
Qed.

Lemma total_load_course_data : total load_course_data.
Proof. unfold load_course_data. total_auto. apply total_load_course_rows. Qed.

Lemma total_add_course (b : bool) : total (add_course b).
Proof. unfold add_course. total_auto. Qed.

Lemma total_delete_course (b : bool) : total (delete_course b).
Proof. unfold delete_course. total_auto. Qed.

Lemma total_list_users : total list_users.
Proof. unfold list_users. total_auto. Qed.

Lemma total_add_user : total add_user.
Proof. unfold add_user. total_auto. Qed.

Lemma total_delete_user : total delete_user.
Proof. unfold delete_user. total_auto. Qed.

Lemma total_display_main_menu : total display_main_menu.
Proof. unfold display_main_menu. total_auto. Qed.

Lemma total_display_user_management_menu : total display_user_management_menu.
Proof. unfold display_user_management_menu. total_auto. Qed.

Lemma total_print_course_list : total print_course_list.
Proof. unfold print_course_list. total_auto. Qed.

Lemma total_print_course_details (c : CourseRow) : total (print_course_details c).
Proof. unfold print_course_details. total_auto. Qed.

(** A step that does not lengthen the input, followed by a rest that is
    fine on every input that is not longer. *)
Lemma bind_total_le {A B : Type} (m : M A) (k : A -> M B) (w : World) :
  post stdin_le m -> total m ->
  (forall a w1, List.length (stdin w1) <= List.length (stdin w) -> k a w1 <> OutOfFuel) ->
  bind m k w <> OutOfFuel.
Proof.
  intros Hp Ht Hk. unfold bind. specialize (Hp w). specialize (Ht w).
  destruct (m w) as [a w1|e w1|]; [apply Hk; exact Hp | discriminate | congruence].
Qed.

Lemma bind_input_total {B : Type} (p : string) (k : string -> M B) (w : World) :
  (forall x w1, List.length (stdin w1) < List.length (stdin w) -> k x w1 <> OutOfFuel) ->
  bind (input p) k w <> OutOfFuel.
Proof.
  intros Hk. unfold bind, input.
  destruct (stdin w) as [|x l] eqn:E; [discriminate|].
  apply Hk. simpl. lia.
Qed.

Lemma admin_loop_total (fuel : nat) :
  forall w, List.length (stdin w) < fuel -> admin_loop fuel w <> OutOfFuel.
Proof.
  induction fuel as [|fuel IH]; intros w Hlen; [lia|].
  simpl.
  apply bind_total_le;
    [apply display_user_management_menu_stdin
    |apply total_display_user_management_menu|].
  intros _ w1 H1. apply bind_input_total. intros raw w2 H2.
  destruct (upper (strip raw) =? "A").
  { apply bind_total_le; [apply list_users_stdin | apply total_list_users|].
    intros _ w3 H3. apply IH. lia. }
  destruct (upper (strip raw) =? "B").
  { apply bind_total_le; [apply add_user_stdin | apply total_add_user|].
    intros _ w3 H3. apply IH. lia. }
  destruct (upper (strip raw) =? "C").
  { apply bind_total_le; [apply delete_user_stdin | apply total_delete_user|].
    intros _ w3 H3. apply IH. lia. }
  destruct (upper (strip raw) =? "R"); [discriminate|].
  apply bind_total_le; [|apply total_print|].
  { stdin_le_facts. apply post_print; assumption. }
  intros _ w3 H3. apply IH. lia.
Qed.

Lemma total_admin_menu : total admin_menu.
Proof. intros w. unfold admin_menu. apply admin_loop_total. lia. Qed.

Lemma total_course_operation (o : string) : total (course_operation o).
Proof.
  unfold course_operation.
  pose proof total_add_course. pose proof total_delete_course.
  pose proof total_load_course_data.
  total_auto; auto.
Qed.

Lemma total_login_gate (o : string) : total (login_gate o).
Proof.
  unfold login_gate. pose proof total_login. pose proof (total_course_operation o).
  total_auto; auto.
Qed.

Lemma total_dispatch (o : string) : total (dispatch o).
Proof.
  unfold dispatch, load_option, list_option, details_option, exit_option,
    course_option, admin_option.
  pose proof (total_login_gate o). pose proof (total_course_operation o).
  pose proof total_load_course_data. pose proof total_print_course_list.
  pose proof total_print_course_details. pose proof total_admin_menu.
  total_auto; auto.
Qed.

(** A turn of the main loop that comes back has read at least one line. *)
Lemma main_turn_reads (w w' : World) (b : bool) :
  main_turn w = Ok b w' -> List.length (stdin w') < List.length (stdin w).
Proof.
  unfold main_turn. intros E.
  unfold bind at 1 in E.
  pose proof (display_main_menu_stdin w) as H0.
  destruct (display_main_menu w) as [[] w0|e w0|]; try discriminate.
  unfold stdin_le in H0.
  unfold try_except in E. unfold bind at 1 in E. unfold input in E.
  destruct (stdin w0) as [|x l] eqn:E0; simpl in E; [discriminate|].
  set (w1 := set_stdin l (set_stdout (stdout w0 ++ [Prompt "Select an option: "])%list w0)) in E.
  pose proof (dispatch_stdin x w1) as H1. unfold stdin_le in H1.
  assert (L1 : List.length (stdin w1) = List.length l) by reflexivity.
  destruct (dispatch x w1) as [b' w2|e w2|]; try discriminate.
  - inversion E; subst. simpl in H0. lia.
  - destruct (exn_eqb e ValueError); [|discriminate].
    unfold bind, print, modify, ret in E. inversion E; subst.
    simpl in *. lia.
Qed.

Lemma total_main_turn : total main_turn.
Proof.
  unfold main_turn. pose proof total_display_main_menu. pose proof total_dispatch.
  apply total_bind; [assumption|]. intros _.
  apply total_try_except; total_auto; auto.
Qed.

Lemma main_loop_total (fuel : nat) :
  forall w, List.length (stdin w) < fuel -> main_loop fuel w <> OutOfFuel.
Proof.
  induction fuel as [|fuel IH]; intros w Hlen; [lia|].
  simpl. unfold bind.
  pose proof (total_main_turn w) as Ht.
  destruct (main_turn w) as [b w1|e w1|] eqn:E; [|discriminate|congruence].
  destruct b; [|discriminate].
  apply IH. apply main_turn_reads in E. lia.
Qed.

Lemma total_main_init : total main_init.
Proof.
  unfold main_init. total_auto.
  unfold load_user_data. total_auto.
  match goal with |- total (load_user_rows ?r ?t) => generalize t; generalize r end.
  intros r. induction r as [|row r IH]; intros t; simpl; total_auto. apply IH.
Qed.

Lemma main_init_stdin : post stdin_le main_init.
Proof.
  stdin_le_facts. unfold main_init, load_user_data. stdin_le_auto.
  match goal with |- post _ (load_user_rows ?r ?t) => generalize t; generalize r end.
  intros r. induction r as [|row r IH]; intros t; simpl; stdin_le_auto. apply IH.
Qed.

(** The program always comes to an end: by the exit option, or by an
    exception, the end of the input being one. *)
Lemma total_main : total main.
Proof.
  intros w. unfold main.
  apply bind_total_le; [apply main_init_stdin | apply total_main_init|].
  intros _ w1 H1.
  pose proof (main_loop_total (S (List.length (stdin w))) w1) as Hl.
  unfold bind.
  destruct (main_loop (S (List.length (stdin w))) w1) as [[] w2|e w2|];
    [discriminate | discriminate | apply Hl; lia].
Qed.

(** ** The credential store *)

Lemma select_user_none (t : users_table) (u : string) :
  ~ In u (map fst t) -> Sql.select_user t u = None.
Proof.
  intros Hn. unfold Sql.select_user.
  induction t as [|r t IH]; simpl; [reflexivity|].
  destruct (String.eqb_spec (fst r) u) as [E|E].
  - exfalso. apply Hn. simpl. now left.
  - apply IH. intros Hin. apply Hn. simpl. now right.
Qed.

Lemma select_user_some (t : users_table) (u : string) :
  In u (map fst t) -> exists r, Sql.select_user t u = Some r.
Proof.
  unfold Sql.select_user.
  induction t as [|r t IH]; simpl; [tauto|].
  intros [E|Hin].
  - rewrite E, String.eqb_refl. eauto.
  - destruct (fst r =? u); eauto.
Qed.

Lemma delete_user_spec (t : users_table) (u : string) (r : UserRow) :
  In r (Sql.delete_user t u) <-> In r t /\ fst r <> u.
Proof.
  unfold Sql.delete_user. rewrite filter_In.
  destruct (String.eqb_spec (fst r) u); simpl; intuition congruence.
Qed.

(** C6. [login] accepts the pair admin/admin whatever the table [users]
    holds, and also when the table is empty or missing: for every world
    whose next two input lines are a username that normalises to "admin"
    and the password "admin", [login] returns [True] at once, reads just
    these two lines and leaves the credential store as it was. *)
Theorem login_master_credential :
  forall (w : World) (raw : string) (rest : list string),
    stdin w = raw :: "admin" :: rest ->
    lower (strip raw) = "admin" ->
    exists w',
      login w = Ok true w' /\ stdin w' = rest /\
      user_db w' = user_db w /\ user_txn w' = user_txn w /\
      stdout w' = (stdout w ++ [Prompt "Enter username: "; Prompt "Enter password: ";
                                Print "Login successful."])%list.
Proof.
  intros w raw rest Hin Hraw.
  destruct w as [cdb ctx udb utx ccsv ucsv inp out dl ua uc].
  simpl in Hin. subst inp.
  unfold login. simpl.
  unfold bind, input. simpl. rewrite Hraw. simpl.
  eexists. split; [reflexivity|]. simpl.
  repeat split. now rewrite <- !app_assoc.
Qed.

Lemma login_master_credential_witness :
  stdin (boot None (Some []) None None [" Admin "; "admin"; "0"])
    = " Admin " :: "admin" :: ["0"] /\
  lower (strip " Admin ") = "admin" /\
  exists w',
    login (boot None (Some []) None None [" Admin "; "admin"; "0"]) = Ok true w' /\
    stdin w' = ["0"] /\
    user_db w' = Some [] /\ user_txn w' = None /\
    stdout w' = [Prompt "Enter username: "; Prompt "Enter password: ";
                 Print "Login successful."].
Proof.
  split; [reflexivity|]. split; [reflexivity|].
  apply (login_master_credential
           (boot None (Some []) None None [" Admin "; "admin"; "0"])
           " Admin " ["0"]); reflexivity.
Defined.

(** [delete_user] on a store [t] with nothing pending. *)
Lemma delete_user_run :
  forall (w : World) (raw : string) (rest : list string) (t : users_table),
    stdin w = raw :: rest ->
    user_db w = Some t ->
    user_txn w = None ->
    exists w',
      delete_user w = Ok tt w' /\ stdin w' = rest /\ user_txn w' = None /\
      (lower (strip raw) = "admin" ->
         user_db w' = Some t /\
         stdout w' = (stdout w ++ [Prompt "Enter the username to delete: ";
                                   Print "Error: Cannot delete admin."])%list) /\
      (lower (strip raw) <> "admin" -> ~ In (lower (strip raw)) (map fst t) ->
         user_db w' = Some t /\
         stdout w' = (stdout w ++ [Prompt "Enter the username to delete: ";
                                   Print "Error: User not found in the database."])%list) /\
      (lower (strip raw) <> "admin" -> In (lower (strip raw)) (map fst t) ->
         user_db w' = Some (Sql.delete_user t (lower (strip raw))) /\
         (forall r, In r (Sql.delete_user t (lower (strip raw)))
                    <-> In r t /\ fst r <> lower (strip raw)) /\
         stdout w' = (stdout w ++ [Prompt "Enter the username to delete: ";
                                   Print ("User " ++ lower (strip raw)
                                          ++ " deleted successfully.")])%list).
Proof.
  intros w raw rest t Hin Hdb Htx.
  destruct w as [cdb ctx udb utx ccsv ucsv inp out dl ua uc].
  simpl in *. subst inp udb utx.
  unfold delete_user, bind, input. simpl.
  destruct (String.eqb_spec (lower (strip raw)) "admin") as [Ha|Ha].
  - unfold print, modify. simpl. eexists. split; [reflexivity|]. simpl.
    rewrite <- !app_assoc. simpl.
    repeat split; try tauto; intros; try contradiction.
  - unfold users_read. simpl.
    destruct (in_dec string_dec (lower (strip raw)) (map fst t)) as [Hi|Hi].
    + destruct (select_user_some t _ Hi) as [r Hr]. rewrite Hr.
      unfold users_write, print, users_commit, modify, bind. simpl.
      eexists. split; [reflexivity|]. simpl.
      rewrite <- !app_assoc. simpl.
      repeat split; try tauto; intros; try contradiction;
        try (apply delete_user_spec; assumption);
        try (apply delete_user_spec in H1; tauto).
    + rewrite (select_user_none t _ Hi).
      unfold print, users_commit, modify, bind. simpl.
      eexists. split; [reflexivity|]. simpl.
      rewrite <- !app_assoc. simpl.
      repeat split; try tauto; intros; try contradiction.
Qed.

(** C7. [delete_user] on a store [t] with nothing pending, for a line of
    ASCII text: the name "admin" (after strip and lower) is refused and the
    store is left as it was; a name that is not in the store is reported as
    not found and the store is left as it was; any other name is deleted,
    and the deletion is committed. *)
Theorem delete_user_cases :
  forall (w : World) (raw : string) (rest : list string) (t : users_table),
    stdin w = raw :: rest ->
    ascii_text raw = true ->
    user_db w = Some t ->
    user_txn w = None ->
    exists w',
      delete_user w = Ok tt w' /\ stdin w' = rest /\ user_txn w' = None /\
      (lower (strip raw) = "admin" ->
         user_db w' = Some t /\
         stdout w' = (stdout w ++ [Prompt "Enter the username to delete: ";
                                   Print "Error: Cannot delete admin."])%list) /\
      (lower (strip raw) <> "admin" -> ~ In (lower (strip raw)) (map fst t) ->
         user_db w' = Some t /\
         stdout w' = (stdout w ++ [Prompt "Enter the username to delete: ";
                                   Print "Error: User not found in the database."])%list) /\
      (lower (strip raw) <> "admin" -> In (lower (strip raw)) (map fst t) ->
         user_db w' = Some (Sql.delete_user t (lower (strip raw))) /\
         (forall r, In r (Sql.delete_user t (lower (strip raw)))
                    <-> In r t /\ fst r <> lower (strip raw)) /\
         stdout w' = (stdout w ++ [Prompt "Enter the username to delete: ";
                                   Print ("User " ++ lower (strip raw)
                                          ++ " deleted successfully.")])%list).
Proof.
  intros w raw rest t Hin _ Hdb Htx.
  exact (delete_user_run w raw rest t Hin Hdb Htx).
Qed.

Lemma delete_user_cases_witness :
  stdin (boot None (Some [("admin", "s3cret"); ("bob", "pw")]) None None [" Bob"; "R"])
    = " Bob" :: ["R"] /\
  ascii_text " Bob" = true /\
  user_db (boot None (Some [("admin", "s3cret"); ("bob", "pw")]) None None [" Bob"; "R"])
    = Some [("admin", "s3cret"); ("bob", "pw")] /\
  user_txn (boot None (Some [("admin", "s3cret"); ("bob", "pw")]) None None [" Bob"; "R"])
    = None /\
  exists w',
    delete_user (boot None (Some [("admin", "s3cret"); ("bob", "pw")]) None None [" Bob"; "R"])
      = Ok tt w' /\
    user_db w' = Some [("admin", "s3cret")] /\ user_txn w' = None.
Proof.
  split; [reflexivity|]. split; [reflexivity|]. split; [reflexivity|].
  split; [reflexivity|].
  destruct (delete_user_cases
              (boot None (Some [("admin", "s3cret"); ("bob", "pw")]) None None [" Bob"; "R"])
              " Bob" ["R"] [("admin", "s3cret"); ("bob", "pw")]
              eq_refl eq_refl eq_refl eq_refl)
    as [w' [Hrun [_ [Htx [_ [_ Hpresent]]]]]].
  exists w'. split; [exact Hrun|]. split; [|exact Htx].
  apply Hpresent.
  - discriminate.
  - simpl. right. left. reflexivity.
Defined.

(** ** The session *)

(** *** Running a computation one statement at a time *)

Lemma bind_print {B : Type} (s : string) (k : unit -> M B) (w : World) :
  bind (print s) k w = k tt (set_stdout (stdout w ++ [Print s])%list w).
Proof. reflexivity. Qed.

Lemma bind_get {A B : Type} (f : World -> A) (k : A -> M B) (w : World) :
  bind (get f) k w = k (f w) w.
Proof. reflexivity. Qed.

Lemma bind_modify {B : Type} (f : World -> World) (k : unit -> M B) (w : World) :
  bind (modify f) k w = k tt (f w).
Proof. reflexivity. Qed.

Lemma bind_ret {A B : Type} (a : A) (k : A -> M B) (w : World) :
  bind (ret a) k w = k a w.
Proof. reflexivity. Qed.

Lemma bind_input {B : Type} (p : string) (k : string -> M B) (w : World)
    (x : string) (l : list string) :
  stdin w = x :: l ->
  bind (input p) k w
  = k x (set_stdin l (set_stdout (stdout w ++ [Prompt p])%list w)).
Proof. intros E. unfold bind, input. now rewrite E. Qed.

Lemma bind_assoc {A B C : Type} (m : M A) (f : A -> M B) (g : B -> M C) (w : World) :
  bind (bind m f) g w = bind m (fun a => bind (f a) g) w.
Proof. unfold bind. destruct (m w); reflexivity. Qed.

Ltac world_simpl :=
  unfold set_course_db, set_course_txn, set_user_db, set_user_txn, set_stdin,
         set_stdout, set_data_loaded, set_user_authenticated, set_user_choice;
  cbn [course_db course_txn user_db user_txn courselist_csv userlist_csv stdin
       stdout data_loaded user_authenticated user_choice].

(** The same for worlds under several setters: the innermost first. *)
Ltac world_eval :=
  cbv [set_course_db set_course_txn set_user_db set_user_txn set_stdin
       set_stdout set_data_loaded set_user_authenticated set_user_choice
       course_db course_txn user_db user_txn courselist_csv userlist_csv stdin
       stdout data_loaded user_authenticated user_choice].

(** One statement of a computation run on a world given by its fields. *)
Ltac mstep :=
  first [ rewrite bind_assoc
        | rewrite bind_print
        | rewrite bind_get
        | rewrite bind_modify
        | rewrite bind_ret
        | erewrite bind_input by reflexivity ];
  world_simpl.

(** The chain of [if]/[elif] of the main loop, option by option. *)
Lemma dispatch_0 : dispatch "0" = (exit_option ;; ret false).
Proof. reflexivity. Qed.

Lemma dispatch_1 : dispatch "1" = (load_option "1" ;; ret true).
Proof. reflexivity. Qed.

Lemma dispatch_2 : dispatch "2" = (list_option ;; ret true).
Proof. reflexivity. Qed.

Lemma dispatch_3 : dispatch "3" = (details_option ;; ret true).
Proof. reflexivity. Qed.

Lemma dispatch_star : dispatch "*" = (admin_option ;; ret true).
Proof. reflexivity. Qed.

Lemma dispatch_course (opt : string) :
  In opt ["4"; "5"; "6"] -> dispatch opt = course_option opt.
Proof.
  intros [E|[E|[E|[]]]]; subst opt; reflexivity.
Qed.

(** With [user_authenticated] false, options "4", "5" and "6" are the login
    gate. *)
Lemma dispatch_gate (w : World) (opt : string) :
  user_authenticated w = false ->
  In opt ["4"; "5"; "6"] ->
  dispatch opt w = login_gate opt w.
Proof.
  intros Hua Hin. rewrite (dispatch_course opt Hin).
  destruct w as [cdb ctx udb utx ccsv ucsv inp out dl ua uc].
  cbn [user_authenticated] in Hua. subst ua.
  unfold course_option.
  rewrite bind_get, bind_get. cbn [user_authenticated user_choice orb].
  destruct uc as [c|]; cbn [option_eqb].
  - destruct (String.eqb_spec c opt) as [E|E].
    + subst c. rewrite bind_modify. world_simpl.
      rewrite bind_get. reflexivity.
    + rewrite bind_ret, bind_get. reflexivity.
  - rewrite bind_ret, bind_get. reflexivity.
Qed.

(** The two loops with the number of steps they are given. *)
Lemma admin_menu_eq (w : World) :
  admin_menu w = admin_loop (S (List.length (stdin w))) w.
Proof. unfold admin_menu. reflexivity. Qed.

Lemma login_eq (w : World) :
  login w = login_loop (S (List.length (stdin w))) w.
Proof. unfold login. reflexivity. Qed.

(** [ends P m]: when [m] comes back normally, [P] holds of the world. *)
Definition ends {A : Type} (P : World -> Prop) (m : M A) : Prop :=
  forall w a w', m w = Ok a w' -> P w'.

Lemma ends_bind {A B : Type} (P : World -> Prop) (m : M A) (k : A -> M B) :
  (forall a, ends P (k a)) -> ends P (bind m k).
Proof.
  intros Hk w b w'. unfold bind.
  destruct (m w) as [a w1|e w1|]; intros E; try discriminate.
  exact (Hk a w1 b w' E).
Qed.

(** The user management loop comes back only through its option "R". *)
Lemma admin_loop_ends_anonymous (fuel : nat) :
  ends (fun w => user_authenticated w = false) (admin_loop fuel).
Proof.
  induction fuel as [|fuel IH]; [intros w a w' E; discriminate|].
  cbn [admin_loop].
  apply ends_bind; intros _. apply ends_bind; intros raw.
  destruct (upper (strip raw) =? "A"); [apply ends_bind; intros _; exact IH|].
  destruct (upper (strip raw) =? "B"); [apply ends_bind; intros _; exact IH|].
  destruct (upper (strip raw) =? "C"); [apply ends_bind; intros _; exact IH|].
  destruct (upper (strip raw) =? "R"); [|apply ends_bind; intros _; exact IH].
  intros w a w' E. unfold modify in E. inversion E. reflexivity.
Qed.

Lemma display_user_management_menu_run (w : World) :
  exists out,
    display_user_management_menu w = Ok tt (set_stdout (stdout w ++ out)%list w).
Proof.
  destruct w as [cdb ctx udb utx ccsv ucsv inp out dl ua uc].
  unfold display_user_management_menu. repeat mstep.
  unfold print, modify. world_simpl. rewrite <- !app_assoc.
  eexists. reflexivity.
Qed.

(** The option "R" of the user management menu. *)
Lemma admin_loop_return (fuel : nat) (w : World) (raw : string) (rest : list string) :
  stdin w = raw :: rest ->
  upper (strip raw) = "R" ->
  exists out,
    admin_loop (S fuel) w
    = Ok tt (set_user_authenticated false
               (set_stdin rest (set_stdout (stdout w ++ out)%list w))).
Proof.
  intros Hin Hr.
  destruct (display_user_management_menu_run w) as [out0 H0].
  cbn [admin_loop]. rewrite (bind_ok _ _ _ _ _ H0).
  erewrite bind_input by exact Hin.
  rewrite Hr. cbn [String.eqb Ascii.eqb Bool.eqb].
  destruct w as [cdb ctx udb utx ccsv ucsv inp out dl ua uc].
  unfold modify. world_simpl. rewrite <- app_assoc.
  eexists. reflexivity.
Qed.

Lemma admin_menu_return (w : World) (raw : string) (rest : list string) :
  stdin w = raw :: rest ->
  upper (strip raw) = "R" ->
  exists out,
    admin_menu w
    = Ok tt (set_user_authenticated false
               (set_stdin rest (set_stdout (stdout w ++ out)%list w))).
Proof.
  intros Hin Hr. rewrite admin_menu_eq.
  exact (admin_loop_return (List.length (stdin w)) w raw rest Hin Hr).
Qed.

(** Option "*" with the admin pair and then "R". *)
Lemma admin_option_return (w : World) (u r : string) (rest : list string) :
  stdin w = u :: "admin" :: r :: rest ->
  lower (strip u) = "admin" ->
  upper (strip r) = "R" ->
  exists out,
    admin_option w
    = Ok tt (set_user_authenticated false
               (set_user_choice (Some "*")
                  (set_stdin rest (set_stdout (stdout w ++ out)%list w)))).
Proof.
  intros Hin Hu Hr.
  destruct w as [cdb ctx udb utx ccsv ucsv inp out dl ua uc].
  cbn [stdin] in Hin. subst inp.
  unfold admin_option.
  do 3 mstep. rewrite Hu. cbn [String.eqb Ascii.eqb Bool.eqb andb].
  do 2 mstep.
  match goal with
  | |- context [admin_menu ?W] =>
      destruct (admin_menu_return W r rest eq_refl Hr) as [out1 H1];
      rewrite H1
  end.
  world_simpl. rewrite <- !app_assoc.
  eexists. reflexivity.
Qed.

(** *** The login loop *)

(** [returns P m]: when [m] comes back normally, [P] holds of its value. *)
Definition returns {A : Type} (P : A -> Prop) (m : M A) : Prop :=
  forall w a w', m w = Ok a w' -> P a.

Lemma returns_bind {A B : Type} (P : B -> Prop) (m : M A) (k : A -> M B) :
  (forall a, returns P (k a)) -> returns P (bind m k).
Proof.
  intros Hk w b w'. unfold bind.
  destruct (m w) as [a w1|e w1|]; intros E; try discriminate.
  exact (Hk a w1 b w' E).
Qed.

Lemma returns_ret {A : Type} (P : A -> Prop) (a : A) : P a -> returns P (ret a).
Proof. intros H w b w' E. inversion E. subst. exact H. Qed.

(** [login] has no way to return [False]. *)
Lemma login_loop_returns_true (fuel : nat) :
  returns (fun b => b = true) (login_loop fuel).
Proof.
  induction fuel as [|fuel IH]; [intros w a w' E; discriminate|].
  cbn [login_loop].
  apply returns_bind; intros raw. apply returns_bind; intros password.
  destruct ((lower (strip raw) =? "admin") && (password =? "admin")).
  { apply returns_bind; intros _. now apply returns_ret. }
  apply returns_bind; intros users.
  destruct (Sql.select_login users (lower (strip raw)) password).
  { apply returns_bind; intros _. now apply returns_ret. }
  apply returns_bind; intros _. exact IH.
Qed.

Lemma login_returns_true : returns (fun b => b = true) login.
Proof.
  intros w b w'. rewrite login_eq.
  apply (login_loop_returns_true (S (List.length (stdin w))) w b w').
Qed.

(** One turn of the loop on a pair that is neither admin/admin nor in the
    table. *)
Lemma login_loop_rejected (fuel : nat) (w : World) (u p : string)
    (rest : list string) (t : users_table) :
  stdin w = u :: p :: rest ->
  user_txn w = None ->
  user_db w = Some t ->
  (lower (strip u) =? "admin") && (p =? "admin") = false ->
  Sql.select_login t (lower (strip u)) p = None ->
  login_loop (S fuel) w
  = login_loop fuel
      (set_stdin rest
         (set_stdout (stdout w ++ [Prompt "Enter username: "; Prompt "Enter password: ";
                                   Print "Login failed. Please try again."])%list w)).
Proof.
  intros Hin Htx Hdb Hadm Hsel.
  destruct w as [cdb ctx udb utx ccsv ucsv inp out dl ua uc].
  cbn [stdin user_txn user_db] in Hin, Htx, Hdb. subst inp utx udb.
  cbn [login_loop].
  do 2 mstep. rewrite Hadm.
  unfold users_read at 1. unfold bind at 1. world_simpl.
  rewrite Hsel. mstep.
  rewrite <- !app_assoc. reflexivity.
Qed.

(** More steps than the input has lines are never used. *)
Lemma login_loop_fuel (f : nat) :
  forall (f' : nat) (w : World),
    List.length (stdin w) < f -> List.length (stdin w) < f' ->
    login_loop f w = login_loop f' w.
Proof.
  induction f as [|f IH]; intros f' w Hf Hf'; [lia|].
  destruct f' as [|f']; [lia|].
  destruct w as [cdb ctx udb utx ccsv ucsv inp out dl ua uc].
  cbn [stdin] in Hf, Hf'.
  cbn [login_loop].
  destruct inp as [|u [|p rest]].
  - reflexivity.
  - unfold bind, input. world_simpl. reflexivity.
  - do 4 mstep.
    destruct ((lower (strip u) =? "admin") && (p =? "admin")); [reflexivity|].
    unfold bind, users_read, print, modify. world_simpl.
    destruct utx as [t|]; [|destruct udb as [t|]; [|reflexivity]];
      (destruct (Sql.select_login t (lower (strip u)) p); [reflexivity|];
       apply IH; cbn [stdin List.length] in *; lia).
Qed.

(** After a rejected pair [login] asks again, as if it had been called on
    the rest of the input. *)
Lemma login_rejected (w : World) (u p : string) (rest : list string)
    (t : users_table) :
  stdin w = u :: p :: rest ->
  user_txn w = None ->
  user_db w = Some t ->
  (lower (strip u) =? "admin") && (p =? "admin") = false ->
  Sql.select_login t (lower (strip u)) p = None ->
  login w
  = login
      (set_stdin rest
         (set_stdout (stdout w ++ [Prompt "Enter username: "; Prompt "Enter password: ";
                                   Print "Login failed. Please try again."])%list w)).
Proof.
  intros Hin Htx Hdb Hadm Hsel.
  rewrite !login_eq.
  rewrite (login_loop_rejected _ w u p rest t Hin Htx Hdb Hadm Hsel).
  apply login_loop_fuel; unfold set_stdin; cbn [stdin]; try rewrite Hin;
    cbn [List.length]; lia.
Qed.

(** *** The login gate of options "4", "5" and "6" *)

Lemma select_login_some (t : users_table) (u p : string) :
  In (u, p) t -> exists r, Sql.select_login t u p = Some r.
Proof.
  unfold Sql.select_login.
  induction t as [|r t IH]; cbn [In find]; [tauto|].
  intros [E|Hin].
  - subst r. cbn [fst snd]. rewrite !String.eqb_refl. cbn [andb]. eauto.
  - destruct ((fst r =? u) && (snd r =? p)); eauto.
Qed.

(** [login] on a pair that is admin/admin or a pair of the table. *)
Lemma login_accepted (w : World) (u p : string) (rest : list string)
    (t : users_table) :
  stdin w = u :: p :: rest ->
  user_txn w = None ->
  user_db w = Some t ->
  (lower (strip u) = "admin" /\ p = "admin") \/ In (lower (strip u), p) t ->
  login w
  = Ok true
      (set_stdin rest
         (set_stdout (stdout w ++ [Prompt "Enter username: "; Prompt "Enter password: ";
                                   Print "Login successful."])%list w)).
Proof.
  intros Hin Htx Hdb Hacc.
  destruct w as [cdb ctx udb utx ccsv ucsv inp out dl ua uc].
  cbn [stdin user_txn user_db] in Hin, Htx, Hdb. subst inp utx udb.
  rewrite login_eq. cbn [stdin List.length login_loop].
  do 2 mstep.
  destruct ((lower (strip u) =? "admin") && (p =? "admin")) eqn:Hadm.
  - mstep. unfold ret. rewrite <- !app_assoc. reflexivity.
  - unfold users_read at 1. unfold bind at 1. world_simpl.
    destruct Hacc as [[Hu Hp]|Hstored].
    + rewrite Hu, Hp in Hadm. discriminate Hadm.
    + destruct (select_login_some t _ _ Hstored) as [r Hr]. rewrite Hr.
      mstep. unfold ret. rewrite <- !app_assoc. reflexivity.
Qed.

(** The gate after [login] has returned [True]: the flag is set, "User
    authenticated." is printed and the operation runs. *)
Lemma login_gate_accepted (w w1 : World) (opt : string) :
  login (set_stdout (stdout w ++ [Print "Login required."])%list w) = Ok true w1 ->
  login_gate opt w
  = (course_operation opt ;; ret true)
      (set_stdout (stdout w1 ++ [Print "User authenticated."])%list
         (set_user_authenticated true w1)).
Proof.
  intros E. unfold login_gate. rewrite bind_print.
  rewrite (bind_ok _ _ _ _ _ E). rewrite bind_modify, bind_print. reflexivity.
Qed.

(** The gate comes back only when [login] has returned [True]. *)
Lemma login_gate_returned (w w' : World) (opt : string) (b : bool) :
  login_gate opt w = Ok b w' ->
  exists w1,
    login (set_stdout (stdout w ++ [Print "Login required."])%list w) = Ok true w1 /\
    (course_operation opt ;; ret true)
      (set_stdout (stdout w1 ++ [Print "User authenticated."])%list
         (set_user_authenticated true w1))
    = Ok b w'.
Proof.
  unfold login_gate. rewrite bind_print.
  unfold bind at 1.
  destruct (login (set_stdout (stdout w ++ [Print "Login required."])%list w))
    as [ok w1|e w1|] eqn:EL; try discriminate.
  pose proof (login_returns_true _ _ _ EL) as Hok. cbn beta in Hok. subst ok.
  rewrite bind_modify, bind_print. intros E.
  exists w1. split; [reflexivity | exact E].
Qed.

(** The gate on a pair that [login] accepts at once. *)
Lemma login_gate_pair (w : World) (opt u p : string) (rest : list string)
    (t : users_table) :
  stdin w = u :: p :: rest ->
  user_txn w = None ->
  user_db w = Some t ->
  (lower (strip u) = "admin" /\ p = "admin") \/ In (lower (strip u), p) t ->
  login_gate opt w
  = (course_operation opt ;; ret true)
      (set_user_authenticated true
         (set_stdin rest
            (set_stdout
               (stdout w ++ [Print "Login required.";
                             Prompt "Enter username: "; Prompt "Enter password: ";
                             Print "Login successful."; Print "User authenticated."])%list
               w))).
Proof.
  intros Hin Htx Hdb Hacc.
  erewrite login_gate_accepted.
  2:{ apply (login_accepted _ u p rest t); [exact Hin | exact Htx | exact Hdb | exact Hacc]. }
  destruct w as [cdb ctx udb utx ccsv ucsv inp out dl ua uc].
  world_simpl. rewrite <- !app_assoc. reflexivity.
Qed.

(** C8. Leaving the user management menu by "R" sets [user_authenticated]
    to false, whatever it was before option "*" was chosen: after the
    admin pair and an "R", the turn ends with the flag false and the two
    stores untouched; in fact the menu never comes back with the flag set,
    whatever was done in it. At the world the turn leaves, an option "4",
    "5" or "6" is the login gate: it runs its operation when the next pair
    typed is admin/admin or a pair of the table, and then only with the
    flag set; it comes back only after [login] has returned [True]; and a
    pair that is neither is answered by "Login failed. Please try again."
    and the prompt again, the operation not being run on it. *)
Theorem admin_return_resets_authentication :
  forall (w : World) (u r : string) (rest : list string),
    stdin w = u :: "admin" :: r :: rest ->
    lower (strip u) = "admin" ->
    upper (strip r) = "R" ->
    (exists w',
       dispatch "*" w = Ok true w' /\
       user_authenticated w' = false /\
       stdin w' = rest /\
       course_db w' = course_db w /\ course_txn w' = course_txn w /\
       user_db w' = user_db w /\ user_txn w' = user_txn w /\
       (forall opt, In opt ["4"; "5"; "6"] -> dispatch opt w' = login_gate opt w') /\
       (forall opt a p rest' t,
          In opt ["4"; "5"; "6"] ->
          rest = a :: p :: rest' ->
          ascii_text a = true ->
          user_txn w = None ->
          user_db w = Some t ->
          (lower (strip a) = "admin" /\ p = "admin") \/ In (lower (strip a), p) t ->
          dispatch opt w'
          = (course_operation opt ;; ret true)
              (set_user_authenticated true
                 (set_stdin rest'
                    (set_stdout
                       (stdout w' ++ [Print "Login required.";
                                      Prompt "Enter username: ";
                                      Prompt "Enter password: ";
                                      Print "Login successful.";
                                      Print "User authenticated."])%list
                       w')))) /\
       (forall opt b w2,
          In opt ["4"; "5"; "6"] ->
          dispatch opt w' = Ok b w2 ->
          exists w1,
            login (set_stdout (stdout w' ++ [Print "Login required."])%list w')
            = Ok true w1 /\
            (course_operation opt ;; ret true)
              (set_stdout (stdout w1 ++ [Print "User authenticated."])%list
                 (set_user_authenticated true w1))
            = Ok b w2) /\
       (forall a p rest' t,
          rest = a :: p :: rest' ->
          ascii_text a = true ->
          user_txn w = None ->
          user_db w = Some t ->
          (lower (strip a) =? "admin") && (p =? "admin") = false ->
          Sql.select_login t (lower (strip a)) p = None ->
          login (set_stdout (stdout w' ++ [Print "Login required."])%list w')
          = login
              (set_stdin rest'
                 (set_stdout
                    (stdout w' ++ [Print "Login required.";
                                   Prompt "Enter username: "; Prompt "Enter password: ";
                                   Print "Login failed. Please try again."])%list
                    w')))) /\
    (forall w0 w1, admin_menu w0 = Ok tt w1 -> user_authenticated w1 = false) /\
    admin_menu w <> OutOfFuel.
Proof.
  intros w u r rest Hin Hu Hr.
  split; [|split].
  - destruct (admin_option_return w u r rest Hin Hu Hr) as [out1 H1].
    rewrite dispatch_star. rewrite (bind_ok _ _ _ _ _ H1).
    eexists. split; [reflexivity|].
    split; [reflexivity|]. split; [reflexivity|]. split; [reflexivity|].
    split; [reflexivity|]. split; [reflexivity|]. split; [reflexivity|].
    split; [|split; [|split]].
    + intros opt Hopt. apply dispatch_gate; [reflexivity | exact Hopt].
    + intros opt a p rest' t Hopt Hrest _ Htx Hdb Hacc.
      rewrite dispatch_gate; [|reflexivity|exact Hopt].
      rewrite (login_gate_pair _ opt a p rest' t); [reflexivity| | | |exact Hacc].
      * cbn [stdin set_user_authenticated set_user_choice set_stdin]. exact Hrest.
      * cbn [user_txn set_user_authenticated set_user_choice set_stdin set_stdout].
        exact Htx.
      * cbn [user_db set_user_authenticated set_user_choice set_stdin set_stdout].
        exact Hdb.
    + intros opt b w2 Hopt E.
      rewrite dispatch_gate in E; [|reflexivity|exact Hopt].
      exact (login_gate_returned _ _ _ _ E).
    + intros a p rest' t Hrest _ Htx Hdb Hadm Hsel.
      erewrite (login_rejected _ a p rest' t); [|exact Hrest|exact Htx|exact Hdb
                                                |exact Hadm|exact Hsel].
      f_equal.
      destruct w as [cdb ctx udb utx ccsv ucsv inp out dl ua uc].
      world_eval. rewrite <- !app_assoc. reflexivity.
  - intros w0 w1. rewrite admin_menu_eq.
    apply (admin_loop_ends_anonymous (S (List.length (stdin w0))) w0 tt w1).
  - apply total_admin_menu.
Qed.

Lemma admin_return_resets_authentication_witness :
  stdin (set_user_authenticated true
           (set_data_loaded true
              (boot (Some []) (Some []) None None
                 ["Admin"; "admin"; " r"; "admin"; "admin"])))
    = "Admin" :: "admin" :: " r" :: ["admin"; "admin"] /\
  lower (strip "Admin") = "admin" /\
  upper (strip " r") = "R" /\
  exists w',
    dispatch "*" (set_user_authenticated true
                    (set_data_loaded true
                       (boot (Some []) (Some []) None None
                          ["Admin"; "admin"; " r"; "admin"; "admin"])))
      = Ok true w' /\
    user_authenticated w' = false /\ stdin w' = ["admin"; "admin"] /\
    dispatch "5" w'
    = (course_operation "5" ;; ret true)
        (set_user_authenticated true
           (set_stdin []
              (set_stdout
                 (stdout w' ++ [Print "Login required.";
                                Prompt "Enter username: "; Prompt "Enter password: ";
                                Print "Login successful.";
                                Print "User authenticated."])%list
                 w'))).
Proof.
  split; [reflexivity|]. split; [reflexivity|]. split; [reflexivity|].
  destruct (admin_return_resets_authentication
              (set_user_authenticated true
                 (set_data_loaded true
                    (boot (Some []) (Some []) None None
                       ["Admin"; "admin"; " r"; "admin"; "admin"])))
              "Admin" " r" ["admin"; "admin"] eq_refl eq_refl eq_refl)
    as [[w' [Hrun [Hua [Hin [_ [_ [_ [_ [_ [Hacc _]]]]]]]]]] _].
  exists w'. split; [exact Hrun|]. split; [exact Hua|]. split; [exact Hin|].
  exact (Hacc "5" "admin" "admin" [] []
           (or_intror (or_introl eq_refl)) eq_refl eq_refl eq_refl eq_refl
           (or_introl (conj eq_refl eq_refl))).
Defined.

(** C9, as the program has it. With [user_authenticated] false, options
    "4", "5" and "6" print "Login required." and call [login]. When the
    pair typed is admin/admin or a pair of the table, [login] returns
    [True], the flag is set, "User authenticated." is printed and the
    operation runs; and whenever [login] returns [True] the operation runs
    in this way. [login] asks for a pair until one is accepted: a rejected
    pair prints "Login failed. Please try again." and the prompt comes
    again, so [login] never returns [False] and the turn never comes back
    with the operation given up. Whenever the turn comes back, [login] has
    returned [True], the flag has been set and the operation has run. *)
Theorem login_gate_retries_until_success :
  forall (w : World) (opt : string),
    user_authenticated w = false ->
    In opt ["4"; "5"; "6"] ->
    dispatch opt w = login_gate opt w /\
    (forall u p rest t,
       stdin w = u :: p :: rest ->
       ascii_text u = true ->
       user_txn w = None ->
       user_db w = Some t ->
       (lower (strip u) = "admin" /\ p = "admin") \/ In (lower (strip u), p) t ->
       dispatch opt w
       = (course_operation opt ;; ret true)
           (set_user_authenticated true
              (set_stdin rest
                 (set_stdout
                    (stdout w ++ [Print "Login required.";
                                  Prompt "Enter username: "; Prompt "Enter password: ";
                                  Print "Login successful."; Print "User authenticated."])%list
                    w)))) /\
    (forall w1,
       login (set_stdout (stdout w ++ [Print "Login required."])%list w) = Ok true w1 ->
       dispatch opt w
       = (course_operation opt ;; ret true)
           (set_stdout (stdout w1 ++ [Print "User authenticated."])%list
              (set_user_authenticated true w1))) /\
    (forall b w',
       dispatch opt w = Ok b w' ->
       exists w1,
         login (set_stdout (stdout w ++ [Print "Login required."])%list w)
           = Ok true w1 /\
         (course_operation opt ;; ret true)
           (set_stdout (stdout w1 ++ [Print "User authenticated."])%list
              (set_user_authenticated true w1))
           = Ok b w') /\
    (forall w0 u p rest t,
       stdin w0 = u :: p :: rest ->
       ascii_text u = true ->
       user_txn w0 = None ->
       user_db w0 = Some t ->
       (lower (strip u) =? "admin") && (p =? "admin") = false ->
       Sql.select_login t (lower (strip u)) p = None ->
       login w0
       = login
           (set_stdin rest
              (set_stdout
                 (stdout w0 ++ [Prompt "Enter username: "; Prompt "Enter password: ";
                                Print "Login failed. Please try again."])%list w0))) /\
    (forall w0 b w1, login w0 = Ok b w1 -> b = true) /\
    dispatch opt w <> OutOfFuel.
Proof.
  intros w opt Hua Hopt.
  pose proof (dispatch_gate w opt Hua Hopt) as Hd.
  split; [exact Hd|].
  split; [|split; [|split; [|split; [|split]]]].
  - intros u p rest t Hin _ Htx Hdb Hacc. rewrite Hd.
    exact (login_gate_pair w opt u p rest t Hin Htx Hdb Hacc).
  - intros w1 E. rewrite Hd. exact (login_gate_accepted w w1 opt E).
  - intros b w' E. rewrite Hd in E. exact (login_gate_returned _ _ _ _ E).
  - intros w0 u p rest t Hin _. exact (login_rejected w0 u p rest t Hin).
  - exact login_returns_true.
  - rewrite Hd. apply total_login_gate.
Qed.

Lemma login_gate_retries_until_success_witness :
  user_authenticated
    (set_data_loaded true
       (boot (Some []) (Some [("bob", "pw")]) None None [" Bob"; "pw"; "0"])) = false /\
  In "5" ["4"; "5"; "6"] /\
  exists w',
    dispatch "5" (set_data_loaded true
                    (boot (Some []) (Some [("bob", "pw")]) None None [" Bob"; "pw"; "0"]))
    = Ok true w' /\
    user_authenticated w' = true /\
    stdin w' = ["0"] /\
    stdout w' = [Print "Login required.";
                 Prompt "Enter username: "; Prompt "Enter password: ";
                 Print "Login successful."; Print "User authenticated.";
                 Print "No courses found."].
Proof.
  split; [reflexivity|]. split; [right; left; reflexivity|].
  destruct (login_gate_retries_until_success
              (set_data_loaded true
                 (boot (Some []) (Some [("bob", "pw")]) None None [" Bob"; "pw"; "0"]))
              "5" eq_refl (or_intror (or_introl eq_refl)))
    as [_ [Hacc _]].
  specialize (Hacc " Bob" "pw" ["0"] [("bob", "pw")] eq_refl eq_refl eq_refl eq_refl
                (or_intror (or_introl eq_refl))).
  eexists. split; [rewrite Hacc; vm_compute; reflexivity|].
  repeat split.
Defined.

(** The input of the counterexample to C9: the course data counts as
    loaded, nobody is authenticated, the first pair typed is wrong. *)
Definition retry_world : World :=
  set_data_loaded true
    (boot (Some []) (Some [("bob", "pw")]) None None
       ["mallory"; "guess"; "admin"; "admin";
        "cs200"; "algorithm design"; "3"; "Sorting and searching"; ""]).

(** C9 as stated fails: after a failed login the operation is not given up.
    Here the pair mallory/guess is rejected, the prompt comes again, and the
    course typed after the second pair is inserted. *)
Lemma failed_login_does_not_abort :
  Sql.select_login [("bob", "pw")] (lower (strip "mallory")) "guess" = None /\
  course_txn retry_world = None /\
  exists w',
    dispatch "4" retry_world = Ok true w' /\
    In (Print "Login failed. Please try again.") (stdout w') /\
    user_authenticated w' = true /\
    course_txn w'
    = Some [mkCourse "CS200" "Algorithm Design" "3" "Sorting and searching" "None"].
Proof.
  split; [reflexivity|]. split; [reflexivity|].
  eexists. split; [vm_compute; reflexivity|].
  split; [|split]; [|reflexivity|reflexivity].
  vm_compute. repeat (first [left; reflexivity | right]).
Qed.

(** ** Course details *)

(** The string is empty or holds blank characters only. *)
Fixpoint all_space (s : string) : bool :=
  match s with
  | EmptyString => true
  | String c s' => is_space c && all_space s'
  end.

Lemma split_go_nil (s : string) :
  forall cur, split_go cur s = [] <-> (cur = EmptyString /\ all_space s = true).
Proof.
  induction s as [|c s IH]; intros cur; simpl.
  - destruct cur; simpl; split; intros H; try discriminate; try tauto.
    destruct H as [H _]. discriminate.
  - destruct (is_space c); simpl.
    + destruct cur; simpl.
      * rewrite IH. tauto.
      * split; intros H; [discriminate|]. destruct H as [H _]. discriminate.
    + rewrite IH. split; intros [H1 H2]; [|discriminate].
      destruct cur; discriminate.
Qed.

Lemma split_nil (s : string) : split s = [] <-> all_space s = true.
Proof. unfold split. rewrite split_go_nil. tauto. Qed.

Lemma word_wrap_none (text : string) (width : nat) :
  word_wrap text width = None <-> all_space text = true.
Proof.
  rewrite <- split_nil. unfold word_wrap.
  destruct (split text) as [|first words].
  - tauto.
  - destruct (fold_left _ words ([], first)) as [lines current_line].
    split; discriminate.
Qed.

(** What [print_course_details] prints before it wraps the description. *)
Definition details_head (course : CourseRow) : list event :=
  [Print "Course Details:";
   Print ("ID: " ++ course_id course);
   Print ("Title: " ++ course_title course);
   Print ("Credits: " ++ course_credits course);
   Print "Description: "].

Lemma print_course_details_blank (course : CourseRow) (w : World) :
  all_space (course_description course) = true ->
  print_course_details course w
  = Raise IndexError (set_stdout (stdout w ++ details_head course)%list w).
Proof.
  intros Hb. apply (word_wrap_none _ 80) in Hb.
  destruct w as [cdb ctx udb utx ccsv ucsv inp out dl ua uc].
  unfold print_course_details. do 5 mstep. rewrite Hb.
  unfold raise, details_head. rewrite <- !app_assoc. reflexivity.
Qed.

Lemma print_course_details_word (course : CourseRow) (w : World) :
  all_space (course_description course) = false ->
  exists wrapped,
    word_wrap (course_description course) 80 = Some wrapped /\
    print_course_details course w
    = Ok tt (set_stdout
               (stdout w ++ details_head course
                  ++ [Print wrapped;
                      Print (if lower (course_prerequisites course) =? "none"
                             then "Prerequisites: None"
                             else "Prerequisites: " ++ course_prerequisites course)])%list
               w).
Proof.
  intros Hb.
  destruct (word_wrap (course_description course) 80) as [wrapped|] eqn:E.
  - exists wrapped. split; [reflexivity|].
    destruct w as [cdb ctx udb utx ccsv ucsv inp out dl ua uc].
    unfold print_course_details. do 5 mstep. rewrite E. mstep.
    unfold details_head.
    destruct (lower (course_prerequisites course) =? "none");
      unfold print, modify; world_simpl; rewrite <- !app_assoc; reflexivity.
  - apply word_wrap_none in E. congruence.
Qed.

Lemma display_main_menu_run (w : World) :
  exists out,
    display_main_menu w = Ok tt (set_stdout (stdout w ++ out)%list w).
Proof.
  destruct w as [cdb ctx udb utx ccsv ucsv inp out dl ua uc].
  unfold display_main_menu. do 17 mstep.
  destruct ua; repeat mstep; unfold print, modify; world_simpl;
    rewrite <- !app_assoc; eexists; reflexivity.
Qed.

(** Option "3" on a course whose description has no word. *)
Lemma details_option_blank (w : World) (raw : string) (rest : list string)
    (t : courses_table) (course : CourseRow) :
  stdin w = raw :: rest ->
  data_loaded w = true ->
  course_txn w = None ->
  course_db w = Some t ->
  Sql.select_course t (upper (strip raw)) = Some course ->
  all_space (course_description course) = true ->
  details_option w
  = Raise IndexError
      (set_stdin rest
         (set_stdout (stdout w ++ Prompt "Enter the course ID: " :: details_head course)%list
            w)).
Proof.
  intros Hin Hdl Htx Hdb Hsel Hb.
  destruct w as [cdb ctx udb utx ccsv ucsv inp out dl ua uc].
  cbn [stdin data_loaded course_txn course_db] in Hin, Hdl, Htx, Hdb.
  subst inp dl ctx cdb.
  unfold details_option. do 2 mstep.
  unfold courses_read at 1. unfold bind at 1. world_simpl.
  rewrite Hsel. rewrite (print_course_details_blank course _ Hb).
  world_simpl. rewrite <- app_assoc. reflexivity.
Qed.

(** C10. For a description of ASCII text, [print_course_details] comes to
    an end normally exactly when the description has a word: for a
    description that is empty or all blank, [word_wrap] reads [words[0]] of
    an empty list and the IndexError leaves [print_course_details] after
    the first five lines. Option "3" of the main loop does not catch it
    (its [except] is for ValueError): the turn ends with the IndexError. *)
Theorem details_need_a_word :
  forall (course : CourseRow) (w : World),
    ascii_text (course_description course) = true ->
    (if all_space (course_description course)
     then print_course_details course w
          = Raise IndexError (set_stdout (stdout w ++ details_head course)%list w)
     else exists w', print_course_details course w = Ok tt w') /\
    (forall (raw : string) (rest : list string) (t : courses_table),
       all_space (course_description course) = true ->
       stdin w = "3" :: raw :: rest ->
       ascii_text raw = true ->
       data_loaded w = true ->
       course_txn w = None ->
       course_db w = Some t ->
       Sql.select_course t (upper (strip raw)) = Some course ->
       exists w',
         main_turn w = Raise IndexError w' /\ stdin w' = rest /\
         course_db w' = course_db w /\ user_db w' = user_db w).
Proof.
  intros course w _. split.
  - destruct (all_space (course_description course)) eqn:Hb.
    + now apply print_course_details_blank.
    + destruct (print_course_details_word course w Hb) as [wrapped [_ H]].
      eexists. exact H.
  - intros raw rest t Hb Hin _ Hdl Htx Hdb Hsel.
    destruct (display_main_menu_run w) as [out0 H0].
    unfold main_turn. rewrite (bind_ok _ _ _ _ _ H0).
    unfold try_except.
    erewrite bind_input by (cbn [stdin set_stdout]; exact Hin).
    rewrite dispatch_3.
    erewrite bind_raise.
    2:{ apply (details_option_blank _ raw rest t course);
        [reflexivity | exact Hdl | exact Htx | exact Hdb | exact Hsel | exact Hb]. }
    cbn [exn_eqb].
    eexists. split; [reflexivity|]. repeat split.
Qed.

Lemma details_need_a_word_witness :
  ascii_text (course_description (mkCourse "CS101" "Intro" "3" "  " "None")) = true /\
  all_space (course_description (mkCourse "CS101" "Intro" "3" "  " "None")) = true /\
  ascii_text "cs101" = true /\
  exists w',
    main_turn
      (set_data_loaded true
         (boot (Some [mkCourse "CS101" "Intro" "3" "  " "None"]) (Some []) None None
            ["3"; "cs101"; "0"; "n"]))
    = Raise IndexError w' /\ stdin w' = ["0"; "n"].
Proof.
  split; [reflexivity|]. split; [reflexivity|]. split; [reflexivity|].
  destruct (proj2 (details_need_a_word
                     (mkCourse "CS101" "Intro" "3" "  " "None")
                     (set_data_loaded true
                        (boot (Some [mkCourse "CS101" "Intro" "3" "  " "None"])
                           (Some []) None None ["3"; "cs101"; "0"; "n"]))
                     eq_refl)
              "cs101" ["0"; "n"] [mkCourse "CS101" "Intro" "3" "  " "None"]
              eq_refl eq_refl eq_refl eq_refl eq_refl eq_refl eq_refl)
    as [w' [Hrun [Hin _]]].
  exists w'. split; [exact Hrun | exact Hin].
Defined.

(** ** Loading the course file *)

Lemma has_course_false (t : courses_table) (k : string) :
  ~ In k (map course_id t) -> Sql.has_course t k = false.
Proof.
  intros Hn. unfold Sql.has_course.
  induction t as [|r t IH]; simpl; [reflexivity|].
  destruct (String.eqb_spec (course_id r) k) as [E|E].
  - exfalso. apply Hn. simpl. now left.
  - apply IH. intros Hin. apply Hn. simpl. now right.
Qed.

Lemma has_course_true (t : courses_table) (k : string) :
  In k (map course_id t) -> Sql.has_course t k = true.
Proof.
  unfold Sql.has_course.
  induction t as [|r t IH]; simpl; [tauto|].
  intros [E|Hin].
  - rewrite E, String.eqb_refl. reflexivity.
  - rewrite (IH Hin). apply orb_true_r.
Qed.

Lemma print_lines_run (l : list string) :
  forall w, print_lines l w = Ok tt (set_stdout (stdout w ++ map Print l)%list w).
Proof.
  induction l as [|s l IH]; intros w;
    destruct w as [cdb ctx udb utx ccsv ucsv inp out dl ua uc].
  - simpl. unfold ret. world_simpl. now rewrite app_nil_r.
  - cbn [print_lines map]. rewrite bind_print, IH. world_simpl.
    rewrite <- app_assoc. reflexivity.
Qed.

(** The records a database file holds: none when the table is missing. *)
Definition contents (db : option courses_table) : courses_table :=
  match db with
  | Some t => t
  | None => []
  end.

(** A row with less than four fields stops the loop: either with the
    message and [False], or before that with the IntegrityError of a
    repeated id. Nothing is written in either case. *)
Lemma load_course_rows_malformed (rows : list (list string)) :
  Exists (fun row => List.length row < 4) rows ->
  forall (t : courses_table) (w : World),
    load_course_rows rows t w
    = Ok false (set_stdout
                  (stdout w ++ [Print "Error: Invalid data format in the CSV file."])%list w)
    \/ load_course_rows rows t w = Raise IntegrityError w.
Proof.
  induction rows as [|row rows IH]; intros Hex t w.
  - inversion Hex.
  - cbn [load_course_rows].
    destruct (4 <=? List.length row)%nat eqn:E.
    + destruct (Sql.insert_course t (course_of_row row)) as [t'|].
      * apply IH. inversion Hex as [? ? Hbad|? ? Hrest]; subst; [|exact Hrest].
        apply Nat.leb_le in E. lia.
      * right. reflexivity.
    + left. rewrite bind_print. reflexivity.
Qed.

(** C2. When a row of courselist.csv has less than four fields,
    [load_course_data] does not load: it returns [False] after the message
    "Error: Invalid data format in the CSV file.", unless an exception came
    first (the IntegrityError of an id repeated before the short row, or
    "database is locked" when the main connection has a transaction open).
    In every case the records of the course file are those it had before
    the call, and the open transactions are untouched. *)
Theorem load_malformed_all_or_nothing :
  forall (w : World) (rows : list (list string)),
    courselist_csv w = Some rows ->
    Exists (fun row => List.length row < 4) rows ->
    exists w',
      ((load_course_data w = Ok false w' /\
        stdout w'
        = (stdout w ++ [Print "Error: Invalid data format in the CSV file."])%list)
       \/ load_course_data w = Raise IntegrityError w'
       \/ load_course_data w = Raise OperationalError w') /\
      (course_txn w = None ->
       load_course_data w = Ok false w' \/ load_course_data w = Raise IntegrityError w') /\
      contents (course_db w') = contents (course_db w) /\
      course_txn w' = course_txn w /\
      user_db w' = user_db w /\ user_txn w' = user_txn w.
Proof.
  intros w rows Hcsv Hex.
  destruct w as [cdb ctx udb utx ccsv ucsv inp out dl ua uc].
  cbn [courselist_csv] in Hcsv. subst ccsv.
  unfold load_course_data. rewrite bind_modify, bind_get.
  assert (Hc : forall d : option courses_table,
             contents (match d with Some _ => d | None => Some [] end) = contents d)
    by (intros [d|]; reflexivity).
  destruct cdb as [d|]; world_simpl; rewrite bind_get; world_simpl;
    (destruct ctx as [pending|];
     [ eexists; split; [right; right; reflexivity|];
       split; [discriminate|]; repeat split
     | match goal with
       | |- context [load_course_rows rows [] ?W] =>
           destruct (load_course_rows_malformed rows Hex [] W) as [H|H]; rewrite H
       end;
       eexists;
       (split; [first [left; split; reflexivity | right; left; reflexivity]|]);
       (split; [intros _; first [left; reflexivity | right; reflexivity]|]);
       repeat split ]).
Qed.

Lemma load_malformed_all_or_nothing_witness :
  courselist_csv
    (boot (Some [mkCourse "OLD1" "Old" "3" "kept" "None"]) (Some [])
       (Some [["CS101"; "Intro"; "3"; "Basics"; ""]; ["CS102"; "broken"]]) None [])
  = Some [["CS101"; "Intro"; "3"; "Basics"; ""]; ["CS102"; "broken"]] /\
  Exists (fun row => List.length row < 4)
    [["CS101"; "Intro"; "3"; "Basics"; ""]; ["CS102"; "broken"]] /\
  exists w',
    load_course_data
      (boot (Some [mkCourse "OLD1" "Old" "3" "kept" "None"]) (Some [])
         (Some [["CS101"; "Intro"; "3"; "Basics"; ""]; ["CS102"; "broken"]]) None [])
    = Ok false w' /\
    course_db w' = Some [mkCourse "OLD1" "Old" "3" "kept" "None"].
Proof.
  assert (Hex : Exists (fun row => List.length row < 4)
                  [["CS101"; "Intro"; "3"; "Basics"; ""]; ["CS102"; "broken"]]).
  { apply Exists_cons_tl. apply Exists_cons_hd. simpl. lia. }
  split; [reflexivity|]. split; [exact Hex|].
  destruct (load_malformed_all_or_nothing
              (boot (Some [mkCourse "OLD1" "Old" "3" "kept" "None"]) (Some [])
                 (Some [["CS101"; "Intro"; "3"; "Basics"; ""]; ["CS102"; "broken"]])
                 None [])
              [["CS101"; "Intro"; "3"; "Basics"; ""]; ["CS102"; "broken"]]
              eq_refl Hex)
    as [w' [_ [Hrun [Hdb _]]]].
  exists w'.
  destruct (Hrun eq_refl) as [H|H].
  - split; [exact H|].
    vm_compute in H. inversion H. reflexivity.
  - vm_compute in H. discriminate H.
Defined.

(** The id and the title the listing shows for a row of the file. *)
Definition id_title_of_row (row : list string) : string * string :=
  (nth 0 row "", nth 1 row "").

Lemma map_id_title (rows : list (list string)) :
  map (fun r => (course_id r, course_title r)) (map course_of_row rows)
  = map id_title_of_row rows.
Proof. rewrite map_map. reflexivity. Qed.

(** Rows with four fields or more and ids that are new and pairwise
    distinct are all inserted, and committed. *)
Lemma load_course_rows_ok (rows : list (list string)) :
  forall (t : courses_table) (w : World),
    Forall (fun row => 4 <= List.length row) rows ->
    NoDup (map course_id t ++ map (fun row => nth 0 row "") rows) ->
    load_course_rows rows t w
    = Ok true (set_course_db (Some (t ++ map course_of_row rows)%list) w).
Proof.
  induction rows as [|row rows IH]; intros t w Hlen Hnd.
  - cbn [load_course_rows map]. rewrite bind_modify, app_nil_r. reflexivity.
  - cbn [load_course_rows].
    inversion Hlen as [|? ? H4 Hrest]; subst.
    apply Nat.leb_le in H4. rewrite H4.
    unfold Sql.insert_course.
    rewrite has_course_false.
    2:{ cbn [map] in Hnd. apply NoDup_remove_2 in Hnd.
        intros Hin. apply Hnd. apply in_or_app. left. exact Hin. }
    rewrite IH; [|exact Hrest|].
    + cbn [map]. rewrite <- app_assoc. reflexivity.
    + rewrite map_app. cbn [map]. rewrite <- app_assoc. exact Hnd.
Qed.

(** A repeated id among rows that have their four fields stops the loop
    with the IntegrityError of the primary key. *)
Lemma load_course_rows_repeated (rows : list (list string)) :
  forall (t : courses_table) (w : World),
    Forall (fun row => 4 <= List.length row) rows ->
    ~ NoDup (map course_id t ++ map (fun row => nth 0 row "") rows) ->
    NoDup (map course_id t) ->
    load_course_rows rows t w = Raise IntegrityError w.
Proof.
  induction rows as [|row rows IH]; intros t w Hlen Hdup Hnd.
  - exfalso. apply Hdup. cbn [map]. rewrite app_nil_r. exact Hnd.
  - cbn [load_course_rows].
    inversion Hlen as [|? ? H4 Hrest]; subst.
    apply Nat.leb_le in H4. rewrite H4.
    unfold Sql.insert_course.
    destruct (in_dec string_dec (nth 0 row "") (map course_id t)) as [Hin|Hin].
    + change (nth 0 row "") with (course_id (course_of_row row)) in Hin.
      rewrite (has_course_true _ _ Hin). reflexivity.
    + change (nth 0 row "") with (course_id (course_of_row row)) in Hin.
      rewrite (has_course_false _ _ Hin).
      apply IH; [exact Hrest| |].
      * intros H. apply Hdup. rewrite map_app in H. cbn [map] in H.
        rewrite <- app_assoc in H. exact H.
      * rewrite map_app. cbn [map].
        apply NoDup_app; [exact Hnd | repeat constructor; intros [] |].
        intros x Hx [Hy|[]]. subst x. exact (Hin Hx).
Qed.

(** *** ORDER BY id *)

Lemma string_leb_ltb (a b : string) :
  String.leb a b = true -> a <> b -> String.ltb a b = true.
Proof.
  unfold String.leb, String.ltb. intros Hle Hne.
  destruct (String.compare a b) eqn:E; try reflexivity; try discriminate.
  exfalso. apply Hne. now apply String.compare_eq_iff.
Qed.

(** A list in ascending order of keys that are pairwise distinct is in
    strictly ascending order. *)
Lemma sorted_strict (l : list (string * string)) :
  Sorted (fun a b => is_true (KeyOrder.leb a b)) l ->
  NoDup (map fst l) ->
  Sorted (fun a b => String.ltb (fst a) (fst b) = true) l.
Proof.
  induction 1 as [|a l Hs IH Hhd]; intros Hnd; [constructor|].
  cbn [map] in Hnd. inversion Hnd as [|? ? Hnotin Hnd']; subst.
  constructor; [exact (IH Hnd')|].
  destruct Hhd as [|b l Hab]; constructor.
  apply string_leb_ltb; [exact Hab|].
  intros E. apply Hnotin. cbn [map]. left. symmetry. exact E.
Qed.

Lemma select_id_title_perm (t : courses_table) :
  Permutation (map (fun r => (course_id r, course_title r)) t) (Sql.select_id_title t).
Proof. apply KeySort.Permuted_sort. Qed.

Lemma select_id_title_sorted (t : courses_table) :
  NoDup (map course_id t) ->
  Sorted (fun a b => String.ltb (fst a) (fst b) = true) (Sql.select_id_title t).
Proof.
  intros Hnd. apply sorted_strict; [apply KeySort.Sorted_sort|].
  eapply Permutation_NoDup; [|exact Hnd].
  replace (map course_id t)
    with (map fst (map (fun r => (course_id r, course_title r)) t))
    by (rewrite map_map; reflexivity).
  apply Permutation_map. apply select_id_title_perm.
Qed.

(** What [print_course_list] prints for a table. *)
Definition listing_events (t : courses_table) : list event :=
  Print "List of Courses:"
  :: match Sql.select_id_title t with
     | [] => [Print "No courses found."]
     | courses => map (fun course => Print (fst course ++ ", " ++ snd course)) courses
     end.

Lemma print_course_list_run (w : World) (t : courses_table) :
  data_loaded w = true ->
  course_txn w = None ->
  course_db w = Some t ->
  print_course_list w = Ok tt (set_stdout (stdout w ++ listing_events t)%list w).
Proof.
  intros Hdl Htx Hdb.
  destruct w as [cdb ctx udb utx ccsv ucsv inp out dl ua uc].
  cbn [data_loaded course_txn course_db] in Hdl, Htx, Hdb. subst dl ctx cdb.
  unfold print_course_list, listing_events. do 2 mstep.
  unfold courses_read at 1. unfold bind at 1. world_simpl.
  destruct (Sql.select_id_title t) as [|c l] eqn:E.
  - unfold print, modify. world_simpl. rewrite <- app_assoc. reflexivity.
  - rewrite print_lines_run. world_simpl.
    rewrite map_map, <- app_assoc. reflexivity.
Qed.

(** C4, as the program has it. When every row of courselist.csv has four
    fields or more and no id comes twice, and the main connection has no
    transaction open, [load_course_data] returns [True] and the course file
    holds the rows of courselist.csv and nothing else, whatever it held
    before; [print_course_list] then prints the (id, title) pair of every
    row, each once, in strictly ascending order of the ids. *)
Theorem reload_then_list :
  forall (w : World) (rows : list (list string)),
    courselist_csv w = Some rows ->
    course_txn w = None ->
    Forall (fun row => 4 <= List.length row) rows ->
    NoDup (map (fun row => nth 0 row "") rows) ->
    exists w1,
      load_course_data w = Ok true w1 /\
      course_db w1 = Some (map course_of_row rows) /\
      course_txn w1 = None /\
      Permutation (map id_title_of_row rows)
        (Sql.select_id_title (map course_of_row rows)) /\
      Sorted (fun a b => String.ltb (fst a) (fst b) = true)
        (Sql.select_id_title (map course_of_row rows)) /\
      print_course_list (set_data_loaded true w1)
      = Ok tt (set_stdout
                 (stdout w1 ++ listing_events (map course_of_row rows))%list
                 (set_data_loaded true w1)).
Proof.
  intros w rows Hcsv Htx Hlen Hnd.
  assert (Hids : map course_id (map course_of_row rows)
                 = map (fun row => nth 0 row "") rows)
    by (rewrite map_map; reflexivity).
  destruct w as [cdb ctx udb utx ccsv ucsv inp out dl ua uc].
  cbn [courselist_csv course_txn] in Hcsv, Htx. subst ccsv ctx.
  unfold load_course_data. rewrite bind_modify, bind_get.
  assert (Hrun : forall W,
             load_course_rows rows [] W
             = Ok true (set_course_db (Some (map course_of_row rows)) W)).
  { intros W. rewrite load_course_rows_ok; [reflexivity | exact Hlen | exact Hnd]. }
  destruct cdb as [d|]; world_simpl; rewrite bind_get; world_simpl; rewrite Hrun;
    world_simpl;
    (eexists; split; [reflexivity|]; world_simpl;
     split; [reflexivity|]; split; [reflexivity|];
     split; [rewrite <- map_id_title; apply select_id_title_perm|];
     split; [apply select_id_title_sorted; rewrite Hids; exact Hnd|];
     apply print_course_list_run; reflexivity).
Qed.

Lemma reload_then_list_witness :
  courselist_csv
    (boot (Some [mkCourse "OLD1" "Old" "3" "gone" "None"]) (Some [])
       (Some [["CS200"; "Algorithms"; "3"; "Sorting"; "CS101"];
              ["CS101"; "Intro"; "3"; "Basics"; ""]]) None [])
  = Some [["CS200"; "Algorithms"; "3"; "Sorting"; "CS101"];
          ["CS101"; "Intro"; "3"; "Basics"; ""]] /\
  course_txn
    (boot (Some [mkCourse "OLD1" "Old" "3" "gone" "None"]) (Some [])
       (Some [["CS200"; "Algorithms"; "3"; "Sorting"; "CS101"];
              ["CS101"; "Intro"; "3"; "Basics"; ""]]) None [])
  = None /\
  Forall (fun row => 4 <= List.length row)
    [["CS200"; "Algorithms"; "3"; "Sorting"; "CS101"];
     ["CS101"; "Intro"; "3"; "Basics"; ""]] /\
  NoDup (map (fun row => nth 0 row "")
           [["CS200"; "Algorithms"; "3"; "Sorting"; "CS101"];
            ["CS101"; "Intro"; "3"; "Basics"; ""]]) /\
  exists w1,
    load_course_data
      (boot (Some [mkCourse "OLD1" "Old" "3" "gone" "None"]) (Some [])
         (Some [["CS200"; "Algorithms"; "3"; "Sorting"; "CS101"];
                ["CS101"; "Intro"; "3"; "Basics"; ""]]) None [])
    = Ok true w1 /\
    Sql.select_id_title (contents (course_db w1))
    = [("CS101", "Intro"); ("CS200", "Algorithms")].
Proof.
  assert (Hlen : Forall (fun row => 4 <= List.length row)
                   [["CS200"; "Algorithms"; "3"; "Sorting"; "CS101"];
                    ["CS101"; "Intro"; "3"; "Basics"; ""]]).
  { repeat constructor; simpl; lia. }
  assert (Hnd : NoDup (map (fun row => nth 0 row "")
                         [["CS200"; "Algorithms"; "3"; "Sorting"; "CS101"];
                          ["CS101"; "Intro"; "3"; "Basics"; ""]])).
  { simpl. repeat constructor; simpl; intuition discriminate. }
  split; [reflexivity|]. split; [reflexivity|]. split; [exact Hlen|].
  split; [exact Hnd|].
  destruct (reload_then_list
              (boot (Some [mkCourse "OLD1" "Old" "3" "gone" "None"]) (Some [])
                 (Some [["CS200"; "Algorithms"; "3"; "Sorting"; "CS101"];
                        ["CS101"; "Intro"; "3"; "Basics"; ""]]) None [])
              [["CS200"; "Algorithms"; "3"; "Sorting"; "CS101"];
               ["CS101"; "Intro"; "3"; "Basics"; ""]]
              eq_refl eq_refl Hlen Hnd)
    as [w1 [Hrun [Hdb _]]].
  exists w1. split; [exact Hrun|]. rewrite Hdb. reflexivity.
Defined.

(** The input of the counterexample to C4: every row has its four fields,
    the id CS101 comes twice. *)
Definition repeated_id_world : World :=
  boot (Some [mkCourse "OLD1" "Old" "3" "kept" "None"]) (Some [])
    (Some [["CS101"; "Intro"; "3"; "Basics"; ""];
           ["CS101"; "Intro again"; "3"; "Basics"; ""]]) None [].

(** C4 as stated fails: a snapshot all of whose rows have four fields, but
    with an id that comes twice, is not loaded. The second INSERT raises
    the IntegrityError of the primary key, and the course file keeps the
    records of the load before. *)
Lemma valid_snapshot_with_repeated_id_fails :
  Forall (fun row => 4 <= List.length row)
    [["CS101"; "Intro"; "3"; "Basics"; ""];
     ["CS101"; "Intro again"; "3"; "Basics"; ""]] /\
  load_course_data repeated_id_world = Raise IntegrityError repeated_id_world /\
  course_db repeated_id_world = Some [mkCourse "OLD1" "Old" "3" "kept" "None"].
Proof.
  split; [repeat constructor; simpl; lia|].
  split; reflexivity.
Qed.

(** ** The exit option *)

(** The answer to "Do you want to save changes? (Y/N): ". *)
Lemma exit_option_run (w : World) (raw : string) (rest : list string) :
  stdin w = raw :: rest ->
  exists w',
    exit_option w = Ok tt w' /\ stdin w' = rest /\
    user_db w' = user_db w /\ user_txn w' = user_txn w /\
    (lower (strip raw) = "y" ->
       course_txn w' = None /\
       course_db w' = match course_txn w with
                      | Some t => Some t
                      | None => course_db w
                      end) /\
    (lower (strip raw) <> "y" ->
       course_txn w' = course_txn w /\ course_db w' = course_db w).
Proof.
  intros Hin.
  destruct w as [cdb ctx udb utx ccsv ucsv inp out dl ua uc].
  cbn [stdin] in Hin. subst inp.
  unfold exit_option. mstep.
  destruct (String.eqb_spec (lower (strip raw)) "y") as [E|E].
  - unfold courses_commit. do 3 mstep. unfold print, modify. world_simpl.
    destruct ctx as [t|]; world_simpl;
      (eexists; split; [reflexivity|]; world_simpl; repeat split; tauto).
  - mstep. unfold print, modify. world_simpl.
    eexists. split; [reflexivity|]. world_simpl. repeat split; tauto.
Qed.

(** ** Two places where the program misses what it sets out to do *)

(** The row of the scenario "CS101,Intro to CS,3,Basics of programming,":
    the fifth field is there and empty. *)
Definition scenario_row : list string :=
  ["CS101"; "Intro to CS"; "3"; "Basics of programming"; ""].

(** The program started on a course file that does not exist yet, with
    courselist.csv holding the row of the scenario: the list is reset
    (option "6"), then the details of CS101 are asked for (option "3"). *)
Definition scenario_world : World :=
  boot None (Some []) (Some [scenario_row]) None
    ["6"; "admin"; "admin"; "y"; "3"; "cs101"; "0"; "n"].

(** C5 at its failing input. A row without prerequisites does not come out
    as "Prerequisites: None" when it was loaded from the file: with an
    empty fifth field the column holds the empty string and the line is
    "Prerequisites: " with nothing after it; without a fifth field the
    column holds "N, o, n, e" (the characters of "None" joined), which the
    test for "none" misses as well. Only [add_course] stores "None" for no
    prerequisites. *)
Theorem loaded_course_without_prerequisites :
  (forall row,
     4 < List.length row -> all_space (nth 4 row "") = true ->
     course_prerequisites (course_of_row row) = "") /\
  (forall row,
     List.length row <= 4 ->
     course_prerequisites (course_of_row row) = "N, o, n, e") /\
  (forall course w,
     all_space (course_description course) = false ->
     course_prerequisites course = "" \/ course_prerequisites course = "N, o, n, e" ->
     exists wrapped,
       print_course_details course w
       = Ok tt (set_stdout
                  (stdout w ++ details_head course
                     ++ [Print wrapped;
                         Print ("Prerequisites: " ++ course_prerequisites course)])%list
                  w)) /\
  (exists w',
     main scenario_world = Ok tt w' /\
     course_db w' = Some [mkCourse "CS101" "Intro to CS" "3" "Basics of programming" ""] /\
     In (Print "Prerequisites: ") (stdout w') /\
     ~ In (Print "Prerequisites: None") (stdout w')).
Proof.
  split; [|split; [|split]].
  - intros row Hlen Hb. unfold course_of_row. cbn [course_prerequisites].
    apply Nat.ltb_lt in Hlen. rewrite Hlen.
    apply split_nil in Hb. rewrite Hb. reflexivity.
  - intros row Hlen. unfold course_of_row. cbn [course_prerequisites].
    assert (E : (4 <? List.length row)%nat = false) by (apply Nat.ltb_ge; exact Hlen).
    rewrite E. reflexivity.
  - intros course w Hb Hp.
    destruct (print_course_details_word course w Hb) as [wrapped [_ H]].
    exists wrapped. rewrite H.
    destruct Hp as [E|E]; rewrite E; reflexivity.
  - eexists. split; [vm_compute; reflexivity|].
    split; [reflexivity|]. split.
    + cbn [stdout]. repeat (first [left; reflexivity | right]).
    + cbn [stdout]. intros H.
      repeat (destruct H as [H|H]; [discriminate H|]). exact H.
Qed.

Lemma loaded_course_without_prerequisites_witness :
  4 < List.length scenario_row /\
  all_space (nth 4 scenario_row "") = true /\
  course_prerequisites (course_of_row scenario_row) = "".
Proof.
  assert (Hlen : 4 < List.length scenario_row) by (simpl; lia).
  split; [exact Hlen|]. split; [reflexivity|].
  exact (proj1 loaded_course_without_prerequisites scenario_row Hlen eq_refl).
Defined.

Lemma main_init_run (w : World) :
  exists w', main_init w = Ok tt w' /\ data_loaded w' = true /\
             user_authenticated w' = false /\ course_db w' = course_db w /\
             stdin w' = stdin w /\ stdout w' = stdout w.
Proof.
  destruct w as [cdb ctx udb utx ccsv ucsv inp out dl ua uc].
  unfold main_init. do 5 mstep.
  destruct udb as [t|]; world_simpl; unfold modify; world_simpl;
    (eexists; split; [reflexivity|]; repeat split).
Qed.

(** * Further properties of the program *)

(** ** The user management functions *)

Lemma has_user_false (t : users_table) (u : string) :
  ~ In u (map fst t) -> Sql.has_user t u = false.
Proof.
  intros Hn. unfold Sql.has_user. apply not_true_is_false. intros Hex.
  apply existsb_exists in Hex. destruct Hex as [r [Hr1 Hr2]].
  apply String.eqb_eq in Hr2. apply Hn. rewrite <- Hr2. now apply in_map.
Qed.

(** DELETE keeps the names that stay pairwise distinct. *)
Lemma delete_user_distinct (t : users_table) (u : string) :
  NoDup (map fst t) -> NoDup (map fst (Sql.delete_user t u)).
Proof.
  unfold Sql.delete_user.
  induction t as [|r t IH]; intros Hnd; cbn [filter map]; [constructor|].
  cbn [map] in Hnd. apply NoDup_cons_iff in Hnd. destruct Hnd as [Hr Ht].
  destruct (negb (fst r =? u)); cbn [map]; [|exact (IH Ht)].
  apply NoDup_cons; [|exact (IH Ht)].
  intros Hin. apply Hr. apply in_map_iff in Hin.
  destruct Hin as [x [Hx1 Hx2]]. apply filter_In in Hx2.
  rewrite <- Hx1. apply in_map. tauto.
Qed.

(** What [delete_user] leaves in the store. *)
Lemma delete_user_store (w : World) (raw : string) (rest : list string)
    (t : users_table) :
  stdin w = raw :: rest ->
  user_db w = Some t ->
  user_txn w = None ->
  exists w',
    delete_user w = Ok tt w' /\
    (user_db w' = Some t \/
     user_db w' = Some (Sql.delete_user t (lower (strip raw)))).
Proof.
  intros Hin Hdb Htx.
  destruct w as [cdb ctx udb utx ccsv ucsv inp out dl ua uc].
  cbn [stdin user_db user_txn] in Hin, Hdb, Htx. subst inp udb utx.
  unfold delete_user. mstep.
  destruct (lower (strip raw) =? "admin").
  - unfold print, modify. world_simpl. eexists. split; [reflexivity|].
    left. reflexivity.
  - unfold users_read at 1. unfold bind at 1. world_simpl.
    destruct (Sql.select_user t (lower (strip raw))).
    + unfold users_write. do 3 mstep. unfold users_commit, modify. world_simpl.
      eexists. split; [reflexivity|]. right. reflexivity.
    + mstep. unfold users_commit, modify. world_simpl.
      eexists. split; [reflexivity|]. left. reflexivity.
Qed.

(** [add_user] on a store [t] with nothing pending: a name that is in the
    store (after strip and lower) is refused and the store is left as it
    was; a new name is appended with the password as typed, and
    committed. *)
Lemma add_user_run :
  forall (w : World) (raw password : string) (rest : list string) (t : users_table),
    stdin w = raw :: password :: rest ->
    user_db w = Some t ->
    user_txn w = None ->
    exists w',
      add_user w = Ok tt w' /\ stdin w' = rest /\ user_txn w' = None /\
      (In (lower (strip raw)) (map fst t) ->
         user_db w' = Some t /\
         stdout w' = (stdout w ++ [Prompt "Enter the username: ";
                                   Prompt "Enter the password: ";
                                   Print "Error: Username already exists."])%list) /\
      (~ In (lower (strip raw)) (map fst t) ->
         user_db w' = Some (t ++ [(lower (strip raw), password)])%list /\
         stdout w' = (stdout w ++ [Prompt "Enter the username: ";
                                   Prompt "Enter the password: ";
                                   Print ("User " ++ lower (strip raw)
                                          ++ " added successfully.")])%list).
Proof.
  intros w raw password rest t Hin Hdb Htx.
  destruct w as [cdb ctx udb utx ccsv ucsv inp out dl ua uc].
  cbn [stdin user_db user_txn] in Hin, Hdb, Htx. subst inp udb utx.
  unfold add_user. do 2 mstep.
  unfold users_read at 1. unfold bind at 1. world_simpl.
  destruct (in_dec string_dec (lower (strip raw)) (map fst t)) as [Hi|Hi].
  - destruct (select_user_some t _ Hi) as [r Hr]. rewrite Hr.
    mstep. unfold users_commit, modify. world_simpl.
    eexists. split; [reflexivity|]. world_simpl. rewrite <- !app_assoc.
    repeat split; intros; try contradiction; reflexivity.
  - rewrite (select_user_none t _ Hi).
    unfold Sql.insert_user. cbn [fst].
    rewrite (has_user_false t _ Hi). unfold users_write. do 3 mstep.
    unfold users_commit, modify. world_simpl.
    eexists. split; [reflexivity|]. world_simpl. rewrite <- !app_assoc.
    repeat split; intros; try contradiction; reflexivity.
Qed.

(** [add_user] on a store [t] with nothing pending, for a name typed in
    ASCII text: a name that is in the store (after strip and lower) is
    refused and the store is left as it was; a new name is appended with
    the password as typed, and committed. *)
Theorem add_user_cases :
  forall (w : World) (raw password : string) (rest : list string) (t : users_table),
    stdin w = raw :: password :: rest ->
    ascii_text raw = true ->
    user_db w = Some t ->
    user_txn w = None ->
    exists w',
      add_user w = Ok tt w' /\ stdin w' = rest /\ user_txn w' = None /\
      (In (lower (strip raw)) (map fst t) ->
         user_db w' = Some t /\
         stdout w' = (stdout w ++ [Prompt "Enter the username: ";
                                   Prompt "Enter the password: ";
                                   Print "Error: Username already exists."])%list) /\
      (~ In (lower (strip raw)) (map fst t) ->
         user_db w' = Some (t ++ [(lower (strip raw), password)])%list /\
         stdout w' = (stdout w ++ [Prompt "Enter the username: ";
                                   Prompt "Enter the password: ";
                                   Print ("User " ++ lower (strip raw)
                                          ++ " added successfully.")])%list).
Proof.
  intros w raw password rest t Hin _ Hdb Htx.
  exact (add_user_run w raw password rest t Hin Hdb Htx).
Qed.

Lemma add_user_cases_witness :
  stdin (boot None (Some [("alice", "pw1")]) None None ["  Alice "; "pw2"; "R"])
  = "  Alice " :: "pw2" :: ["R"] /\
  ascii_text "  Alice " = true /\
  user_db (boot None (Some [("alice", "pw1")]) None None ["  Alice "; "pw2"; "R"])
  = Some [("alice", "pw1")] /\
  user_txn (boot None (Some [("alice", "pw1")]) None None ["  Alice "; "pw2"; "R"])
  = None /\
  exists w',
    add_user (boot None (Some [("alice", "pw1")]) None None ["  Alice "; "pw2"; "R"])
    = Ok tt w' /\
    user_db w' = Some [("alice", "pw1")].
Proof.
  split; [reflexivity|]. split; [reflexivity|]. split; [reflexivity|].
  split; [reflexivity|].
  destruct (add_user_cases
              (boot None (Some [("alice", "pw1")]) None None ["  Alice "; "pw2"; "R"])
              "  Alice " "pw2" ["R"] [("alice", "pw1")] eq_refl eq_refl eq_refl eq_refl)
    as [w' [Hrun [_ [_ [Hdup _]]]]].
  exists w'. split; [exact Hrun|].
  apply Hdup. simpl. left. reflexivity.
Defined.

(** What [add_user] leaves in the store. *)
Lemma add_user_store (w : World) (raw password : string) (rest : list string)
    (t : users_table) :
  stdin w = raw :: password :: rest ->
  user_db w = Some t ->
  user_txn w = None ->
  exists w',
    add_user w = Ok tt w' /\
    (user_db w' = Some t \/
     (~ In (lower (strip raw)) (map fst t) /\
      user_db w' = Some (t ++ [(lower (strip raw), password)])%list)).
Proof.
  intros Hin Hdb Htx.
  destruct w as [cdb ctx udb utx ccsv ucsv inp out dl ua uc].
  cbn [stdin user_db user_txn] in Hin, Hdb, Htx. subst inp udb utx.
  unfold add_user. do 2 mstep.
  unfold users_read at 1. unfold bind at 1. world_simpl.
  destruct (in_dec string_dec (lower (strip raw)) (map fst t)) as [Hi|Hi].
  - destruct (select_user_some t _ Hi) as [r Hr]. rewrite Hr.
    mstep. unfold users_commit, modify. world_simpl.
    eexists. split; [reflexivity|]. left. reflexivity.
  - rewrite (select_user_none t _ Hi).
    unfold Sql.insert_user. cbn [fst].
    rewrite (has_user_false t _ Hi). unfold users_write. do 3 mstep.
    unfold users_commit, modify. world_simpl.
    eexists. split; [reflexivity|]. right. split; [exact Hi | reflexivity].
Qed.

(** The usernames of the store stay pairwise distinct under [add_user] and
    [delete_user]. *)
Theorem usernames_stay_distinct :
  forall (w w' : World) (t t' : users_table),
    user_db w = Some t ->
    user_txn w = None ->
    NoDup (map fst t) ->
    add_user w = Ok tt w' \/ delete_user w = Ok tt w' ->
    user_db w' = Some t' ->
    NoDup (map fst t').
Proof.
  intros w w' t t' Hdb Htx Hnd Hrun Hdb'.
  destruct Hrun as [Hrun|Hrun].
  - destruct (stdin w) as [|raw [|password rest]] eqn:Hin.
    + unfold add_user in Hrun.
      rewrite (bind_raise _ _ _ _ _ (input_nil _ _ Hin)) in Hrun. discriminate.
    + unfold add_user in Hrun.
      rewrite (bind_ok _ _ _ _ _ (input_cons _ _ _ _ Hin)) in Hrun.
      erewrite bind_raise in Hrun; [discriminate|]. apply input_nil. reflexivity.
    + destruct (add_user_store w raw password rest t Hin Hdb Htx)
        as [w1 [Hrun1 Hcases]].
      rewrite Hrun1 in Hrun. inversion Hrun. subst w1.
      destruct Hcases as [E|[Hi E]]; rewrite E in Hdb'; inversion Hdb'; subst t'.
      * exact Hnd.
      * rewrite map_app. cbn [map fst].
        apply NoDup_app; [exact Hnd | repeat constructor; intros [] |].
        intros x Hx [Hy|[]]. subst x. exact (Hi Hx).
  - destruct (stdin w) as [|raw rest] eqn:Hin.
    + unfold delete_user in Hrun.
      rewrite (bind_raise _ _ _ _ _ (input_nil _ _ Hin)) in Hrun. discriminate.
    + destruct (delete_user_store w raw rest t Hin Hdb Htx) as [w1 [Hrun1 Hcases]].
      rewrite Hrun1 in Hrun. inversion Hrun. subst w1.
      destruct Hcases as [E|E]; rewrite E in Hdb'; inversion Hdb'; subst t'.
      * exact Hnd.
      * apply delete_user_distinct. exact Hnd.
Qed.

Lemma usernames_stay_distinct_witness :
  user_db (boot None (Some [("alice", "pw1")]) None None ["Bob"; "pw2"])
  = Some [("alice", "pw1")] /\
  user_txn (boot None (Some [("alice", "pw1")]) None None ["Bob"; "pw2"]) = None /\
  NoDup (map fst [("alice", "pw1")]) /\
  NoDup (map fst [("alice", "pw1"); ("bob", "pw2")]).
Proof.
  assert (Hnd : NoDup (map fst [("alice", "pw1")])).
  { simpl. repeat constructor. intros []. }
  split; [reflexivity|]. split; [reflexivity|]. split; [exact Hnd|].
  apply (usernames_stay_distinct
           (boot None (Some [("alice", "pw1")]) None None ["Bob"; "pw2"])
           (mkWorld None None (Some [("alice", "pw1"); ("bob", "pw2")]) None None None []
              [Prompt "Enter the username: "; Prompt "Enter the password: ";
               Print "User bob added successfully."] false false None)
           [("alice", "pw1")] [("alice", "pw1"); ("bob", "pw2")]
           eq_refl eq_refl Hnd).
  - left. reflexivity.
  - reflexivity.
Defined.

(** A user that was added can log in, under any spelling of the name that
    strips and lowers to the same: [login] on the store [add_user] has
    committed accepts the pair at once. *)
Theorem added_user_can_log_in :
  forall (w : World) (t : users_table) (name raw password : string)
         (rest : list string),
    user_db w = Some (t ++ [(name, password)])%list ->
    user_txn w = None ->
    stdin w = raw :: password :: rest ->
    lower (strip raw) = name ->
    exists w', login w = Ok true w' /\ stdin w' = rest /\ user_db w' = user_db w.
Proof.
  intros w t name raw password rest Hdb Htx Hin Hname.
  destruct w as [cdb ctx udb utx ccsv ucsv inp out dl ua uc].
  cbn [stdin user_db user_txn] in Hin, Hdb, Htx. subst inp udb utx.
  rewrite login_eq. cbn [stdin List.length login_loop].
  do 2 mstep. rewrite Hname.
  destruct ((name =? "admin") && (password =? "admin")).
  - unfold print, modify, ret, bind. world_simpl.
    eexists. split; [reflexivity|]. split; reflexivity.
  - unfold users_read at 1. unfold bind at 1. world_simpl.
    destruct (Sql.select_login (t ++ [(name, password)])%list name password)
      as [r|] eqn:E.
    + unfold print, modify, ret, bind. world_simpl.
      eexists. split; [reflexivity|]. split; reflexivity.
    + exfalso. unfold Sql.select_login in E.
      assert (Hf := find_none _ _ E (name, password)).
      cbn [fst snd] in Hf. rewrite !String.eqb_refl in Hf.
      cbn [andb] in Hf. discriminate Hf.
      apply in_or_app. right. left. reflexivity.
Qed.

Lemma added_user_can_log_in_witness :
  user_db (boot None (Some ([("alice", "pw1")] ++ [("bob", "pw2")])%list) None None
             [" BOB"; "pw2"; "0"])
  = Some ([("alice", "pw1")] ++ [("bob", "pw2")])%list /\
  user_txn (boot None (Some ([("alice", "pw1")] ++ [("bob", "pw2")])%list) None None
              [" BOB"; "pw2"; "0"]) = None /\
  stdin (boot None (Some ([("alice", "pw1")] ++ [("bob", "pw2")])%list) None None
           [" BOB"; "pw2"; "0"])
  = " BOB" :: "pw2" :: ["0"] /\
  lower (strip " BOB") = "bob" /\
  exists w',
    login (boot None (Some ([("alice", "pw1")] ++ [("bob", "pw2")])%list) None None
             [" BOB"; "pw2"; "0"])
    = Ok true w' /\ stdin w' = ["0"].
Proof.
  split; [reflexivity|]. split; [reflexivity|]. split; [reflexivity|].
  split; [reflexivity|].
  destruct (added_user_can_log_in
              (boot None (Some ([("alice", "pw1")] ++ [("bob", "pw2")])%list) None None
                 [" BOB"; "pw2"; "0"])
              [("alice", "pw1")] "bob" " BOB" "pw2" ["0"]
              eq_refl eq_refl eq_refl eq_refl)
    as [w' [Hrun [Hin _]]].
  exists w'. split; [exact Hrun | exact Hin].
Defined.

(** ** Adding and replacing a course *)

(** What a statement on the main course connection reads. *)
Definition courses_view (w : World) : option courses_table :=
  match course_txn w with
  | Some t => Some t
  | None => course_db w
  end.

Lemma courses_read_view (w : World) (t : courses_table) :
  courses_view w = Some t -> courses_read w = Ok t w.
Proof.
  unfold courses_view, courses_read.
  destruct (course_txn w) as [t0|].
  - intros E. inversion E. reflexivity.
  - intros E. rewrite E. reflexivity.
Qed.

(** The record [add_course] makes of the five lines typed: the id stripped
    and in upper case, the title in title case, credits and description as
    typed, the prerequisites cut at the spaces and joined by ", ", or "None"
    when the line was empty. *)
Definition entered_course (raw_id raw_title credits description prerequisites : string)
    : CourseRow :=
  mkCourse (upper (strip raw_id)) (title raw_title) credits description
    (join ", "
       (IList (filter (fun p => negb (is_empty p))
                 (map strip
                    (split_on " "
                       (if prerequisites =? "" then "None" else prerequisites)))))).

Lemma select_course_none (t : courses_table) (k : string) :
  ~ In k (map course_id t) -> Sql.select_course t k = None.
Proof.
  intros Hn. unfold Sql.select_course.
  induction t as [|r t IH]; cbn [find]; [reflexivity|].
  destruct (String.eqb_spec (course_id r) k) as [E|E].
  - exfalso. apply Hn. cbn [map]. left. exact E.
  - apply IH. intros Hin. apply Hn. cbn [map]. right. exact Hin.
Qed.

Lemma select_course_some (t : courses_table) (k : string) :
  In k (map course_id t) -> exists r, Sql.select_course t k = Some r.
Proof.
  unfold Sql.select_course.
  induction t as [|r t IH]; cbn [find map]; [intros []|].
  intros [E|Hin].
  - rewrite E, String.eqb_refl. eauto.
  - destruct (course_id r =? k); eauto.
Qed.

Lemma select_course_id (t : courses_table) (k : string) (c : CourseRow) :
  Sql.select_course t k = Some c -> course_id c = k /\ In c t.
Proof.
  unfold Sql.select_course. intros E. apply find_some in E.
  destruct E as [Hin E]. apply String.eqb_eq in E. tauto.
Qed.

Lemma select_course_appended (t : courses_table) (c : CourseRow) :
  ~ In (course_id c) (map course_id t) ->
  Sql.select_course (t ++ [c])%list (course_id c) = Some c.
Proof.
  intros Hn. unfold Sql.select_course.
  induction t as [|r t IH]; cbn [find app].
  - now rewrite String.eqb_refl.
  - destruct (String.eqb_spec (course_id r) (course_id c)) as [E|E].
    + exfalso. apply Hn. cbn [map]. left. exact E.
    + apply IH. intros Hin. apply Hn. cbn [map]. right. exact Hin.
Qed.

Lemma select_course_updated (t : courses_table) (c : CourseRow) (k : string) :
  Sql.select_course (Sql.update_course t c) k
  = if k =? course_id c
    then (if Sql.has_course t k then Some c else None)
    else Sql.select_course t k.
Proof.
  unfold Sql.select_course, Sql.update_course, Sql.has_course.
  induction t as [|r t IH]; cbn [find map existsb].
  - destruct (k =? course_id c); reflexivity.
  - destruct (String.eqb_spec (course_id r) (course_id c)) as [E|E].
    + destruct (String.eqb_spec k (course_id c)) as [Ek|Ek].
      * subst k. rewrite String.eqb_refl, E, String.eqb_refl. reflexivity.
      * rewrite IH.
        destruct (String.eqb_spec (course_id c) k) as [E1|E1]; [congruence|].
        destruct (String.eqb_spec (course_id r) k) as [E2|E2]; [congruence|].
        destruct (String.eqb_spec k (course_id c)); [congruence|reflexivity].
    + rewrite IH.
      destruct (String.eqb_spec (course_id r) k) as [E2|E2].
      * destruct (String.eqb_spec k (course_id c)) as [Ek|Ek]; [congruence|].
        reflexivity.
      * cbn [orb]. reflexivity.
Qed.

(** [add_course] with an id that the table does not hold: the record made
    of the five lines is inserted in the transaction of the main connection
    (the course file itself is not written), and the lookup of the id then
    finds this record. *)
Lemma add_course_new_run :
  forall (w : World) (raw_id raw_title credits description prerequisites : string)
         (rest : list string) (t : courses_table),
    stdin w = raw_id :: raw_title :: credits :: description :: prerequisites :: rest ->
    courses_view w = Some t ->
    ~ In (upper (strip raw_id)) (map course_id t) ->
    exists w',
      add_course true w = Ok tt w' /\
      stdin w' = rest /\
      course_db w' = course_db w /\
      course_txn w'
      = Some (t ++ [entered_course raw_id raw_title credits description prerequisites])%list /\
      courses_view w'
      = Some (t ++ [entered_course raw_id raw_title credits description prerequisites])%list /\
      Sql.select_course
        (t ++ [entered_course raw_id raw_title credits description prerequisites])%list
        (upper (strip raw_id))
      = Some (entered_course raw_id raw_title credits description prerequisites).
Proof.
  intros w raw_id raw_title credits description prerequisites rest t Hin Hview Hnew.
  pose proof (courses_read_view w t Hview) as Hread.
  destruct w as [cdb ctx udb utx ccsv ucsv inp out dl ua uc].
  cbn [stdin] in Hin. subst inp.
  unfold add_course. do 5 mstep.
  match goal with
  | |- context [bind courses_read _ ?W] =>
      assert (Hr : courses_read W = Ok t W)
  end.
  { unfold courses_read in *. cbn [course_txn course_db] in *.
    destruct ctx as [t0|]; [inversion Hread; reflexivity|].
    destruct cdb as [t0|]; [inversion Hread; reflexivity | discriminate]. }
  rewrite (bind_ok _ _ _ _ _ Hr).
  rewrite (select_course_none t _ Hnew).
  unfold Sql.insert_course. cbn [course_id].
  rewrite (has_course_false t _ Hnew).
  unfold courses_write. mstep. unfold print, modify. world_simpl.
  eexists. split; [reflexivity|]. unfold courses_view. world_simpl.
  split; [reflexivity|]. split; [reflexivity|]. split; [reflexivity|].
  split; [reflexivity|].
  apply (select_course_appended t
           (entered_course raw_id raw_title credits description prerequisites)).
  exact Hnew.
Qed.

(** [add_course] with an id that the table does not hold, for an id, a
    title and prerequisites typed in ASCII text: the record made of the
    five lines is inserted in the transaction of the main connection (the
    course file itself is not written), and the lookup of the id then
    finds this record. *)
Theorem add_course_new_id :
  forall (w : World) (raw_id raw_title credits description prerequisites : string)
         (rest : list string) (t : courses_table),
    stdin w = raw_id :: raw_title :: credits :: description :: prerequisites :: rest ->
    ascii_text raw_id = true ->
    ascii_text raw_title = true ->
    ascii_text prerequisites = true ->
    courses_view w = Some t ->
    ~ In (upper (strip raw_id)) (map course_id t) ->
    exists w',
      add_course true w = Ok tt w' /\
      stdin w' = rest /\
      course_db w' = course_db w /\
      course_txn w'
      = Some (t ++ [entered_course raw_id raw_title credits description prerequisites])%list /\
      courses_view w'
      = Some (t ++ [entered_course raw_id raw_title credits description prerequisites])%list /\
      Sql.select_course
        (t ++ [entered_course raw_id raw_title credits description prerequisites])%list
        (upper (strip raw_id))
      = Some (entered_course raw_id raw_title credits description prerequisites).
Proof.
  intros w raw_id raw_title credits description prerequisites rest t
         Hin _ _ _ Hview Hnew.
  exact (add_course_new_run w raw_id raw_title credits description prerequisites
           rest t Hin Hview Hnew).
Qed.

Lemma add_course_new_id_witness :
  stdin (boot (Some []) (Some []) None None
           [" cs200 "; "algorithm design"; "3"; "Sorting"; "CS101  CS102"; "0"])
  = " cs200 " :: "algorithm design" :: "3" :: "Sorting" :: "CS101  CS102" :: ["0"] /\
  ascii_text " cs200 " = true /\
  ascii_text "algorithm design" = true /\
  ascii_text "CS101  CS102" = true /\
  courses_view (boot (Some []) (Some []) None None
                  [" cs200 "; "algorithm design"; "3"; "Sorting"; "CS101  CS102"; "0"])
  = Some [] /\
  ~ In (upper (strip " cs200 ")) (map course_id []) /\
  exists w',
    add_course true
      (boot (Some []) (Some []) None None
         [" cs200 "; "algorithm design"; "3"; "Sorting"; "CS101  CS102"; "0"])
    = Ok tt w' /\
    courses_view w'
    = Some [mkCourse "CS200" "Algorithm Design" "3" "Sorting" "CS101, CS102"] /\
    course_db w' = Some [].
Proof.
  assert (Hn : ~ In (upper (strip " cs200 ")) (map course_id [])) by (intros []).
  split; [reflexivity|]. split; [reflexivity|]. split; [reflexivity|].
  split; [reflexivity|]. split; [reflexivity|]. split; [exact Hn|].
  destruct (add_course_new_id
              (boot (Some []) (Some []) None None
                 [" cs200 "; "algorithm design"; "3"; "Sorting"; "CS101  CS102"; "0"])
              " cs200 " "algorithm design" "3" "Sorting" "CS101  CS102" ["0"] []
              eq_refl eq_refl eq_refl eq_refl eq_refl Hn)
    as [w' [Hrun [_ [Hdb [_ [Hview _]]]]]].
  exists w'. split; [exact Hrun|]. split; [exact Hview | exact Hdb].
Defined.

(** [add_course] with an id that the table holds asks before it replaces.
    On the answer "y" (after strip and lower) the row of this id becomes
    the record typed and every other id keeps its row; on any other answer
    nothing changes. The course file itself is not written in either
    case. *)
Lemma add_course_existing_run :
  forall (w : World) (raw_id raw_title credits description prerequisites answer : string)
         (rest : list string) (t : courses_table),
    stdin w = raw_id :: raw_title :: credits :: description :: prerequisites
                :: answer :: rest ->
    courses_view w = Some t ->
    In (upper (strip raw_id)) (map course_id t) ->
    exists w',
      add_course true w = Ok tt w' /\
      stdin w' = rest /\
      course_db w' = course_db w /\
      (lower (strip answer) = "y" ->
         course_txn w'
         = Some (Sql.update_course t
                   (entered_course raw_id raw_title credits description prerequisites)) /\
         courses_view w'
         = Some (Sql.update_course t
                   (entered_course raw_id raw_title credits description prerequisites)) /\
         Sql.select_course
           (Sql.update_course t
              (entered_course raw_id raw_title credits description prerequisites))
           (upper (strip raw_id))
         = Some (entered_course raw_id raw_title credits description prerequisites) /\
         (forall k, k <> upper (strip raw_id) ->
            Sql.select_course
              (Sql.update_course t
                 (entered_course raw_id raw_title credits description prerequisites)) k
            = Sql.select_course t k)) /\
      (lower (strip answer) <> "y" ->
         course_txn w' = course_txn w).
Proof.
  intros w raw_id raw_title credits description prerequisites answer rest t
         Hin Hview Hold.
  pose proof (courses_read_view w t Hview) as Hread.
  destruct w as [cdb ctx udb utx ccsv ucsv inp out dl ua uc].
  cbn [stdin] in Hin. subst inp.
  unfold add_course. do 5 mstep.
  match goal with
  | |- context [bind courses_read _ ?W] =>
      assert (Hr : courses_read W = Ok t W)
  end.
  { unfold courses_read in *. cbn [course_txn course_db] in *.
    destruct ctx as [t0|]; [inversion Hread; reflexivity|].
    destruct cdb as [t0|]; [inversion Hread; reflexivity | discriminate]. }
  rewrite (bind_ok _ _ _ _ _ Hr).
  destruct (select_course_some t _ Hold) as [r Hsel]. rewrite Hsel.
  do 2 mstep.
  destruct (String.eqb_spec (lower (strip answer)) "y") as [E|E].
  - unfold courses_write. mstep. unfold print, modify. world_simpl.
    eexists. split; [reflexivity|]. unfold courses_view. world_simpl.
    split; [reflexivity|]. split; [reflexivity|].
    split; [|intros Hne; contradiction].
    intros _. split; [reflexivity|]. split; [reflexivity|]. split.
    + rewrite select_course_updated. cbn [entered_course course_id].
      rewrite String.eqb_refl, (has_course_true t _ Hold). reflexivity.
    + intros k Hk. rewrite select_course_updated. cbn [entered_course course_id].
      destruct (String.eqb_spec k (upper (strip raw_id))); [contradiction|reflexivity].
  - unfold print, modify. world_simpl.
    eexists. split; [reflexivity|]. world_simpl.
    split; [reflexivity|]. split; [reflexivity|].
    split; [intros Hy; contradiction | intros _; reflexivity].
Qed.

(** [add_course] with an id that the table holds, for lines typed in
    ASCII text, asks before it replaces. On the answer "y" (after strip and
    lower) the row of this id becomes the record typed, in the transaction
    of the main connection, and every other id keeps its row; on any other
    answer nothing changes. The course file itself is not written in
    either case. *)
Theorem add_course_existing_id :
  forall (w : World) (raw_id raw_title credits description prerequisites answer : string)
         (rest : list string) (t : courses_table),
    stdin w = raw_id :: raw_title :: credits :: description :: prerequisites
                :: answer :: rest ->
    ascii_text raw_id = true ->
    ascii_text raw_title = true ->
    ascii_text prerequisites = true ->
    ascii_text answer = true ->
    courses_view w = Some t ->
    In (upper (strip raw_id)) (map course_id t) ->
    exists w',
      add_course true w = Ok tt w' /\
      stdin w' = rest /\
      course_db w' = course_db w /\
      (lower (strip answer) = "y" ->
         course_txn w'
         = Some (Sql.update_course t
                   (entered_course raw_id raw_title credits description prerequisites)) /\
         courses_view w'
         = Some (Sql.update_course t
                   (entered_course raw_id raw_title credits description prerequisites)) /\
         Sql.select_course
           (Sql.update_course t
              (entered_course raw_id raw_title credits description prerequisites))
           (upper (strip raw_id))
         = Some (entered_course raw_id raw_title credits description prerequisites) /\
         (forall k, k <> upper (strip raw_id) ->
            Sql.select_course
              (Sql.update_course t
                 (entered_course raw_id raw_title credits description prerequisites)) k
            = Sql.select_course t k)) /\
      (lower (strip answer) <> "y" ->
         course_txn w' = course_txn w).
Proof.
  intros w raw_id raw_title credits description prerequisites answer rest t
         Hin _ _ _ _ Hview Hold.
  exact (add_course_existing_run w raw_id raw_title credits description
           prerequisites answer rest t Hin Hview Hold).
Qed.

Lemma add_course_existing_id_witness :
  stdin (boot (Some [mkCourse "CS200" "Old Title" "4" "Old" "None"]) (Some []) None None
           ["cs200"; "new title"; "3"; "New"; ""; "N"])
  = "cs200" :: "new title" :: "3" :: "New" :: "" :: "N" :: [] /\
  ascii_text "cs200" = true /\
  ascii_text "new title" = true /\
  ascii_text "" = true /\
  ascii_text "N" = true /\
  courses_view
    (boot (Some [mkCourse "CS200" "Old Title" "4" "Old" "None"]) (Some []) None None
       ["cs200"; "new title"; "3"; "New"; ""; "N"])
  = Some [mkCourse "CS200" "Old Title" "4" "Old" "None"] /\
  In (upper (strip "cs200")) (map course_id [mkCourse "CS200" "Old Title" "4" "Old" "None"]) /\
  exists w',
    add_course true
      (boot (Some [mkCourse "CS200" "Old Title" "4" "Old" "None"]) (Some []) None None
         ["cs200"; "new title"; "3"; "New"; ""; "N"])
    = Ok tt w' /\
    course_txn w' = None /\
    course_db w' = Some [mkCourse "CS200" "Old Title" "4" "Old" "None"].
Proof.
  assert (Hold : In (upper (strip "cs200"))
                   (map course_id [mkCourse "CS200" "Old Title" "4" "Old" "None"]))
    by (left; reflexivity).
  split; [reflexivity|]. split; [reflexivity|]. split; [reflexivity|].
  split; [reflexivity|]. split; [reflexivity|]. split; [reflexivity|].
  split; [exact Hold|].
  destruct (add_course_existing_id
              (boot (Some [mkCourse "CS200" "Old Title" "4" "Old" "None"]) (Some [])
                 None None ["cs200"; "new title"; "3"; "New"; ""; "N"])
              "cs200" "new title" "3" "New" "" "N" []
              [mkCourse "CS200" "Old Title" "4" "Old" "None"]
              eq_refl eq_refl eq_refl eq_refl eq_refl eq_refl Hold)
    as [w' [Hrun [_ [Hdb [_ Hno]]]]].
  exists w'. split; [exact Hrun|]. split; [|exact Hdb].
  apply Hno. discriminate.
Defined.

(** ** Deleting a course *)

(** The lines [delete_course] prints before it asks for a number. *)
Definition numbered_list (courses : list (string * string)) : list string :=
  map (fun ic => str_of_nat (fst ic) ++ ". ID: " ++ fst (snd ic)
                 ++ ", Title: " ++ snd (snd ic))
      (enumerate_from 1 courses).

(** What [delete_course] prints up to its first prompt. *)
Definition delete_head (t : courses_table) : list event :=
  (Print "List of Courses:" :: map Print (numbered_list (Sql.select_id_title t)))
    ++ [Prompt "Enter the number of the course to delete: "].

(** [delete_course] on a table with a course at least. The number typed
    picks a course of the list in the order of the ids; the course is
    deleted from the transaction of the main connection when the number is
    in the range and the confirmation is "y" or "Y" as it stands (it is not
    stripped); a line that is not a number, a number out of the range or
    another confirmation change nothing. The course file is never written. *)
Lemma delete_course_run :
  forall (w : World) (raw : string) (rest : list string) (t : courses_table),
    stdin w = raw :: rest ->
    courses_view w = Some t ->
    Sql.select_id_title t <> [] ->
    (int raw = None ->
       exists w',
         delete_course true w = Ok tt w' /\ stdin w' = rest /\
         course_db w' = course_db w /\ course_txn w' = course_txn w /\
         stdout w'
         = (stdout w ++ delete_head t
              ++ [Print "Invalid input. Please enter a valid course number."])%list) /\
    (forall n,
       int raw = Some n ->
       (n < 1 \/ Z.of_nat (List.length (Sql.select_id_title t)) < n)%Z ->
       exists w',
         delete_course true w = Ok tt w' /\ stdin w' = rest /\
         course_db w' = course_db w /\ course_txn w' = course_txn w /\
         stdout w'
         = (stdout w ++ delete_head t
              ++ [Print "Invalid choice. Please enter a valid course number."])%list) /\
    (forall n confirmation rest',
       int raw = Some n ->
       (1 <= n <= Z.of_nat (List.length (Sql.select_id_title t)))%Z ->
       rest = confirmation :: rest' ->
       exists w',
         delete_course true w = Ok tt w' /\ stdin w' = rest' /\
         course_db w' = course_db w /\
         (lower confirmation = "y" ->
            course_txn w'
            = Some (Sql.delete_course t
                      (fst (nth (Z.to_nat (n - 1)) (Sql.select_id_title t) ("", "")))) /\
            courses_view w'
            = Some (Sql.delete_course t
                      (fst (nth (Z.to_nat (n - 1)) (Sql.select_id_title t) ("", ""))))) /\
         (lower confirmation <> "y" -> course_txn w' = course_txn w)).
Proof.
  intros w raw rest t Hin Hview Hne.
  pose proof (courses_read_view w t Hview) as Hread.
  assert (Hlen : (List.length (Sql.select_id_title t) =? 0)%nat = false).
  { destruct (Sql.select_id_title t); [contradiction | reflexivity]. }
  destruct w as [cdb ctx udb utx ccsv ucsv inp out dl ua uc].
  cbn [stdin] in Hin. subst inp.
  assert (Hhead :
              delete_course true
                (mkWorld cdb ctx udb utx ccsv ucsv (raw :: rest) out dl ua uc)
              = match int raw with
                | Some choice =>
                    if ((1 <=? choice)
                        && (choice <=? Z.of_nat (List.length (Sql.select_id_title t))))%Z
                    then
                      (confirmation <-
                         input ("Enter 'Y' to confirm delete course "
                                ++ fst (nth (Z.to_nat (choice - 1))
                                          (Sql.select_id_title t) ("", ""))
                                ++ " or 'N' to cancel: ") ;;
                       if lower confirmation =? "y" then
                         t' <- courses_read ;;
                         courses_write
                           (Sql.delete_course t'
                              (fst (nth (Z.to_nat (choice - 1))
                                      (Sql.select_id_title t) ("", "")))) ;;
                         print ("Course "
                                ++ fst (nth (Z.to_nat (choice - 1))
                                          (Sql.select_id_title t) ("", ""))
                                ++ " deleted successfully.")
                       else print "Deletion canceled.")
                    else print "Invalid choice. Please enter a valid course number."
                | None => print "Invalid input. Please enter a valid course number."
                end
                  (mkWorld cdb ctx udb utx ccsv ucsv rest
                     (out ++ delete_head t)%list dl ua uc)).
  { unfold delete_course.
    rewrite (bind_ok _ _ _ _ _ Hread). rewrite Hlen.
    mstep. fold (numbered_list (Sql.select_id_title t)).
    rewrite (bind_ok _ _ _ _ _ (print_lines_run _ _)). world_simpl. mstep.
    unfold delete_head. rewrite <- !app_assoc. reflexivity. }
  split; [|split].
  - intros Hint. rewrite Hhead, Hint. unfold print, modify. world_simpl.
    eexists. split; [reflexivity|]. world_simpl.
    split; [reflexivity|]. split; [reflexivity|]. split; [reflexivity|].
    rewrite <- app_assoc. reflexivity.
  - intros n Hint Hout. rewrite Hhead, Hint.
    assert (E : ((1 <=? n)
                 && (n <=? Z.of_nat (List.length (Sql.select_id_title t))))%Z = false).
    { apply andb_false_iff. destruct Hout as [H|H].
      - left. apply Z.leb_gt. lia.
      - right. apply Z.leb_gt. lia. }
    rewrite E. unfold print, modify. world_simpl.
    eexists. split; [reflexivity|]. world_simpl.
    split; [reflexivity|]. split; [reflexivity|]. split; [reflexivity|].
    rewrite <- app_assoc. reflexivity.
  - intros n confirmation rest' Hint Hrange Hrest. subst rest.
    rewrite Hhead, Hint.
    assert (E : ((1 <=? n)
                 && (n <=? Z.of_nat (List.length (Sql.select_id_title t))))%Z = true).
    { apply andb_true_iff. split; apply Z.leb_le; lia. }
    rewrite E. mstep.
    destruct (String.eqb_spec (lower confirmation) "y") as [Ey|Ey].
    + match goal with
      | |- context [bind courses_read _ ?W] =>
          assert (Hr : courses_read W = Ok t W)
      end.
      { unfold courses_read in *. cbn [course_txn course_db] in *.
        destruct ctx as [t0|]; [inversion Hread; reflexivity|].
        destruct cdb as [t0|]; [inversion Hread; reflexivity | discriminate]. }
      rewrite (bind_ok _ _ _ _ _ Hr). unfold courses_write. mstep.
      unfold print, modify. world_simpl.
      eexists. split; [reflexivity|]. unfold courses_view. world_simpl.
      split; [reflexivity|]. split; [reflexivity|].
      split; [intros _; split; reflexivity | intros Hn; contradiction].
    + unfold print, modify. world_simpl.
      eexists. split; [reflexivity|]. world_simpl.
      split; [reflexivity|]. split; [reflexivity|].
      split; [intros Hy; contradiction | intros _; reflexivity].
Qed.

(** [delete_course] on a table with a course at least, for lines typed
    in ASCII text. The number typed, read as [int] reads it, picks a course
    of the list in the order of the ids; the course is deleted in the
    transaction of the main connection when the number is in the range and
    the confirmation is "y" or "Y" as it stands (it is not stripped); a
    line that is not a number, a number out of the range or another
    confirmation change nothing. The course file is never written. *)
Theorem delete_course_cases :
  forall (w : World) (raw : string) (rest : list string) (t : courses_table),
    stdin w = raw :: rest ->
    ascii_text raw = true ->
    courses_view w = Some t ->
    Sql.select_id_title t <> [] ->
    (int raw = None ->
       exists w',
         delete_course true w = Ok tt w' /\ stdin w' = rest /\
         course_db w' = course_db w /\ course_txn w' = course_txn w /\
         stdout w'
         = (stdout w ++ delete_head t
              ++ [Print "Invalid input. Please enter a valid course number."])%list) /\
    (forall n,
       int raw = Some n ->
       (n < 1 \/ Z.of_nat (List.length (Sql.select_id_title t)) < n)%Z ->
       exists w',
         delete_course true w = Ok tt w' /\ stdin w' = rest /\
         course_db w' = course_db w /\ course_txn w' = course_txn w /\
         stdout w'
         = (stdout w ++ delete_head t
              ++ [Print "Invalid choice. Please enter a valid course number."])%list) /\
    (forall n confirmation rest',
       int raw = Some n ->
       (1 <= n <= Z.of_nat (List.length (Sql.select_id_title t)))%Z ->
       rest = confirmation :: rest' ->
       ascii_text confirmation = true ->
       exists w',
         delete_course true w = Ok tt w' /\ stdin w' = rest' /\
         course_db w' = course_db w /\
         (lower confirmation = "y" ->
            course_txn w'
            = Some (Sql.delete_course t
                      (fst (nth (Z.to_nat (n - 1)) (Sql.select_id_title t) ("", "")))) /\
            courses_view w'
            = Some (Sql.delete_course t
                      (fst (nth (Z.to_nat (n - 1)) (Sql.select_id_title t) ("", ""))))) /\
         (lower confirmation <> "y" -> course_txn w' = course_txn w)).
Proof.
  intros w raw rest t Hin _ Hview Hne.
  destruct (delete_course_run w raw rest t Hin Hview Hne) as [H1 [H2 H3]].
  split; [exact H1|]. split; [exact H2|].
  intros n confirmation rest' Hint Hrange Hrest _.
  exact (H3 n confirmation rest' Hint Hrange Hrest).
Qed.

Lemma delete_course_cases_witness :
  stdin (boot (Some [mkCourse "CS200" "Algorithms" "3" "d" "None";
                     mkCourse "CS101" "Intro" "3" "d" "None"]) (Some []) None None
           [" 1 "; "Y"; "0"])
  = " 1 " :: ["Y"; "0"] /\
  ascii_text " 1 " = true /\
  ascii_text "Y" = true /\
  courses_view (boot (Some [mkCourse "CS200" "Algorithms" "3" "d" "None";
                            mkCourse "CS101" "Intro" "3" "d" "None"]) (Some []) None None
                  [" 1 "; "Y"; "0"])
  = Some [mkCourse "CS200" "Algorithms" "3" "d" "None";
          mkCourse "CS101" "Intro" "3" "d" "None"] /\
  Sql.select_id_title [mkCourse "CS200" "Algorithms" "3" "d" "None";
                       mkCourse "CS101" "Intro" "3" "d" "None"] <> [] /\
  exists w',
    delete_course true
      (boot (Some [mkCourse "CS200" "Algorithms" "3" "d" "None";
                   mkCourse "CS101" "Intro" "3" "d" "None"]) (Some []) None None
         [" 1 "; "Y"; "0"])
    = Ok tt w' /\
    stdin w' = ["0"] /\
    courses_view w' = Some [mkCourse "CS200" "Algorithms" "3" "d" "None"].
Proof.
  assert (Hne : Sql.select_id_title [mkCourse "CS200" "Algorithms" "3" "d" "None";
                                     mkCourse "CS101" "Intro" "3" "d" "None"] <> [])
    by discriminate.
  split; [reflexivity|]. split; [reflexivity|]. split; [reflexivity|].
  split; [reflexivity|]. split; [exact Hne|].
  destruct (proj2 (proj2 (delete_course_cases
              (boot (Some [mkCourse "CS200" "Algorithms" "3" "d" "None";
                           mkCourse "CS101" "Intro" "3" "d" "None"]) (Some []) None None
                 [" 1 "; "Y"; "0"])
              " 1 " ["Y"; "0"]
              [mkCourse "CS200" "Algorithms" "3" "d" "None";
               mkCourse "CS101" "Intro" "3" "d" "None"]
              eq_refl eq_refl eq_refl Hne))
              1%Z "Y" ["0"] eq_refl)
    as [w' [Hrun [Hin [_ [Hy _]]]]].
  - simpl. lia.
  - reflexivity.
  - reflexivity.
  - exists w'. split; [exact Hrun|]. split; [exact Hin|].
    apply Hy. reflexivity.
Defined.

(** [delete_course] on an empty table prints "No courses found." and asks
    for nothing. *)
Theorem delete_course_empty_table :
  forall (w : World) (t : courses_table),
    courses_view w = Some t ->
    Sql.select_id_title t = [] ->
    delete_course true w
    = Ok tt (set_stdout (stdout w ++ [Print "No courses found."])%list w).
Proof.
  intros w t Hview Hempty.
  pose proof (courses_read_view w t Hview) as Hread.
  unfold delete_course. rewrite (bind_ok _ _ _ _ _ Hread).
  rewrite Hempty. reflexivity.
Qed.

Lemma delete_course_empty_table_witness :
  courses_view (boot (Some []) (Some []) None None ["7"]) = Some [] /\
  Sql.select_id_title [] = [] /\
  delete_course true (boot (Some []) (Some []) None None ["7"])
  = Ok tt (set_stdout [Print "No courses found."]
             (boot (Some []) (Some []) None None ["7"])).
Proof.
  split; [reflexivity|]. split; [reflexivity|].
  exact (delete_course_empty_table (boot (Some []) (Some []) None None ["7"]) []
           eq_refl eq_refl).
Defined.

(** ** Looking a course up *)

Lemma upper_char_idempotent (c : ascii) : upper_char (upper_char c) = upper_char c.
Proof. destruct c as [[] [] [] [] [] [] [] []]; reflexivity. Qed.

Lemma upper_idempotent (s : string) : upper (upper s) = upper s.
Proof.
  unfold upper. induction s as [|c s IH]; cbn [map_chars]; [reflexivity|].
  now rewrite upper_char_idempotent, IH.
Qed.

(** Option "3" looks the id up in upper case, and [load_course_data] stores
    the ids as the file has them: a course whose id is not in upper case is
    never found, whatever is typed. When no id of the table is in upper
    case, option "3" answers "not found" to every input. *)
Theorem details_lookup_is_in_upper_case :
  forall (w : World) (raw : string) (rest : list string) (t : courses_table),
    stdin w = raw :: rest ->
    data_loaded w = true ->
    courses_view w = Some t ->
    (forall c, Sql.select_course t (upper (strip raw)) = Some c ->
               upper (course_id c) = course_id c) /\
    ((forall c, In c t -> upper (course_id c) <> course_id c) ->
     details_option w
     = Ok tt (set_stdin rest
                (set_stdout
                   (stdout w ++ [Prompt "Enter the course ID: ";
                                 Print ("Course " ++ upper (strip raw) ++ " not found.")])%list
                   w))).
Proof.
  intros w raw rest t Hin Hdl Hview.
  assert (Hup : forall c, Sql.select_course t (upper (strip raw)) = Some c ->
                          upper (course_id c) = course_id c).
  { intros c Hsel. apply select_course_id in Hsel. destruct Hsel as [E _].
    rewrite E. apply upper_idempotent. }
  split; [exact Hup|].
  intros Hlow.
  pose proof (courses_read_view w t Hview) as Hread.
  destruct w as [cdb ctx udb utx ccsv ucsv inp out dl ua uc].
  cbn [stdin data_loaded] in Hin, Hdl. subst inp dl.
  unfold details_option. do 2 mstep.
  match goal with
  | |- context [bind courses_read _ ?W] =>
      assert (Hr : courses_read W = Ok t W)
  end.
  { unfold courses_read in *. cbn [course_txn course_db] in *.
    destruct ctx as [t0|]; [inversion Hread; reflexivity|].
    destruct cdb as [t0|]; [inversion Hread; reflexivity | discriminate]. }
  rewrite (bind_ok _ _ _ _ _ Hr).
  destruct (Sql.select_course t (upper (strip raw))) as [c|] eqn:Hsel.
  - exfalso. apply (Hlow c).
    + apply select_course_id in Hsel. tauto.
    + apply Hup. reflexivity.
  - unfold print, modify. world_simpl. rewrite <- app_assoc. reflexivity.
Qed.

Lemma details_lookup_is_in_upper_case_witness :
  stdin (set_data_loaded true
           (boot (Some [course_of_row ["cs101"; "Intro"; "3"; "Basics"; ""]]) (Some [])
              None None ["cs101"; "0"]))
  = "cs101" :: ["0"] /\
  data_loaded (set_data_loaded true
                 (boot (Some [course_of_row ["cs101"; "Intro"; "3"; "Basics"; ""]])
                    (Some []) None None ["cs101"; "0"])) = true /\
  courses_view (set_data_loaded true
                  (boot (Some [course_of_row ["cs101"; "Intro"; "3"; "Basics"; ""]])
                     (Some []) None None ["cs101"; "0"]))
  = Some [course_of_row ["cs101"; "Intro"; "3"; "Basics"; ""]] /\
  exists w',
    details_option
      (set_data_loaded true
         (boot (Some [course_of_row ["cs101"; "Intro"; "3"; "Basics"; ""]]) (Some [])
            None None ["cs101"; "0"]))
    = Ok tt w' /\
    stdout w' = [Prompt "Enter the course ID: "; Print "Course CS101 not found."].
Proof.
  split; [reflexivity|]. split; [reflexivity|]. split; [reflexivity|].
  eexists. split.
  - apply (proj2 (details_lookup_is_in_upper_case
                    (set_data_loaded true
                       (boot (Some [course_of_row ["cs101"; "Intro"; "3"; "Basics"; ""]])
                          (Some []) None None ["cs101"; "0"]))
                    "cs101" ["0"] [course_of_row ["cs101"; "Intro"; "3"; "Basics"; ""]]
                    eq_refl eq_refl eq_refl)).
    intros c [E|[]]. subst c. discriminate.
  - reflexivity.
Defined.

(** ** Option "1" *)

(** Option "1" with the flag set does not read courselist.csv. *)
Lemma load_option_idle (w : World) :
  data_loaded w = true ->
  user_choice w <> Some "1" ->
  load_option "1" w
  = Ok tt (set_stdout (stdout w ++ [Print "Course data is already loaded."])%list w).
Proof.
  intros Hdl Huc.
  destruct w as [cdb ctx udb utx ccsv ucsv inp out dl ua uc].
  cbn [data_loaded user_choice] in Hdl, Huc. subst dl.
  unfold load_option. do 2 mstep.
  assert (E : option_eqb uc "1" = false).
  { destruct uc as [c|]; [|reflexivity]. cbn [option_eqb].
    apply String.eqb_neq. intros Hc. apply Huc. now rewrite Hc. }
  rewrite E. reflexivity.
Qed.

(** [user_choice] only ever takes the values "4", "5", "6" and "*". *)
Definition choice_not_1 (w w' : World) : Prop :=
  user_choice w <> Some "1" -> user_choice w' <> Some "1".

Ltac choice_facts :=
  assert (forall w, choice_not_1 w w) by (unfold choice_not_1; intros; assumption);
  assert (forall a b c, choice_not_1 a b -> choice_not_1 b c -> choice_not_1 a c)
    by (unfold choice_not_1; intros; auto);
  assert (forall w v, choice_not_1 w (set_stdout v w))
    by (unfold choice_not_1; intros; assumption);
  assert (forall w x l, stdin w = x :: l -> choice_not_1 w (set_stdin l w))
    by (unfold choice_not_1; intros; assumption).

Ltac choice_modify :=
  apply post_modify; intros w0 Hw0;
  repeat match goal with |- context [match ?x with _ => _ end] => destruct x end;
  first [exact Hw0 | discriminate].

Lemma load_course_rows_choice (rows : list (list string)) :
  forall t, post choice_not_1 (load_course_rows rows t).
Proof.
  choice_facts.
  induction rows as [|row rows IH]; intros t; cbn [load_course_rows];
    repeat post_step; try choice_modify. apply IH.
Qed.

Lemma load_course_data_choice : post choice_not_1 load_course_data.
Proof.
  choice_facts. unfold load_course_data. repeat post_step; try choice_modify.
  apply load_course_rows_choice.
Qed.

Lemma login_loop_choice (fuel : nat) : post choice_not_1 (login_loop fuel).
Proof.
  choice_facts.
  induction fuel as [|fuel IH]; cbn [login_loop]; repeat post_step; try choice_modify.
  exact IH.
Qed.

Lemma login_choice : post choice_not_1 login.
Proof. intros w. rewrite login_eq. apply login_loop_choice. Qed.

Lemma admin_loop_choice (fuel : nat) : post choice_not_1 (admin_loop fuel).
Proof.
  choice_facts.
  induction fuel as [|fuel IH]; cbn [admin_loop]; [apply post_out_of_fuel|].
  unfold display_user_management_menu, list_users, add_user, delete_user.
  repeat post_step; try choice_modify; try exact IH.
Qed.

Lemma admin_menu_choice : post choice_not_1 admin_menu.
Proof. intros w. rewrite admin_menu_eq. apply admin_loop_choice. Qed.

Lemma course_operation_choice (o : string) : post choice_not_1 (course_operation o).
Proof.
  choice_facts. pose proof load_course_data_choice.
  unfold course_operation, add_course, delete_course.
  repeat post_step; try choice_modify; auto.
Qed.

Lemma course_option_choice (o : string) :
  o <> "1" -> post choice_not_1 (course_option o).
Proof.
  intros Ho. choice_facts.
  pose proof login_choice. pose proof (course_operation_choice o).
  unfold course_option, login_gate.
  repeat post_step; try choice_modify; auto.
  apply post_modify. intros w0 _ E. cbn [user_choice set_user_choice] in E.
  inversion E. contradiction.
Qed.

Lemma dispatch_choice (o : string) : post choice_not_1 (dispatch o).
Proof.
  choice_facts.
  pose proof load_course_data_choice. pose proof admin_menu_choice.
  unfold dispatch.
  destruct (negb (mem o ["0"; "1"; "2"; "3"; "4"; "5"; "6"; "*"]));
    [repeat post_step; try choice_modify|].
  destruct (String.eqb_spec o "1") as [E1|E1].
  { unfold load_option. repeat post_step; try choice_modify; auto. }
  destruct (o =? "2").
  { unfold list_option, print_course_list. repeat post_step; try choice_modify. }
  destruct (o =? "3").
  { unfold details_option, print_course_details.
    repeat post_step; try choice_modify. }
  destruct (o =? "0").
  { unfold exit_option, courses_commit. repeat post_step; try choice_modify. }
  destruct (mem o ["4"; "5"; "6"]).
  { apply course_option_choice. exact E1. }
  destruct (o =? "*").
  { unfold admin_option. repeat post_step; try choice_modify; auto. }
  repeat post_step.
Qed.

(** Option "1" reads courselist.csv only while the flag [data_loaded] is
    false. With the flag set, which is how every session starts, it prints
    "Course data is already loaded." and changes nothing; and no option
    ever sets [user_choice] to "1", the other way the code has into the
    load. *)
Theorem load_option_is_idle_once_loaded :
  forall (w : World),
    data_loaded w = true ->
    user_choice w <> Some "1" ->
    dispatch "1" w
    = Ok true (set_stdout (stdout w ++ [Print "Course data is already loaded."])%list w)
    /\ (forall o b w1, dispatch o w = Ok b w1 -> user_choice w1 <> Some "1").
Proof.
  intros w Hdl Huc. split.
  - rewrite dispatch_1. rewrite (bind_ok _ _ _ _ _ (load_option_idle w Hdl Huc)).
    reflexivity.
  - intros o b w1 E. pose proof (dispatch_choice o w) as H.
    rewrite E in H. exact (H Huc).
Qed.

Lemma load_option_is_idle_once_loaded_witness :
  data_loaded (set_data_loaded true (boot None (Some []) None None ["1"])) = true /\
  user_choice (set_data_loaded true (boot None (Some []) None None ["1"])) <> Some "1" /\
  dispatch "1" (set_data_loaded true (boot None (Some []) None None ["1"]))
  = Ok true (set_stdout [Print "Course data is already loaded."]
               (set_data_loaded true (boot None (Some []) None None ["1"]))).
Proof.
  assert (Huc : user_choice (set_data_loaded true (boot None (Some []) None None ["1"]))
                <> Some "1") by discriminate.
  split; [reflexivity|]. split; [exact Huc|].
  exact (proj1 (load_option_is_idle_once_loaded
                  (set_data_loaded true (boot None (Some []) None None ["1"]))
                  eq_refl Huc)).
Defined.

(** ** Option "6": the reset *)

Lemma course_operation_6 :
  course_operation "6"
  = (raw <- input "Are you sure you want to reset the default course list? (Y/N): " ;;
     let reset_confirmation := lower (strip raw) in
     if reset_confirmation =? "y" then
       courses_close ;;
       modify (set_course_db None) ;;
       loaded <- load_course_data ;;
       modify (set_data_loaded loaded) ;;
       if loaded then print "Database reset. Default data structure loaded."
       else ret tt
     else if negb (reset_confirmation =? "n") then
       print "Invalid choice. Please enter 'Y' to confirm reset or 'N' to cancel."
     else ret tt).
Proof. reflexivity. Qed.





(** The world in which a confirmed reset reads courselist.csv: the answer
    has been read, the transaction of the old connection is gone with the
    old file, and the new file has its empty table. *)
Definition reset_start (w : World) (rest : list string) : World :=
  set_course_db (Some [])
    (set_course_txn None
       (set_stdin rest
          (set_stdout
             (stdout w
              ++ [Prompt "Are you sure you want to reset the default course list? (Y/N): "])%list
             w))).

Lemma reset_confirmed (w : World) (raw : string) (rest : list string)
    (rows : list (list string)) :
  stdin w = raw :: rest ->
  lower (strip raw) = "y" ->
  courselist_csv w = Some rows ->
  course_operation "6" w
  = (loaded <- load_course_rows rows [] ;;
     modify (set_data_loaded loaded) ;;
     if loaded then print "Database reset. Default data structure loaded."
     else ret tt) (reset_start w rest).
Proof.
  intros Hin Hy Hcsv.
  destruct w as [cdb ctx udb utx ccsv ucsv inp out dl ua uc].
  cbn [stdin courselist_csv] in Hin, Hcsv. subst inp ccsv.
  rewrite course_operation_6. mstep. cbv zeta. rewrite Hy.
  cbn [String.eqb Ascii.eqb Bool.eqb].
  unfold courses_close. do 2 mstep.
  unfold load_course_data. rewrite bind_assoc. do 3 mstep.
  rewrite bind_assoc. mstep. reflexivity.
Qed.




(** ** word_wrap *)

Lemma str_app_assoc (a b c : string) : (a ++ b) ++ c = a ++ (b ++ c).
Proof. induction a as [|x a IH]; cbn [append]; [reflexivity | now rewrite IH]. Qed.

Lemma str_app_nil_r (a : string) : a ++ "" = a.
Proof. induction a as [|x a IH]; cbn [append]; [reflexivity | now rewrite IH]. Qed.

Lemma str_length_app (a b : string) :
  String.length (a ++ b) = (String.length a + String.length b)%nat.
Proof. induction a as [|x a IH]; cbn [append String.length Nat.add]; [reflexivity | now rewrite IH]. Qed.

Lemma concat_snoc (sep : string) (g : list string) (word : string) :
  g <> [] ->
  String.concat sep (g ++ [word]) = String.concat sep g ++ sep ++ word.
Proof.
  induction g as [|x g IH]; intros Hg; [contradiction|].
  destruct g as [|y g].
  - reflexivity.
  - change (String.concat sep ((x :: y :: g) ++ [word]))
      with (x ++ sep ++ String.concat sep ((y :: g) ++ [word])).
    rewrite IH by discriminate.
    change (String.concat sep (x :: y :: g)) with (x ++ sep ++ String.concat sep (y :: g)).
    now rewrite !str_app_assoc.
Qed.

(** The body of the loop of [word_wrap]. *)
Definition wrap_step (width : nat) (st : list string * string) (word : string)
    : list string * string :=
  let (lines, current_line) := st in
  if (String.length current_line + String.length word + 1 <=? width)%nat
  then (lines, current_line ++ " " ++ word)
  else ((lines ++ [current_line])%list, word).

Lemma word_wrap_eq (text : string) (width : nat) :
  word_wrap text width
  = match split text with
    | [] => None
    | first :: words =>
        let (lines, current_line) := fold_left (wrap_step width) words ([], first) in
        Some (String.concat nl (lines ++ [current_line])%list)
    end.
Proof. reflexivity. Qed.

(** A line of the result: words joined by one space, within the width
    unless the line is one word. *)
Definition line_ok (width : nat) (g : list string) : Prop :=
  g <> [] /\
  (String.length (String.concat " " g) <= width \/ List.length g = 1%nat).

Lemma wrap_fold (width : nat) (words : list string) :
  forall (gs : list (list string)) (g : list string),
    Forall (line_ok width) gs -> line_ok width g ->
    exists (gs' : list (list string)) (g' : list string),
      fold_left (wrap_step width) words
                (map (String.concat " ") gs, String.concat " " g)
      = (map (String.concat " ") gs', String.concat " " g') /\
      Forall (line_ok width) gs' /\ line_ok width g' /\
      List.concat (gs' ++ [g']) = (List.concat (gs ++ [g]) ++ words)%list.
Proof.
  induction words as [|word words IH]; intros gs g Hgs Hg.
  - exists gs, g. cbn [fold_left]. rewrite app_nil_r. auto.
  - cbn [fold_left]. unfold wrap_step at 2.
    destruct (String.length (String.concat " " g) + String.length word + 1 <=? width)%nat
      eqn:E.
    + destruct Hg as [Hne Hw].
      rewrite <- (concat_snoc " " g word Hne).
      destruct (IH gs (g ++ [word])%list Hgs) as [gs' [g' [Hf [H1 [H2 H3]]]]].
      { split; [destruct g; discriminate|]. left.
        rewrite (concat_snoc " " g word Hne), !str_length_app.
        apply Nat.leb_le in E. cbn [String.length]. lia. }
      exists gs', g'. split; [exact Hf|]. split; [exact H1|]. split; [exact H2|].
      rewrite H3, !concat_app. cbn [List.concat]. rewrite !app_nil_r, <- !app_assoc.
      reflexivity.
    + replace (map (String.concat " ") gs ++ [String.concat " " g])%list
        with (map (String.concat " ") (gs ++ [g])%list)
        by (rewrite map_app; reflexivity).
      change word with (String.concat " " [word]) at 1.
      destruct (IH (gs ++ [g])%list [word]) as [gs' [g' [Hf [H1 [H2 H3]]]]].
      { apply Forall_app. split; [exact Hgs | constructor; [exact Hg | constructor]]. }
      { split; [discriminate | right; reflexivity]. }
      exists gs', g'. split; [exact Hf|]. split; [exact H1|]. split; [exact H2|].
      rewrite H3, !concat_app. cbn [List.concat]. rewrite !app_nil_r, <- !app_assoc.
      reflexivity.
Qed.

(** *** What [split] gives *)

Fixpoint no_space (s : string) : bool :=
  match s with
  | EmptyString => true
  | String c s' => negb (is_space c) && no_space s'
  end.

Definition is_word (s : string) : Prop := s <> "" /\ no_space s = true.

Lemma no_space_app (a b : string) :
  no_space (a ++ b) = no_space a && no_space b.
Proof.
  induction a as [|c a IH]; cbn [append no_space]; [reflexivity|].
  rewrite IH. now rewrite andb_assoc.
Qed.

Lemma split_go_words (s : string) :
  forall cur, no_space cur = true -> Forall is_word (split_go cur s).
Proof.
  induction s as [|c s IH]; intros cur Hcur; cbn [split_go].
  - destruct cur as [|x cur]; cbn [is_empty]; constructor; [|constructor].
    split; [discriminate | exact Hcur].
  - destruct (is_space c) eqn:E.
    + destruct cur as [|x cur]; cbn [is_empty].
      * apply IH. reflexivity.
      * constructor; [split; [discriminate | exact Hcur]|]. apply IH. reflexivity.
    + apply IH. rewrite no_space_app, Hcur. cbn [no_space]. now rewrite E.
Qed.

Lemma split_words (s : string) : Forall is_word (split s).
Proof. apply split_go_words. reflexivity. Qed.

(** A blank character ends the word being read. *)
Lemma split_go_blank (a b : string) (c : ascii) :
  is_space c = true ->
  forall cur, split_go cur (a ++ String c b) = (split_go cur a ++ split b)%list.
Proof.
  intros Hc. induction a as [|x a IH]; intros cur.
  - cbn [append split_go]. rewrite Hc. destruct (is_empty cur); reflexivity.
  - cbn [append split_go]. destruct (is_space x).
    + destruct (is_empty cur); rewrite IH; reflexivity.
    + apply IH.
Qed.

Lemma split_go_word (s : string) :
  no_space s = true ->
  forall cur, split_go cur s = if is_empty (cur ++ s) then [] else [cur ++ s].
Proof.
  induction s as [|c s IH]; intros Hs cur.
  - cbn [split_go]. now rewrite str_app_nil_r.
  - cbn [no_space] in Hs. apply andb_true_iff in Hs. destruct Hs as [Hc Hs].
    cbn [split_go]. apply negb_true_iff in Hc. rewrite Hc.
    rewrite (IH Hs), str_app_assoc. reflexivity.
Qed.

Lemma split_word (s : string) : is_word s -> split s = [s].
Proof.
  intros [Hne Hs]. unfold split. rewrite (split_go_word s Hs).
  cbn [append]. destruct s; [contradiction | reflexivity].
Qed.

Lemma split_concat (c : ascii) (l : list string) :
  is_space c = true ->
  split (String.concat (String c "") l) = flat_map split l.
Proof.
  intros Hc. induction l as [|x l IH]; [reflexivity|].
  destruct l as [|y l].
  - cbn [String.concat flat_map]. now rewrite app_nil_r.
  - change (String.concat (String c "") (x :: y :: l))
      with (x ++ String c (String.concat (String c "") (y :: l))).
    unfold split at 1. rewrite (split_go_blank _ _ _ Hc), IH. reflexivity.
Qed.

Lemma split_joined (g : list string) :
  Forall is_word g -> split (String.concat " " g) = g.
Proof.
  intros Hg. rewrite (split_concat " " g eq_refl).
  induction Hg as [|x g Hx Hg IH]; [reflexivity|].
  cbn [flat_map]. rewrite IH, (split_word x Hx). reflexivity.
Qed.

(** [word_wrap] cuts the words of a text of the ASCII range into lines:
    the lines are the words in their order, joined by one space within a
    line; a line has no more characters than the width unless it is a
    single word; and splitting the result gives the words of the text
    back. *)
Theorem word_wrap_lines :
  forall (text : string) (width : nat),
    ascii_text text = true ->
    split text <> [] ->
    exists (groups : list (list string)),
      word_wrap text width
      = Some (String.concat nl (map (String.concat " ") groups)) /\
      List.concat groups = split text /\
      Forall (fun g => g <> [] /\
                       (String.length (String.concat " " g) <= width
                        \/ List.length g = 1%nat)) groups /\
      split (String.concat nl (map (String.concat " ") groups)) = split text.
Proof.
  intros text width _ Hne.
  pose proof (split_words text) as Hw.
  rewrite word_wrap_eq.
  destruct (split text) as [|first words]; [contradiction|].
  destruct (wrap_fold width words [] [first]) as [gs [g [Hf [H1 [H2 H3]]]]].
  { constructor. }
  { split; [discriminate | right; reflexivity]. }
  cbn [map String.concat] in Hf. rewrite Hf.
  exists (gs ++ [g])%list.
  assert (Hc : List.concat (gs ++ [g]) = first :: words) by exact H3.
  split; [|split; [|split]].
  - rewrite map_app. reflexivity.
  - exact Hc.
  - apply Forall_app. split; [exact H1 | constructor; [exact H2 | constructor]].
  - rewrite (split_concat _ _ (eq_refl : is_space (ascii_of_nat 10) = true)).
    rewrite flat_map_concat_map, map_map, <- Hc.
    f_equal.
    assert (Hall : Forall (Forall is_word) (gs ++ [g])).
    { rewrite <- Hc in Hw. clear - Hw.
      induction (gs ++ [g])%list as [|x l IH]; [constructor|].
      cbn [List.concat] in Hw. apply Forall_app in Hw. destruct Hw as [Hx Hl].
      constructor; [exact Hx | exact (IH Hl)]. }
    clear - Hall.
    induction Hall as [|x l Hx Hl IH]; [reflexivity|].
    cbn [map]. rewrite (split_joined x Hx), IH. reflexivity.
Qed.

Lemma word_wrap_lines_witness :
  ascii_text "to be  or not to be" = true /\
  split "to be  or not to be" <> [] /\
  exists (groups : list (list string)),
    word_wrap "to be  or not to be" 6
    = Some (String.concat nl (map (String.concat " ") groups)) /\
    List.concat groups = split "to be  or not to be" /\
    Forall (fun g => g <> [] /\
                     (String.length (String.concat " " g) <= 6
                      \/ List.length g = 1%nat)) groups /\
    split (String.concat nl (map (String.concat " ") groups))
    = split "to be  or not to be".
Proof.
  assert (H : split "to be  or not to be" <> []) by (vm_compute; discriminate).
  split; [reflexivity|]. split; [exact H|].
  exact (word_wrap_lines "to be  or not to be" 6 eq_refl H).
Defined.

(** ** The two databases are kept apart *)

Definition same_users (w w' : World) : Prop :=
  user_db w' = user_db w /\ user_txn w' = user_txn w.

Definition same_courses (w w' : World) : Prop :=
  course_db w' = course_db w /\ course_txn w' = course_txn w /\
  data_loaded w' = data_loaded w.

Ltac same_users_facts :=
  assert (forall w, same_users w w) by (intros; split; reflexivity);
  assert (forall a b c, same_users a b -> same_users b c -> same_users a c)
    by (unfold same_users; intros a b c [? ?] [? ?]; split; congruence);
  assert (forall w v, same_users w (set_stdout v w)) by (intros; split; reflexivity);
  assert (forall w x l, stdin w = x :: l -> same_users w (set_stdin l w))
    by (intros; split; reflexivity).

Ltac same_courses_facts :=
  assert (forall w, same_courses w w) by (intros; repeat split; reflexivity);
  assert (forall a b c, same_courses a b -> same_courses b c -> same_courses a c)
    by (unfold same_courses; intros a b c [? [? ?]] [? [? ?]]; repeat split; congruence);
  assert (forall w v, same_courses w (set_stdout v w)) by (intros; repeat split; reflexivity);
  assert (forall w x l, stdin w = x :: l -> same_courses w (set_stdin l w))
    by (intros; repeat split; reflexivity).

Ltac same_modify :=
  apply post_modify; intros w0;
  repeat match goal with |- context [match ?x with _ => _ end] => destruct x end;
  repeat split; reflexivity.

Lemma load_course_rows_users (rows : list (list string)) :
  forall t, post same_users (load_course_rows rows t).
Proof.
  same_users_facts.
  induction rows as [|row rows IH]; intros t; cbn [load_course_rows];
    repeat post_step; try same_modify. apply IH.
Qed.

Lemma load_course_data_users : post same_users load_course_data.
Proof.
  same_users_facts. unfold load_course_data. repeat post_step; try same_modify.
  apply load_course_rows_users.
Qed.

Lemma login_loop_users (fuel : nat) : post same_users (login_loop fuel).
Proof.
  same_users_facts.
  induction fuel as [|fuel IH]; cbn [login_loop]; repeat post_step; try same_modify.
  exact IH.
Qed.

Lemma login_users : post same_users login.
Proof. intros w. rewrite login_eq. apply login_loop_users. Qed.

Lemma course_operation_users (o : string) : post same_users (course_operation o).
Proof.
  same_users_facts. pose proof load_course_data_users.
  unfold course_operation, add_course, delete_course, courses_close, courses_write.
  repeat post_step; try same_modify; auto.
Qed.

Lemma course_option_users (o : string) : post same_users (course_option o).
Proof.
  same_users_facts.
  pose proof login_users. pose proof (course_operation_users o).
  unfold course_option, login_gate.
  repeat post_step; try same_modify; auto.
Qed.

Lemma dispatch_users (o : string) : o <> "*" -> post same_users (dispatch o).
Proof.
  intros Ho. same_users_facts.
  pose proof load_course_data_users.
  unfold dispatch.
  destruct (negb (mem o ["0"; "1"; "2"; "3"; "4"; "5"; "6"; "*"]));
    [repeat post_step; try same_modify|].
  destruct (o =? "1").
  { unfold load_option. repeat post_step; try same_modify; auto. }
  destruct (o =? "2").
  { unfold list_option, print_course_list. repeat post_step; try same_modify. }
  destruct (o =? "3").
  { unfold details_option, print_course_details.
    repeat post_step; try same_modify. }
  destruct (o =? "0").
  { unfold exit_option, courses_commit. repeat post_step; try same_modify. }
  destruct (mem o ["4"; "5"; "6"]).
  { apply course_option_users. }
  destruct (String.eqb_spec o "*") as [E|E]; [contradiction|].
  repeat post_step.
Qed.

Lemma admin_loop_courses (fuel : nat) : post same_courses (admin_loop fuel).
Proof.
  same_courses_facts.
  induction fuel as [|fuel IH]; cbn [admin_loop]; [apply post_out_of_fuel|].
  unfold display_user_management_menu, list_users, add_user, delete_user,
         users_write, users_commit.
  repeat post_step; try same_modify; try exact IH.
Qed.

Lemma admin_option_courses : post same_courses admin_option.
Proof.
  same_courses_facts.
  assert (post same_courses admin_menu)
    by (intros w; rewrite admin_menu_eq; apply admin_loop_courses).
  unfold admin_option. repeat post_step; try same_modify; auto.
Qed.

(** Each option of the main menu writes to one database at most. Whatever
    an option other than "*" does, login included, the user database and
    the transaction on it are as before; whatever the user management
    (option "*") does, the course database, the transaction on it and the
    flag [data_loaded] are as before. This holds when the option ends with
    an exception too. *)
Theorem options_write_one_database :
  forall (o : string) (w : World),
    match dispatch o w with
    | Ok _ w' | Raise _ w' =>
        if o =? "*"
        then course_db w' = course_db w /\ course_txn w' = course_txn w /\
             data_loaded w' = data_loaded w
        else user_db w' = user_db w /\ user_txn w' = user_txn w
    | OutOfFuel => False
    end.
Proof.
  intros o w.
  pose proof (total_dispatch o w) as Ht.
  destruct (String.eqb_spec o "*") as [E|E].
  - subst o. rewrite dispatch_star in *.
    same_courses_facts.
    assert (Hp : post same_courses (admin_option ;; ret true)).
    { pose proof admin_option_courses. repeat post_step. }
    specialize (Hp w).
    destruct ((admin_option ;; ret true) w); [exact Hp | exact Hp | congruence].
  - pose proof (dispatch_users o E w) as Hp.
    destruct (dispatch o w); [exact Hp | exact Hp | congruence].
Qed.

(** ** load_user_data *)

(** The tuple bound to the INSERT of one row of userlist.csv. *)
Definition user_of_row (row : list string) : UserRow :=
  (lower (strip (nth 0 row "")), nth 1 row "").

Definition stored_users (db : option users_table) : users_table :=
  match db with
  | Some t => t
  | None => []
  end.

Lemma load_user_rows_outcome (rows : list (list string)) :
  forall (t : users_table) (w : World),
    match load_user_rows rows t w with
    | Ok true w' => w' = set_user_db (Some (t ++ map user_of_row rows)%list) w
    | Ok false w' =>
        w' = set_stdout
               (stdout w ++ [Print "Error: Invalid data format in the CSV file."])%list w
    | Raise _ w' => w' = w
    | OutOfFuel => False
    end.
Proof.
  induction rows as [|row rows IH]; intros t w; cbn [load_user_rows].
  - rewrite bind_modify. cbn [map]. rewrite app_nil_r. reflexivity.
  - destruct (2 <=? List.length row)%nat.
    + rewrite bind_get. destruct (user_txn w) as [pending|]; [reflexivity|].
      unfold Sql.insert_user.
      change (lower (strip (nth 0 row "")), nth 1 row "") with (user_of_row row).
      destruct (Sql.has_user t (fst (user_of_row row))); [reflexivity|].
      specialize (IH (t ++ [user_of_row row])%list w).
      cbn [map].
      replace (t ++ user_of_row row :: map user_of_row rows)%list
        with ((t ++ [user_of_row row]) ++ map user_of_row rows)%list
        by (rewrite <- app_assoc; reflexivity).
      exact IH.
    + rewrite bind_print. reflexivity.
Qed.

Lemma has_user_true (t : users_table) (u : string) :
  In u (map fst t) -> Sql.has_user t u = true.
Proof.
  intros Hin. unfold Sql.has_user. apply existsb_exists.
  apply in_map_iff in Hin. destruct Hin as [r [E Hr]].
  exists r. split; [exact Hr | now apply String.eqb_eq].
Qed.

(** Rows with their two fields and new, distinct names are inserted one
    after the other, when the main connection has no transaction open. *)
Lemma load_user_rows_prefix (good more : list (list string)) :
  forall (t : users_table) (w : World),
    user_txn w = None ->
    Forall (fun row => 2 <= List.length row) good ->
    NoDup (map fst t ++ map (fun row => fst (user_of_row row)) good) ->
    load_user_rows (good ++ more) t w
    = load_user_rows more (t ++ map user_of_row good)%list w.
Proof.
  induction good as [|row good IH]; intros t w Htx Hlen Hnd.
  - cbn [app map]. rewrite app_nil_r. reflexivity.
  - cbn [app load_user_rows].
    inversion Hlen as [|? ? H2 Hrest]; subst.
    apply Nat.leb_le in H2. rewrite H2.
    rewrite bind_get, Htx.
    change (lower (strip (nth 0 row "")), nth 1 row "") with (user_of_row row).
    unfold Sql.insert_user.
    rewrite has_user_false.
    2:{ cbn [map] in Hnd. apply NoDup_remove_2 in Hnd.
        intros Hin. apply Hnd. apply in_or_app. left. exact Hin. }
    rewrite IH; [|exact Htx|exact Hrest|].
    + cbn [map]. rewrite <- app_assoc. reflexivity.
    + rewrite map_app. cbn [map]. rewrite <- app_assoc. exact Hnd.
Qed.

(** A name that is stored already, or that comes twice, stops the loop
    before the rows after it are looked at. *)
Lemma load_user_rows_prefix_repeated (good more : list (list string)) :
  forall (t : users_table) (w : World),
    user_txn w = None ->
    Forall (fun row => 2 <= List.length row) good ->
    ~ NoDup (map fst t ++ map (fun row => fst (user_of_row row)) good) ->
    NoDup (map fst t) ->
    load_user_rows (good ++ more) t w = Raise IntegrityError w.
Proof.
  induction good as [|row good IH]; intros t w Htx Hlen Hdup Hnd.
  - exfalso. apply Hdup. cbn [map]. rewrite app_nil_r. exact Hnd.
  - cbn [app load_user_rows].
    inversion Hlen as [|? ? H2 Hrest]; subst.
    apply Nat.leb_le in H2. rewrite H2.
    rewrite bind_get, Htx.
    change (lower (strip (nth 0 row "")), nth 1 row "") with (user_of_row row).
    unfold Sql.insert_user.
    destruct (in_dec string_dec (fst (user_of_row row)) (map fst t)) as [Hin|Hin].
    + rewrite (has_user_true _ _ Hin). reflexivity.
    + rewrite (has_user_false _ _ Hin).
      apply IH; [exact Htx|exact Hrest| |].
      * intros H. apply Hdup. rewrite map_app in H. cbn [map] in H.
        rewrite <- app_assoc in H. exact H.
      * rewrite map_app. cbn [map].
        apply NoDup_app; [exact Hnd | repeat constructor; intros [] |].
        intros x Hx [Hy|[]]. subst x. exact (Hin Hx).
Qed.

Lemma load_user_rows_short (bad : list string) (more : list (list string))
    (t : users_table) (w : World) :
  List.length bad < 2 ->
  load_user_rows (bad :: more) t w
  = Ok false (set_stdout
                (stdout w ++ [Print "Error: Invalid data format in the CSV file."])%list w).
Proof.
  intros Hb. cbn [load_user_rows].
  assert (E : (2 <=? List.length bad)%nat = false) by (apply Nat.leb_gt; exact Hb).
  rewrite E, bind_print. reflexivity.
Qed.

Lemma load_user_rows_locked (row : list string) (more : list (list string))
    (t pending : users_table) (w : World) :
  2 <= List.length row ->
  user_txn w = Some pending ->
  load_user_rows (row :: more) t w = Raise OperationalError w.
Proof.
  intros H2 Htx. cbn [load_user_rows].
  apply Nat.leb_le in H2. rewrite H2, bind_get, Htx. reflexivity.
Qed.

(** The world in which [load_user_data] reads userlist.csv: the file and
    its empty table are there. *)
Definition users_start (w : World) : World :=
  set_user_db (Some (stored_users (user_db w))) w.

Lemma load_user_data_rows (w : World) (rows : list (list string)) :
  userlist_csv w = Some rows ->
  load_user_data w = load_user_rows rows (stored_users (user_db w)) (users_start w).
Proof.
  intros Hcsv. destruct w as [cdb ctx udb utx ccsv ucsv inp out dl ua uc].
  cbn [userlist_csv] in Hcsv. subst ucsv.
  unfold load_user_data, users_start.
  destruct udb as [t|]; do 3 mstep; reflexivity.
Qed.

Lemma load_user_data_missing (w : World) :
  userlist_csv w = None ->
  load_user_data w
  = Ok false
      (set_stdout
         (stdout w ++ [Print "Error: The user data file 'userlist.csv' is unavailable."])%list
         (users_start w)).
Proof.
  intros Hcsv. destruct w as [cdb ctx udb utx ccsv ucsv inp out dl ua uc].
  cbn [userlist_csv] in Hcsv. subst ucsv.
  unfold load_user_data, users_start.
  destruct udb as [t|]; do 3 mstep; reflexivity.
Qed.

(** [load_user_data], for names written in ASCII text, adds all the rows
    of userlist.csv or none, and what the file holds decides which. With
    rows that all have their two fields and names (stripped, in lower
    case) that are new and distinct, and no transaction open on the main
    connection, it returns [True] and the user database holds what it
    held, followed by one user per row, the password as written. Without
    userlist.csv, or when the first row with less than two fields comes
    before any name that is stored or repeated, it returns [False] after
    the error message; a stored or repeated name before any short row
    raises the IntegrityError of the primary key, and a first row with its
    two fields raises "database is locked" when the main connection has a
    transaction open. In all these cases the users are those of before;
    the file and its empty table have been created if they were missing. *)
Theorem load_user_data_all_or_nothing :
  forall (w : World),
    (forall rows, userlist_csv w = Some rows ->
                  Forall (fun row => ascii_text (nth 0 row "") = true) rows) ->
    match load_user_data w with
    | Ok true w' =>
        exists rows,
          userlist_csv w = Some rows /\
          user_db w' = Some (stored_users (user_db w) ++ map user_of_row rows)%list /\
          user_txn w' = user_txn w
    | Ok false w' | Raise _ w' =>
        user_db w' = Some (stored_users (user_db w)) /\ user_txn w' = user_txn w
    | OutOfFuel => False
    end /\
    (forall rows,
       userlist_csv w = Some rows ->
       user_txn w = None ->
       Forall (fun row => 2 <= List.length row) rows ->
       NoDup (map fst (stored_users (user_db w))
              ++ map (fun row => fst (user_of_row row)) rows) ->
       load_user_data w
       = Ok true
           (set_user_db (Some (stored_users (user_db w) ++ map user_of_row rows)%list) w)) /\
    (userlist_csv w = None ->
     load_user_data w
     = Ok false
         (set_stdout
            (stdout w ++ [Print "Error: The user data file 'userlist.csv' is unavailable."])%list
            (users_start w))) /\
    (forall good bad more,
       userlist_csv w = Some (good ++ bad :: more)%list ->
       user_txn w = None ->
       Forall (fun row => 2 <= List.length row) good ->
       NoDup (map fst (stored_users (user_db w))
              ++ map (fun row => fst (user_of_row row)) good) ->
       List.length bad < 2 ->
       load_user_data w
       = Ok false
           (set_stdout
              (stdout w ++ [Print "Error: Invalid data format in the CSV file."])%list
              (users_start w))) /\
    (forall good more,
       userlist_csv w = Some (good ++ more)%list ->
       user_txn w = None ->
       Forall (fun row => 2 <= List.length row) good ->
       NoDup (map fst (stored_users (user_db w))) ->
       ~ NoDup (map fst (stored_users (user_db w))
                ++ map (fun row => fst (user_of_row row)) good) ->
       load_user_data w = Raise IntegrityError (users_start w)) /\
    (forall row more pending,
       userlist_csv w = Some (row :: more) ->
       2 <= List.length row ->
       user_txn w = Some pending ->
       load_user_data w = Raise OperationalError (users_start w)).
Proof.
  intros w _.
  split; [|split; [|split; [|split; [|split]]]].
  - destruct w as [cdb ctx udb utx ccsv ucsv inp out dl ua uc].
    unfold load_user_data.
    destruct udb as [t|]; do 2 mstep; (destruct ucsv as [rows|]; [mstep|]).
    1,3: match goal with
         | |- context [load_user_rows ?R ?T ?W] =>
             pose proof (load_user_rows_outcome R T W) as Ho;
             destruct (load_user_rows R T W) as [[|] w'|e w'|];
             try exact Ho; subst w'; world_simpl; cbn [stored_users app];
             try (split; reflexivity);
             (exists R; repeat split; reflexivity)
         end.
    all: mstep; unfold ret; world_simpl; split; reflexivity.
  - intros rows Hcsv Htx Hlen Hnd.
    rewrite (load_user_data_rows w rows Hcsv).
    pose proof (load_user_rows_prefix rows [] (stored_users (user_db w)) (users_start w))
      as E.
    rewrite app_nil_r in E. rewrite E; [|exact Htx|exact Hlen|exact Hnd].
    cbn [load_user_rows]. rewrite bind_modify.
    destruct w as [cdb ctx udb utx ccsv ucsv inp out dl ua uc]. reflexivity.
  - intros Hcsv. exact (load_user_data_missing w Hcsv).
  - intros good bad more Hcsv Htx Hlen Hnd Hbad.
    rewrite (load_user_data_rows w _ Hcsv).
    rewrite (load_user_rows_prefix good (bad :: more) _ (users_start w) Htx Hlen Hnd).
    rewrite (load_user_rows_short bad more _ _ Hbad).
    destruct w as [cdb ctx udb utx ccsv ucsv inp out dl ua uc]. reflexivity.
  - intros good more Hcsv Htx Hlen Hnd Hdup.
    rewrite (load_user_data_rows w _ Hcsv).
    exact (load_user_rows_prefix_repeated good more _ (users_start w) Htx Hlen Hdup Hnd).
  - intros row more pending Hcsv H2 Htx.
    rewrite (load_user_data_rows w _ Hcsv).
    exact (load_user_rows_locked row more _ pending (users_start w) H2 Htx).
Qed.

Lemma load_user_data_all_or_nothing_witness :
  (forall rows,
     userlist_csv (boot None (Some [("alice", "pw1")]) None
                     (Some [[" Bob "; "pw2"]; ["CAROL"; "pw3"; "extra"]]) [])
     = Some rows ->
     Forall (fun row => ascii_text (nth 0 row "") = true) rows) /\
  load_user_data (boot None (Some [("alice", "pw1")]) None
                    (Some [[" Bob "; "pw2"]; ["CAROL"; "pw3"; "extra"]]) [])
  = Ok true
      (set_user_db (Some [("alice", "pw1"); ("bob", "pw2"); ("carol", "pw3")])
         (boot None (Some [("alice", "pw1")]) None
            (Some [[" Bob "; "pw2"]; ["CAROL"; "pw3"; "extra"]]) [])).
Proof.
  assert (Hascii : forall rows,
             userlist_csv (boot None (Some [("alice", "pw1")]) None
                             (Some [[" Bob "; "pw2"]; ["CAROL"; "pw3"; "extra"]]) [])
             = Some rows ->
             Forall (fun row => ascii_text (nth 0 row "") = true) rows).
  { intros rows E. inversion E. repeat constructor. }
  split; [exact Hascii|].
  apply (proj1 (proj2 (load_user_data_all_or_nothing _ Hascii))
           [[" Bob "; "pw2"]; ["CAROL"; "pw3"; "extra"]]).
  - reflexivity.
  - reflexivity.
  - repeat constructor; cbn; lia.
  - cbn. repeat constructor; cbn; intuition discriminate.
Defined.

(** The one call of [load_user_data] is under a test that never holds:
    the program asks whether user_database.db exists after it has opened
    it. The statements before the main loop leave the users as they were,
    none in a new file, whatever userlist.csv holds. *)
Theorem userlist_is_not_read_at_start :
  forall (w : World),
    exists w',
      main_init w = Ok tt w' /\
      user_db w' = Some (stored_users (user_db w)) /\
      user_txn w' = user_txn w /\
      stdout w' = stdout w.
Proof.
  intros w. destruct w as [cdb ctx udb utx ccsv ucsv inp out dl ua uc].
  unfold main_init. do 5 mstep.
  destruct udb as [t|]; world_simpl; unfold modify; world_simpl;
    (eexists; split; [reflexivity|]; repeat split).
Qed.

(** ** list_users *)

(** The line of the table for one user. *)
Definition user_line (user : UserRow) : string :=
  "|" ++ ljust 21 (fst user) ++ "|"
  ++ ljust 21 (repeat_str "*" (String.length (snd user))) ++ "|".

Lemma list_users_eq :
  list_users
  = (t <- users_read ;;
     print rule2 ;;
     print ("|" ++ ljust 21 "Username" ++ "|" ++ ljust 21 "Password" ++ "|") ;;
     print rule2 ;;
     print_lines (map user_line (Sql.select_users t)) ;;
     print rule2).
Proof. reflexivity. Qed.

Lemma length_repeat_str (c : ascii) (n : nat) :
  String.length (repeat_str (String c "") n) = n.
Proof. induction n as [|n IH]; cbn [repeat_str append String.length]; congruence. Qed.

Lemma length_ljust (n : nat) (s : string) :
  String.length (ljust n s) = Nat.max n (String.length s).
Proof. unfold ljust. rewrite str_length_app, length_repeat_str. lia. Qed.

Lemma length_user_line (user : UserRow) :
  String.length (fst user) <= 21 ->
  String.length (snd user) <= 21 ->
  String.length (user_line user) = String.length rule2.
Proof.
  intros Hu Hp. unfold user_line.
  rewrite !str_length_app, !length_ljust, length_repeat_str.
  cbn [String.length rule2]. lia.
Qed.

(** [list_users], for names and passwords of ASCII text, prints a table
    with one line for each user the connection sees, in ascending order of
    the names, the password replaced by as many stars as it has
    characters; a line is as wide as the rules of the table when name and
    password have 21 characters at most. Nothing but the output changes. *)
Theorem list_users_table :
  forall (w : World) (t : users_table),
    users_read w = Ok t w ->
    Forall (fun user => ascii_text (fst user) = true /\ ascii_text (snd user) = true) t ->
    exists (users : list UserRow),
      list_users w
      = Ok tt (set_stdout
                 (stdout w
                  ++ [Print rule2;
                      Print "|Username             |Password             |";
                      Print rule2]
                  ++ map Print (map user_line users)
                  ++ [Print rule2])%list w) /\
      Permutation t users /\
      Sorted (fun a b => String.leb (fst a) (fst b) = true) users /\
      Forall (fun user => String.length (fst user) <= 21 ->
                          String.length (snd user) <= 21 ->
                          String.length (user_line user) = String.length rule2) users.
Proof.
  intros w t Hread _.
  exists (Sql.select_users t).
  split; [|split; [|split]].
  - rewrite list_users_eq, (bind_ok _ _ _ _ _ Hread).
    destruct w as [cdb ctx udb utx ccsv ucsv inp out dl ua uc].
    do 3 mstep.
    rewrite (bind_ok _ _ _ _ _ (print_lines_run _ _)).
    unfold print, modify. world_simpl.
    rewrite <- !app_assoc. reflexivity.
  - apply KeySort.Permuted_sort.
  - apply KeySort.Sorted_sort.
  - apply Forall_forall. intros user _. apply length_user_line.
Qed.

Lemma list_users_table_witness :
  users_read (boot None (Some [("zoe", "pw"); ("bob", "secret")]) None None [])
  = Ok [("zoe", "pw"); ("bob", "secret")]
       (boot None (Some [("zoe", "pw"); ("bob", "secret")]) None None []) /\
  Forall (fun user => ascii_text (fst user) = true /\ ascii_text (snd user) = true)
         [("zoe", "pw"); ("bob", "secret")] /\
  exists (users : list UserRow),
    list_users (boot None (Some [("zoe", "pw"); ("bob", "secret")]) None None [])
    = Ok tt (set_stdout
               (stdout (boot None (Some [("zoe", "pw"); ("bob", "secret")]) None None [])
                ++ [Print rule2;
                    Print "|Username             |Password             |";
                    Print rule2]
                ++ map Print (map user_line users)
                ++ [Print rule2])%list
               (boot None (Some [("zoe", "pw"); ("bob", "secret")]) None None [])) /\
    Permutation [("zoe", "pw"); ("bob", "secret")] users /\
    Sorted (fun a b => String.leb (fst a) (fst b) = true) users /\
    Forall (fun user => String.length (fst user) <= 21 ->
                        String.length (snd user) <= 21 ->
                        String.length (user_line user) = String.length rule2) users.
Proof.
  assert (Hascii : Forall (fun user => ascii_text (fst user) = true
                                       /\ ascii_text (snd user) = true)
                          [("zoe", "pw"); ("bob", "secret")])
    by (repeat constructor).
  split; [reflexivity|]. split; [exact Hascii|].
  exact (list_users_table
           (boot None (Some [("zoe", "pw"); ("bob", "secret")]) None None [])
           [("zoe", "pw"); ("bob", "secret")] eq_refl Hascii).
Defined.

(** ** How a session ends *)

Lemma bind_inv {A B : Type} (m : M A) (k : A -> M B) (w w' : World) (b : B) :
  bind m k w = Ok b w' -> exists a w1, m w = Ok a w1 /\ k a w1 = Ok b w'.
Proof.
  unfold bind. destruct (m w) as [a w1|e w1|]; intros E; try discriminate.
  exists a, w1. split; [reflexivity | exact E].
Qed.

Definition farewell (w : World) : Prop :=
  exists out, stdout w = (out ++ [Print "Thank You For Using The Course Planner."])%list.

Lemma exit_option_farewell : ends farewell exit_option.
Proof.
  unfold exit_option. apply ends_bind; intros raw. apply ends_bind; intros _.
  intros w a w' E. unfold print, modify in E. inversion E.
  exists (stdout w). reflexivity.
Qed.

Lemma course_option_returns_true (o : string) :
  returns (fun b => b = true) (course_option o).
Proof.
  unfold course_option, login_gate.
  repeat (apply returns_bind; intros ?).
  destruct (negb _).
  - repeat (apply returns_bind; intros ?).
    match goal with |- returns _ (if ?b then _ else _) => destruct b end;
      repeat (apply returns_bind; intros ?); now apply returns_ret.
  - apply returns_bind; intros ?. now apply returns_ret.
Qed.

(** The loop is left by option "0" only. *)
Lemma dispatch_false (o : string) (w w' : World) :
  dispatch o w = Ok false w' -> exit_option w = Ok tt w'.
Proof.
  assert (Hb : forall (m : M unit), bind m (fun _ => ret true) w <> Ok false w').
  { intros m E. apply bind_inv in E. destruct E as [a [w1 [_ E]]]. discriminate E. }
  unfold dispatch.
  destruct (negb (mem o ["0"; "1"; "2"; "3"; "4"; "5"; "6"; "*"]));
    [intros E; destruct (Hb _ E)|].
  destruct (o =? "1"); [intros E; destruct (Hb _ E)|].
  destruct (o =? "2"); [intros E; destruct (Hb _ E)|].
  destruct (o =? "3"); [intros E; destruct (Hb _ E)|].
  destruct (o =? "0").
  { intros E. apply bind_inv in E. destruct E as [[] [w1 [E1 E2]]].
    inversion E2. subst w1. exact E1. }
  destruct (mem o ["4"; "5"; "6"]).
  { intros E. apply course_option_returns_true in E. discriminate E. }
  destruct (o =? "*"); [intros E; destruct (Hb _ E)|].
  intros E. discriminate E.
Qed.

Lemma main_turn_false (w w' : World) :
  main_turn w = Ok false w' -> farewell w'.
Proof.
  unfold main_turn. intros E.
  apply bind_inv in E. destruct E as [[] [w1 [_ E]]].
  unfold try_except in E.
  destruct (bind (input "Select an option: ") (fun option => dispatch option) w1)
    as [b w2|e w2|] eqn:Ei; try discriminate.
  - inversion E; subst b w2.
    apply bind_inv in Ei. destruct Ei as [o [w3 [_ Ed]]].
    apply dispatch_false in Ed.
    exact (exit_option_farewell _ _ _ Ed).
  - destruct (exn_eqb e ValueError); [|discriminate].
    apply bind_inv in E. destruct E as [[] [w3 [_ E]]]. discriminate E.
Qed.

Lemma main_loop_farewell (fuel : nat) : ends farewell (main_loop fuel).
Proof.
  induction fuel as [|fuel IH]; intros w a w' E; [discriminate|].
  cbn [main_loop] in E. apply bind_inv in E. destruct E as [b [w1 [Et E]]].
  destruct b.
  - exact (IH _ _ _ E).
  - inversion E; subst w1. exact (main_turn_false _ _ Et).
Qed.

(** The program returns only through option "0" of the main menu: when a
    session ends without an exception, the last thing printed is the
    farewell of the exit option, and both connections are closed with no
    transaction left. Every other end of a session is an exception. *)
Theorem session_ends_through_exit :
  forall (w w' : World),
    main w = Ok tt w' ->
    (exists out,
        stdout w' = (out ++ [Print "Thank You For Using The Course Planner."])%list) /\
    course_txn w' = None /\ user_txn w' = None.
Proof.
  intros w w' E. unfold main in E.
  apply bind_inv in E. destruct E as [[] [w1 [_ E]]].
  apply bind_inv in E. destruct E as [[] [w2 [El E]]].
  apply main_loop_farewell in El.
  unfold courses_close, users_close in E. rewrite bind_modify in E.
  unfold modify in E. inversion E.
  split; [exact El|]. split; reflexivity.
Qed.

Lemma session_ends_through_exit_witness :
  exists w',
    main (boot None None None None ["0"; "n"]) = Ok tt w' /\
    (exists out,
        stdout w' = (out ++ [Print "Thank You For Using The Course Planner."])%list) /\
    course_txn w' = None /\ user_txn w' = None.
Proof.
  assert (E : exists w', main (boot None None None None ["0"; "n"]) = Ok tt w')
    by (vm_compute; eexists; reflexivity).
  destruct E as [w' E]. exists w'. split; [exact E|].
  exact (session_ends_through_exit _ _ E).
Defined.

(** ** A session on a course database without its table *)

Lemma main_init_world (w : World) :
  main_init w
  = Ok tt (set_user_choice None
             (set_user_authenticated false
                (set_data_loaded true
                   (set_user_db (Some (stored_users (user_db w))) w)))).
Proof.
  destruct w as [cdb ctx udb utx ccsv ucsv inp out dl ua uc].
  unfold main_init. do 5 mstep.
  destruct udb as [t|]; reflexivity.
Qed.

Lemma list_option_no_table (w : World) :
  course_db w = None -> course_txn w = None -> data_loaded w = true ->
  list_option w
  = Raise OperationalError (set_stdout (stdout w ++ [Print "List of Courses:"])%list w).
Proof.
  destruct w as [cdb ctx udb utx ccsv ucsv inp out dl ua uc].
  cbn [course_db course_txn data_loaded]. intros -> -> ->.
  unfold list_option. mstep. unfold print_course_list. do 2 mstep.
  reflexivity.
Qed.

Lemma try_except_raise {A : Type} (m h : M A) (e e' : exn) (w w' : World) :
  m w = Raise e' w' -> exn_eqb e' e = false -> try_except m e h w = Raise e' w'.
Proof. intros E Hne. unfold try_except. now rewrite E, Hne. Qed.

(** [connect] creates course_database.db without its table, and the table
    is made by [load_course_data] only. As the flag [data_loaded] is set
    from the start, option "2" chosen first in such a session runs its
    SELECT on a table that is not there: the OperationalError is caught
    nowhere and ends the program, after the menu and "List of Courses:". *)
Theorem listing_without_table_ends_session :
  forall (w : World) (rest : list string),
    course_db w = None ->
    course_txn w = None ->
    stdin w = "2" :: rest ->
    exists (w' : World) (out : list event),
      main w = Raise OperationalError w' /\
      stdout w'
      = (stdout w ++ out ++ [Prompt "Select an option: "; Print "List of Courses:"])%list /\
      stdin w' = rest /\ course_db w' = None.
Proof.
  intros w rest Hdb Htx Hin.
  unfold main.
  rewrite (bind_ok _ _ _ _ _ (main_init_world w)).
  destruct w as [cdb ctx udb utx ccsv ucsv inp out dl ua uc].
  cbn [course_db course_txn stdin] in Hdb, Htx, Hin. subst cdb ctx inp.
  world_simpl.
  set (w1 := mkWorld None None (Some (stored_users udb)) utx ccsv ucsv ("2" :: rest)
                     out true false None).
  destruct (display_main_menu_run w1) as [menu Hmenu].
  exists (set_stdout
            ((out ++ menu) ++ [Prompt "Select an option: "; Print "List of Courses:"])%list
            (set_stdin rest w1)), menu.
  split; [|split; [|split]].
  - apply bind_raise.
    cbn [List.length main_loop].
    apply bind_raise. unfold main_turn.
    rewrite (bind_ok _ _ _ _ _ Hmenu).
    apply try_except_raise; [|reflexivity].
    erewrite bind_input by reflexivity.
    rewrite dispatch_2. apply bind_raise.
    rewrite list_option_no_table by reflexivity.
    unfold w1. world_simpl. rewrite <- !app_assoc. reflexivity.
  - unfold w1. world_simpl. rewrite <- !app_assoc. reflexivity.
  - reflexivity.
  - reflexivity.
Qed.

Lemma listing_without_table_ends_session_witness :
  course_db (boot None None None None ["2"; "0"; "n"]) = None /\
  course_txn (boot None None None None ["2"; "0"; "n"]) = None /\
  stdin (boot None None None None ["2"; "0"; "n"]) = "2" :: ["0"; "n"] /\
  exists (w' : World) (out : list event),
    main (boot None None None None ["2"; "0"; "n"]) = Raise OperationalError w' /\
    stdout w'
    = (stdout (boot None None None None ["2"; "0"; "n"]) ++ out
       ++ [Prompt "Select an option: "; Print "List of Courses:"])%list /\
    stdin w' = ["0"; "n"] /\ course_db w' = None.
Proof.
  split; [reflexivity|]. split; [reflexivity|]. split; [reflexivity|].
  exact (listing_without_table_ends_session
           (boot None None None None ["2"; "0"; "n"]) ["0"; "n"]
           eq_refl eq_refl eq_refl).
Defined.

(** ** The numbers of delete_course *)

Ltac digit_step :=
  match goal with
  | |- context [digit_val ?c] =>
      let v := eval vm_compute in (digit_val c) in
      change (digit_val c) with v; cbv iota beta
  end.

(** [int] reads back what [str] writes. *)
Lemma parse_digits_uint (d : Decimal.uint) :
  forall (acc : nat),
    parse_digits (Z.of_nat acc) true (DecimalString.NilEmpty.string_of_uint d)
    = Some (Z.of_nat (Nat.of_uint_acc d acc)).
Proof.
  induction d as [|d IH|d IH|d IH|d IH|d IH|d IH|d IH|d IH|d IH|d IH]; intros acc;
    cbn [DecimalString.NilEmpty.string_of_uint parse_digits Nat.of_uint_acc];
    [reflexivity|..];
    digit_step; rewrite <- IH; f_equal; rewrite Nat.tail_mul_spec; lia.
Qed.

Lemma parse_digits_first (d : Decimal.uint) :
  d <> Decimal.Nil ->
  parse_digits 0 false (DecimalString.NilEmpty.string_of_uint d)
  = Some (Z.of_nat (Nat.of_uint d)).
Proof.
  intros Hd. unfold Nat.of_uint.
  destruct d as [|d|d|d|d|d|d|d|d|d|d]; [contradiction|..];
    cbn [DecimalString.NilEmpty.string_of_uint parse_digits Nat.of_uint_acc];
    digit_step; rewrite <- parse_digits_uint; f_equal.
Qed.

Lemma no_space_uint (d : Decimal.uint) :
  no_space (DecimalString.NilEmpty.string_of_uint d) = true.
Proof.
  induction d; cbn [DecimalString.NilEmpty.string_of_uint no_space];
    [reflexivity|..]; rewrite IHd; reflexivity.
Qed.

Lemma int_space_is_space (c : ascii) : is_int_space c = true -> is_space c = true.
Proof. destruct c as [[] [] [] [] [] [] [] []]; vm_compute; intros H; congruence. Qed.

Lemma int_space_no_space (c : ascii) : is_space c = false -> is_int_space c = false.
Proof.
  intros H. destruct (is_int_space c) eqn:E; [|reflexivity].
  apply int_space_is_space in E. congruence.
Qed.

Lemma int_lstrip_no_space (s : string) : no_space s = true -> int_lstrip s = s.
Proof.
  destruct s as [|c s]; [reflexivity|]. cbn [no_space int_lstrip].
  intros H. apply andb_true_iff in H. destruct H as [Hc _].
  apply negb_true_iff in Hc. now rewrite (int_space_no_space c Hc).
Qed.

Lemma int_rstrip_no_space (s : string) : no_space s = true -> int_rstrip s = s.
Proof.
  induction s as [|c s IH]; [reflexivity|]. cbn [no_space int_rstrip].
  intros H. apply andb_true_iff in H. destruct H as [Hc Hs].
  rewrite (IH Hs). apply negb_true_iff in Hc. rewrite (int_space_no_space c Hc).
  destruct s; reflexivity.
Qed.

Lemma count_digits_uint (d : Decimal.uint) :
  count_digits (DecimalString.NilEmpty.string_of_uint d)
  = String.length (DecimalString.NilEmpty.string_of_uint d).
Proof.
  induction d; cbn [DecimalString.NilEmpty.string_of_uint count_digits String.length];
    [reflexivity|..]; digit_step; now rewrite IHd.
Qed.

Lemma to_uint_not_nil (n : nat) : Nat.to_uint n <> Decimal.Nil.
Proof.
  rewrite <- (DecimalNat.Unsigned.of_to n) at 1.
  rewrite DecimalNat.Unsigned.to_of. unfold Decimal.unorm.
  destruct (Decimal.nzhead (Nat.to_uint n)); discriminate.
Qed.

(** A number of 4300 digits at most, written by [str], is read back by
    [int]. *)
Lemma int_str_of_nat (n : nat) :
  (String.length (str_of_nat n) <= int_max_str_digits)%nat ->
  int (str_of_nat n) = Some (Z.of_nat n).
Proof.
  unfold str_of_nat, DecimalString.NilZero.string_of_uint.
  pose proof (to_uint_not_nil n) as Hn.
  pose proof (DecimalNat.Unsigned.of_to n) as Hof.
  destruct (Nat.to_uint n) as [|d|d|d|d|d|d|d|d|d|d] eqn:E; [contradiction|..];
    intros Hlen; unfold int;
    rewrite int_lstrip_no_space, int_rstrip_no_space by apply no_space_uint;
    rewrite <- Hof;
    (etransitivity; [|apply parse_digits_first; discriminate]);
    cbn [DecimalString.NilEmpty.string_of_uint]; unfold int_digits;
    rewrite <- count_digits_uint in Hlen;
    apply Nat.leb_le in Hlen;
    cbn [DecimalString.NilEmpty.string_of_uint] in Hlen;
    rewrite Hlen; reflexivity.
Qed.

Lemma nth_error_enumerate {A : Type} (l : list A) :
  forall (i k : nat) (x : A),
    nth_error l k = Some x -> nth_error (enumerate_from i l) k = Some ((i + k)%nat, x).
Proof.
  induction l as [|y l IH]; intros i k x E; destruct k as [|k]; try discriminate.
  - cbn in E. inversion E. cbn. now rewrite Nat.add_0_r.
  - cbn in E. cbn [enumerate_from nth_error]. rewrite (IH (S i) k x E).
    f_equal. f_equal. lia.
Qed.

Lemma select_course_deleted (t : courses_table) (k : string) :
  Sql.select_course (Sql.delete_course t k) k = None.
Proof.
  unfold Sql.select_course, Sql.delete_course.
  induction t as [|r t IH]; [reflexivity|]. cbn [filter].
  destruct (course_id r =? k) eqn:E; cbn [negb]; [exact IH|].
  cbn [find]. rewrite E. exact IH.
Qed.

(** The number [delete_course] shows before a course is the number that
    picks it: when the line typed is that number as printed and the
    confirmation is "y" or "Y", the course of that line, and no other, is
    deleted in the transaction of the main connection, and a lookup of its
    id finds nothing any more. The number has 4300 digits at most, as every
    number of a list that can be printed has: [int] refuses more. *)
Theorem number_shown_picks_course_shown :
  forall (w : World) (t : courses_table) (k : nat) (id title confirmation : string)
         (rest : list string),
    courses_view w = Some t ->
    nth_error (Sql.select_id_title t) k = Some (id, title) ->
    stdin w = str_of_nat (S k) :: confirmation :: rest ->
    (String.length (str_of_nat (S k)) <= int_max_str_digits)%nat ->
    lower confirmation = "y" ->
    In (str_of_nat (S k) ++ ". ID: " ++ id ++ ", Title: " ++ title)
       (numbered_list (Sql.select_id_title t)) /\
    exists w',
      delete_course true w = Ok tt w' /\
      stdin w' = rest /\
      courses_view w' = Some (Sql.delete_course t id) /\
      Sql.select_course (Sql.delete_course t id) id = None /\
      stdout w'
      = (stdout w ++ delete_head t
         ++ [Prompt ("Enter 'Y' to confirm delete course " ++ id ++ " or 'N' to cancel: ");
             Print ("Course " ++ id ++ " deleted successfully.")])%list.
Proof.
  intros w t k id title confirmation rest Hview Hnth Hin Hdigits Hy.
  split.
  - unfold numbered_list.
    apply (in_map (fun ic => str_of_nat (fst ic) ++ ". ID: " ++ fst (snd ic)
                             ++ ", Title: " ++ snd (snd ic))
                  _ (S k, (id, title))).
    apply (nth_error_In _ k). exact (nth_error_enumerate _ 1 k _ Hnth).
  - pose proof (courses_read_view w t Hview) as Hread.
    assert (Hk : (k < List.length (Sql.select_id_title t))%nat)
      by (apply nth_error_Some; rewrite Hnth; discriminate).
    assert (Hlen : (List.length (Sql.select_id_title t) =? 0)%nat = false)
      by (apply Nat.eqb_neq; lia).
    assert (Hrange : ((1 <=? Z.of_nat (S k))
                      && (Z.of_nat (S k) <=? Z.of_nat (List.length (Sql.select_id_title t))))%Z
                     = true)
      by (apply andb_true_iff; split; apply Z.leb_le; lia).
    assert (Hid : fst (nth (Z.to_nat (Z.of_nat (S k) - 1)) (Sql.select_id_title t) ("", ""))
                  = id).
    { replace (Z.to_nat (Z.of_nat (S k) - 1)) with k by lia.
      rewrite (nth_error_nth _ _ _ Hnth). reflexivity. }
    destruct w as [cdb ctx udb utx ccsv ucsv inp out dl ua uc].
    cbn [stdin] in Hin. subst inp.
    unfold delete_course.
    rewrite (bind_ok _ _ _ _ _ Hread). rewrite Hlen.
    mstep. fold (numbered_list (Sql.select_id_title t)).
    rewrite (bind_ok _ _ _ _ _ (print_lines_run _ _)). world_simpl. mstep.
    rewrite (int_str_of_nat _ Hdigits), Hrange, Hid. mstep. rewrite Hy.
    cbn [String.eqb Ascii.eqb Bool.eqb].
    match goal with
    | |- context [bind courses_read _ ?W] =>
        assert (Hr : courses_read W = Ok t W)
    end.
    { unfold courses_read in *. cbn [course_txn course_db] in *.
      destruct ctx as [t0|]; [inversion Hread; reflexivity|].
      destruct cdb as [t0|]; [inversion Hread; reflexivity | discriminate]. }
    rewrite (bind_ok _ _ _ _ _ Hr). unfold courses_write. mstep.
    unfold print, modify. world_simpl.
    eexists. split; [reflexivity|]. unfold courses_view. world_simpl.
    split; [reflexivity|]. split; [reflexivity|].
    split; [apply select_course_deleted|].
    unfold delete_head. rewrite <- !app_assoc. reflexivity.
Qed.

Lemma number_shown_picks_course_shown_witness :
  courses_view (boot (Some [mkCourse "CS200" "Algorithms" "3" "d" "None";
                            mkCourse "CS101" "Intro" "3" "d" "None"]) (Some []) None None
                  ["2"; "Y"; "0"])
  = Some [mkCourse "CS200" "Algorithms" "3" "d" "None";
          mkCourse "CS101" "Intro" "3" "d" "None"] /\
  nth_error (Sql.select_id_title [mkCourse "CS200" "Algorithms" "3" "d" "None";
                                  mkCourse "CS101" "Intro" "3" "d" "None"]) 1
  = Some ("CS200", "Algorithms") /\
  stdin (boot (Some [mkCourse "CS200" "Algorithms" "3" "d" "None";
                     mkCourse "CS101" "Intro" "3" "d" "None"]) (Some []) None None
           ["2"; "Y"; "0"])
  = str_of_nat 2 :: "Y" :: ["0"] /\
  (String.length (str_of_nat 2) <= int_max_str_digits)%nat /\
  lower "Y" = "y" /\
  exists w',
    delete_course true
      (boot (Some [mkCourse "CS200" "Algorithms" "3" "d" "None";
                   mkCourse "CS101" "Intro" "3" "d" "None"]) (Some []) None None
         ["2"; "Y"; "0"])
    = Ok tt w' /\
    courses_view w' = Some [mkCourse "CS101" "Intro" "3" "d" "None"].
Proof.
  assert (Hdigits : (String.length (str_of_nat 2) <= int_max_str_digits)%nat)
    by (apply Nat.leb_le; reflexivity).
  split; [reflexivity|]. split; [reflexivity|]. split; [reflexivity|].
  split; [exact Hdigits|]. split; [reflexivity|].
  destruct (proj2 (number_shown_picks_course_shown
                     (boot (Some [mkCourse "CS200" "Algorithms" "3" "d" "None";
                                  mkCourse "CS101" "Intro" "3" "d" "None"]) (Some [])
                        None None ["2"; "Y"; "0"])
                     [mkCourse "CS200" "Algorithms" "3" "d" "None";
                      mkCourse "CS101" "Intro" "3" "d" "None"]
                     1 "CS200" "Algorithms" "Y" ["0"]
                     eq_refl eq_refl eq_refl Hdigits eq_refl))
    as [w' [Hrun [_ [Hv _]]]].
  exists w'. split; [exact Hrun | exact Hv].
Defined.

(** ** What is committed, and when *)

Lemma load_course_data_ok (w : World) (rows : list (list string)) :
  courselist_csv w = Some rows ->
  course_txn w = None ->
  Forall (fun row => 4 <= List.length row) rows ->
  NoDup (map (fun row => nth 0 row "") rows) ->
  load_course_data w = Ok true (set_course_db (Some (map course_of_row rows)) w).
Proof.
  intros Hcsv Htx Hlen Hnd.
  destruct w as [cdb ctx udb utx ccsv ucsv inp out dl ua uc].
  cbn [courselist_csv course_txn] in Hcsv, Htx. subst ccsv ctx.
  unfold load_course_data.
  destruct cdb as [old|]; do 3 mstep;
    rewrite (load_course_rows_ok rows [] _ Hlen Hnd); reflexivity.
Qed.

(** C1, as the program has it, for lines typed in ASCII text. [add_user]
    and [delete_user] have committed when they return: the user file holds
    the new table and nothing is pending. A load of courselist.csv or a
    reset that succeeds has committed the rows of the file. [add_course]
    and [delete_course] do not commit: they leave the course file as it
    is, and the table with the course added, replaced or deleted is the
    transaction of the main connection. The exit prompt decides about it:
    on the answer "y" the transaction is committed to the file, on any
    other answer the file is left as it is and the transaction is lost
    when the connection is closed. *)
Theorem course_changes_wait_for_exit_commit :
  forall (w : World),
    (forall raw password rest t,
       stdin w = raw :: password :: rest ->
       ascii_text raw = true ->
       user_db w = Some t ->
       user_txn w = None ->
       ~ In (lower (strip raw)) (map fst t) ->
       exists w',
         add_user w = Ok tt w' /\
         user_db w' = Some (t ++ [(lower (strip raw), password)])%list /\
         user_txn w' = None) /\
    (forall raw rest t,
       stdin w = raw :: rest ->
       ascii_text raw = true ->
       user_db w = Some t ->
       user_txn w = None ->
       lower (strip raw) <> "admin" ->
       In (lower (strip raw)) (map fst t) ->
       exists w',
         delete_user w = Ok tt w' /\
         user_db w' = Some (Sql.delete_user t (lower (strip raw))) /\
         user_txn w' = None) /\
    (forall rows,
       courselist_csv w = Some rows ->
       course_txn w = None ->
       Forall (fun row => 4 <= List.length row) rows ->
       NoDup (map (fun row => nth 0 row "") rows) ->
       exists w',
         load_course_data w = Ok true w' /\
         course_db w' = Some (map course_of_row rows) /\
         course_txn w' = None) /\
    (forall raw rest rows,
       stdin w = raw :: rest ->
       ascii_text raw = true ->
       lower (strip raw) = "y" ->
       courselist_csv w = Some rows ->
       Forall (fun row => 4 <= List.length row) rows ->
       NoDup (map (fun row => nth 0 row "") rows) ->
       exists w',
         course_operation "6" w = Ok tt w' /\
         course_db w' = Some (map course_of_row rows) /\
         course_txn w' = None) /\
    (forall raw_id raw_title credits description prerequisites rest t,
       stdin w = raw_id :: raw_title :: credits :: description :: prerequisites :: rest ->
       ascii_text raw_id = true ->
       ascii_text raw_title = true ->
       ascii_text prerequisites = true ->
       courses_view w = Some t ->
       ~ In (upper (strip raw_id)) (map course_id t) ->
       exists w',
         add_course true w = Ok tt w' /\
         course_db w' = course_db w /\
         course_txn w'
         = Some (t ++ [entered_course raw_id raw_title credits description
                         prerequisites])%list) /\
    (forall raw_id raw_title credits description prerequisites answer rest t,
       stdin w = raw_id :: raw_title :: credits :: description :: prerequisites
                   :: answer :: rest ->
       ascii_text raw_id = true ->
       ascii_text raw_title = true ->
       ascii_text prerequisites = true ->
       ascii_text answer = true ->
       courses_view w = Some t ->
       In (upper (strip raw_id)) (map course_id t) ->
       lower (strip answer) = "y" ->
       exists w',
         add_course true w = Ok tt w' /\
         course_db w' = course_db w /\
         course_txn w'
         = Some (Sql.update_course t
                   (entered_course raw_id raw_title credits description prerequisites))) /\
    (forall raw confirmation rest n t,
       stdin w = raw :: confirmation :: rest ->
       ascii_text raw = true ->
       ascii_text confirmation = true ->
       courses_view w = Some t ->
       int raw = Some n ->
       (1 <= n <= Z.of_nat (List.length (Sql.select_id_title t)))%Z ->
       lower confirmation = "y" ->
       exists w',
         delete_course true w = Ok tt w' /\
         course_db w' = course_db w /\
         course_txn w'
         = Some (Sql.delete_course t
                   (fst (nth (Z.to_nat (n - 1)) (Sql.select_id_title t) ("", ""))))) /\
    (forall b w', add_course b w = Ok tt w' -> course_db w' = course_db w) /\
    (forall b w', delete_course b w = Ok tt w' -> course_db w' = course_db w) /\
    (forall raw rest,
       stdin w = raw :: rest ->
       ascii_text raw = true ->
       exists w',
         dispatch "0" w = Ok false w' /\
         (lower (strip raw) = "y" ->
            course_txn w' = None /\
            course_db w' = match course_txn w with
                           | Some t => Some t
                           | None => course_db w
                           end) /\
         (lower (strip raw) <> "y" ->
            course_txn w' = course_txn w /\ course_db w' = course_db w) /\
         (courses_close ;; users_close) w'
         = Ok tt (set_user_txn None (set_course_txn None w'))).
Proof.
  intros w.
  split; [|split; [|split; [|split; [|split; [|split; [|split; [|split; [|split]]]]]]]].
  - intros raw password rest t Hin _ Hdb Htx Hnew.
    destruct (add_user_run w raw password rest t Hin Hdb Htx)
      as [w' [Hrun [_ [Htx' [_ Hadd]]]]].
    exists w'. split; [exact Hrun|]. split; [exact (proj1 (Hadd Hnew)) | exact Htx'].
  - intros raw rest t Hin _ Hdb Htx Hadm Hold.
    destruct (delete_user_run w raw rest t Hin Hdb Htx)
      as [w' [Hrun [_ [Htx' [_ [_ Hdel]]]]]].
    exists w'. split; [exact Hrun|].
    split; [exact (proj1 (Hdel Hadm Hold)) | exact Htx'].
  - intros rows Hcsv Htx Hlen Hnd.
    rewrite (load_course_data_ok w rows Hcsv Htx Hlen Hnd).
    eexists. split; [reflexivity|]. split; [reflexivity | exact Htx].
  - intros raw rest rows Hin _ Hy Hcsv Hlen Hnd.
    rewrite (reset_confirmed w raw rest rows Hin Hy Hcsv).
    rewrite (bind_ok _ _ _ _ _ (load_course_rows_ok rows [] _ Hlen Hnd)).
    rewrite bind_modify.
    eexists. split; [reflexivity|]. split; reflexivity.
  - intros raw_id raw_title credits description prerequisites rest t
           Hin _ _ _ Hview Hnew.
    destruct (add_course_new_run w raw_id raw_title credits description prerequisites
                rest t Hin Hview Hnew) as [w' [Hrun [_ [Hdb [Htx _]]]]].
    exists w'. split; [exact Hrun|]. split; [exact Hdb | exact Htx].
  - intros raw_id raw_title credits description prerequisites answer rest t
           Hin _ _ _ _ Hview Hold Hy.
    destruct (add_course_existing_run w raw_id raw_title credits description
                prerequisites answer rest t Hin Hview Hold)
      as [w' [Hrun [_ [Hdb [Hyes _]]]]].
    exists w'. split; [exact Hrun|]. split; [exact Hdb | exact (proj1 (Hyes Hy))].
  - intros raw confirmation rest n t Hin _ _ Hview Hint Hrange Hy.
    assert (Hne : Sql.select_id_title t <> []).
    { intros E. rewrite E in Hrange. cbn [List.length] in Hrange. lia. }
    destruct (proj2 (proj2 (delete_course_run w raw (confirmation :: rest) t
                              Hin Hview Hne))
                n confirmation rest Hint Hrange eq_refl)
      as [w' [Hrun [_ [Hdb [Hyes _]]]]].
    exists w'. split; [exact Hrun|]. split; [exact Hdb | exact (proj1 (Hyes Hy))].
  - intros b w' E. pose proof (add_course_keeps_course_db b w) as H.
    rewrite E in H. exact H.
  - intros b w' E. pose proof (delete_course_keeps_course_db b w) as H.
    rewrite E in H. exact H.
  - intros raw rest Hin _.
    destruct (exit_option_run w raw rest Hin) as [w' [Hrun [_ [_ [_ [Hy Hn]]]]]].
    exists w'. rewrite dispatch_0, (bind_ok _ _ _ _ _ Hrun).
    split; [reflexivity|]. split; [exact Hy|]. split; [exact Hn|].
    unfold courses_close, users_close. rewrite bind_modify. reflexivity.
Qed.

Lemma course_changes_wait_for_exit_commit_witness :
  stdin (set_data_loaded true
           (boot (Some [mkCourse "OLD1" "Old" "3" "kept" "None"]) (Some []) None None
              ["cs200"; "algorithm design"; "3"; "Sorting and searching"; ""; "0"; "n"]))
  = "cs200" :: "algorithm design" :: "3" :: "Sorting and searching" :: "" :: ["0"; "n"] /\
  ascii_text "cs200" = true /\ ascii_text "algorithm design" = true /\
  ascii_text "" = true /\
  courses_view (set_data_loaded true
                  (boot (Some [mkCourse "OLD1" "Old" "3" "kept" "None"]) (Some []) None None
                     ["cs200"; "algorithm design"; "3"; "Sorting and searching"; "";
                      "0"; "n"]))
  = Some [mkCourse "OLD1" "Old" "3" "kept" "None"] /\
  ~ In (upper (strip "cs200")) (map course_id [mkCourse "OLD1" "Old" "3" "kept" "None"]) /\
  exists w',
    add_course true
      (set_data_loaded true
         (boot (Some [mkCourse "OLD1" "Old" "3" "kept" "None"]) (Some []) None None
            ["cs200"; "algorithm design"; "3"; "Sorting and searching"; ""; "0"; "n"]))
    = Ok tt w' /\
    course_db w' = Some [mkCourse "OLD1" "Old" "3" "kept" "None"] /\
    course_txn w'
    = Some [mkCourse "OLD1" "Old" "3" "kept" "None";
            mkCourse "CS200" "Algorithm Design" "3" "Sorting and searching" "None"].
Proof.
  assert (Hnew : ~ In (upper (strip "cs200"))
                     (map course_id [mkCourse "OLD1" "Old" "3" "kept" "None"]))
    by (intros [E|[]]; discriminate E).
  split; [reflexivity|]. split; [reflexivity|]. split; [reflexivity|].
  split; [reflexivity|]. split; [reflexivity|]. split; [exact Hnew|].
  exact (proj1 (proj2 (proj2 (proj2 (proj2
           (course_changes_wait_for_exit_commit
              (set_data_loaded true
                 (boot (Some [mkCourse "OLD1" "Old" "3" "kept" "None"]) (Some []) None
                    None
                    ["cs200"; "algorithm design"; "3"; "Sorting and searching"; "";
                     "0"; "n"])))))))
           "cs200" "algorithm design" "3" "Sorting and searching" "" ["0"; "n"]
           [mkCourse "OLD1" "Old" "3" "kept" "None"]
           eq_refl eq_refl eq_refl eq_refl eq_refl Hnew).
Defined.

(** The input of the counterexample to C1: a course is added, then the
    program is left with the given answer to the exit prompt. *)
Definition exit_world (answer : string) : World :=
  boot (Some [mkCourse "OLD1" "Old" "3" "kept" "None"]) (Some []) None None
    ["4"; "admin"; "admin";
     "cs200"; "algorithm design"; "3"; "Sorting and searching"; "";
     "0"; answer].

(** C1 as stated fails: the answer to the exit prompt decides what the
    course file holds after the process. With "y" the course added in the
    session is in the file, with "n" it is not. *)
Lemma exit_answer_decides_what_is_stored :
  files_after (main (exit_world "y"))
  = Some (Some [mkCourse "OLD1" "Old" "3" "kept" "None";
                mkCourse "CS200" "Algorithm Design" "3" "Sorting and searching" "None"],
          Some []) /\
  files_after (main (exit_world "n"))
  = Some (Some [mkCourse "OLD1" "Old" "3" "kept" "None"], Some []).
Proof. split; vm_compute; reflexivity. Qed.

(** ** The flag [data_loaded] in a first run *)

Lemma course_operation_4 :
  course_operation "4" = (loaded <- get data_loaded ;; add_course loaded).
Proof. reflexivity. Qed.

(** Option "4" chosen first in a session on a course database without
    its table: after the login and the five lines of the course, the
    SELECT of [add_course] raises. *)
Lemma first_run_add_course (w : World) (a b c d e : string) (rest : list string) :
  course_db w = None ->
  course_txn w = None ->
  user_txn w = None ->
  stdin w = "4" :: "admin" :: "admin" :: a :: b :: c :: d :: e :: rest ->
  exists (w' : World) (menu : list event),
    main w = Raise OperationalError w' /\
    stdin w' = rest /\ course_db w' = None /\ course_txn w' = None /\
    stdout w'
    = (stdout w ++ menu
       ++ [Prompt "Select an option: "; Print "Login required.";
           Prompt "Enter username: "; Prompt "Enter password: ";
           Print "Login successful."; Print "User authenticated.";
           Prompt "Enter the course ID: "; Prompt "Enter the course title: ";
           Prompt "Enter the course credits: ";
           Prompt "Enter the course description: ";
           Prompt "Enter course prerequisites (space-separated, leave empty for none): "])%list.
Proof.
  intros Hdb Htx Hutx Hin.
  unfold main.
  rewrite (bind_ok _ _ _ _ _ (main_init_world w)).
  destruct w as [cdb ctx udb utx ccsv ucsv inp out dl ua uc].
  cbn [course_db course_txn user_txn stdin] in Hdb, Htx, Hutx, Hin.
  subst cdb ctx utx inp.
  world_simpl.
  set (w1 := mkWorld None None (Some (stored_users udb)) None ccsv ucsv
                     ("4" :: "admin" :: "admin" :: a :: b :: c :: d :: e :: rest)
                     out true false None).
  destruct (display_main_menu_run w1) as [menu Hmenu].
  eexists. exists menu.
  split.
  - apply bind_raise.
    cbn [List.length main_loop].
    apply bind_raise. unfold main_turn.
    rewrite (bind_ok _ _ _ _ _ Hmenu).
    apply try_except_raise; [|reflexivity].
    erewrite bind_input by reflexivity.
    rewrite dispatch_gate; [|reflexivity|left; reflexivity].
    rewrite (login_gate_pair _ "4" "admin" "admin"
               (a :: b :: c :: d :: e :: rest) (stored_users udb));
      [|reflexivity|reflexivity|reflexivity|left; split; reflexivity].
    apply bind_raise.
    rewrite course_operation_4.
    unfold w1. world_eval. mstep.
    unfold add_course. do 5 mstep.
    unfold bind, courses_read. world_simpl. reflexivity.
  - unfold w1. world_simpl.
    split; [reflexivity|]. split; [reflexivity|]. split; [reflexivity|].
    rewrite <- !app_assoc. reflexivity.
Qed.

(** The input at which C3 fails: a first run. Neither database file is
    there; option "4" is chosen first, the administrator logs in and types
    a course. *)
Definition first_run_world : World :=
  boot None None (Some [["CS101"; "Intro"; "3"; "Basics"; ""]]) None
    ["4"; "admin"; "admin";
     "cs200"; "algorithm design"; "3"; "Sorting and searching"; "";
     "0"; "y"].

(** C3 at its failing input. The flag that gates [add_course] and
    [delete_course] is set before the main loop from the existence of the
    user database, which the program has just opened: it is true from the
    start, in every session. In a first run, where no course was ever
    loaded and course_database.db has no table, [add_course] is therefore
    not refused with "Course data is not loaded...": it reads the five
    lines of the course and its SELECT raises an OperationalError that
    ends the program. In [add_course] itself the gate is as the claim has
    it: with the flag false nothing is read and nothing changes. *)
Theorem add_course_before_any_load :
  (forall w, exists w', main_init w = Ok tt w' /\ data_loaded w' = true) /\
  (forall w,
     add_course false w
     = Ok tt (set_stdout
                (stdout w ++ [Print "Course data is not loaded. Please choose option 1 to load data."])%list
                w)) /\
  (forall w a b c d e rest,
     course_db w = None ->
     course_txn w = None ->
     user_txn w = None ->
     stdin w = "4" :: "admin" :: "admin" :: a :: b :: c :: d :: e :: rest ->
     exists (w' : World) (menu : list event),
       main w = Raise OperationalError w' /\
       stdin w' = rest /\ course_db w' = None /\ course_txn w' = None /\
       stdout w'
       = (stdout w ++ menu
          ++ [Prompt "Select an option: "; Print "Login required.";
              Prompt "Enter username: "; Prompt "Enter password: ";
              Print "Login successful."; Print "User authenticated.";
              Prompt "Enter the course ID: "; Prompt "Enter the course title: ";
              Prompt "Enter the course credits: ";
              Prompt "Enter the course description: ";
              Prompt "Enter course prerequisites (space-separated, leave empty for none): "])%list) /\
  course_db first_run_world = None /\
  user_db first_run_world = None /\
  (exists w',
     main first_run_world = Raise OperationalError w' /\
     stdin w' = ["0"; "y"] /\
     ~ In (Print "Course data is not loaded. Please choose option 1 to load data.")
          (stdout w')) /\
  files_after (main first_run_world) = Some (None, Some []).
Proof.
  split; [|split; [|split; [|split; [|split; [|split]]]]].
  - intros w. destruct (main_init_run w) as [w' [H1 [H2 _]]]. eauto.
  - intros w. reflexivity.
  - intros w a b c d e rest. apply first_run_add_course.
  - reflexivity.
  - reflexivity.
  - eexists. split; [vm_compute; reflexivity|]. split; [reflexivity|].
    intros H. vm_compute in H.
    repeat (destruct H as [H|H]; [discriminate H|]). exact H.
  - vm_compute. reflexivity.
Qed.
